(** * Reddit Pulse Analytics: the enrichment and insight pipeline

    A shallow embedding of [src/utils.py], [src/data_processor.py] and the
    sentiment analyzer class, with the properties of the specification
    proved about it.

    - Python [str] values are lists of code points.  The code points
      modelled are U+0000 to U+00FF (one [ascii] each), with Python's own
      classification of them ([str.lower], [str.isspace], the regex
      classes [\w] and [\s]).
    - A pandas [DataFrame] is a mutable object: frames live in a heap and
      the functions of the pipeline receive and return references.
    - [try]/[except] is modelled by an error-and-state monad: a raised
      exception keeps the heap as it was at the raise. *)

From stdpp Require Import gmap.
From Stdlib Require Import ZArith NArith List String Ascii Bool Lia.
From Stdlib Require Import PrimFloat FloatOps SpecFloat.
From Stdlib Require Import Sorting.Sorted.
Import ListNotations.

Open Scope string_scope.
Open Scope list_scope.
Open Scope Z_scope.

(** ** Python strings *)

Definition str := list ascii.

Definition str_of (s : string) : str := list_ascii_of_string s.
Coercion str_of : string >-> str.

Definition str_eq_dec (a b : str) : {a = b} + {a <> b} :=
  list_eq_dec ascii_dec a b.

Definition str_eqb (a b : str) : bool :=
  if str_eq_dec a b then true else false.

Definition in_range (lo hi : N) (c : ascii) : bool :=
  (N.leb lo (N_of_ascii c) && N.leb (N_of_ascii c) hi)%bool.

(** [str.isspace], which is also the regex class [\s] on [str] patterns
    and the separator set of [str.split()]. *)
Definition is_space (c : ascii) : bool :=
  (in_range 9 13 c || in_range 28 32 c || in_range 133 133 c
   || in_range 160 160 c)%bool.

(** [[A-Z]] and [[A-Za-z]]: ASCII only. *)
Definition is_ascii_upper (c : ascii) : bool := in_range 65 90 c.
Definition is_ascii_alpha (c : ascii) : bool :=
  (in_range 65 90 c || in_range 97 122 c)%bool.

(** The regex class [\w] on [str] patterns: alphanumeric in the sense of
    [str.isalnum], or the underscore. *)
Definition is_word (c : ascii) : bool :=
  (in_range 48 57 c || in_range 65 90 c || in_range 95 95 c
   || in_range 97 122 c
   || in_range 170 170 c || in_range 178 179 c || in_range 181 181 c
   || in_range 185 186 c || in_range 188 190 c
   || in_range 192 214 c || in_range 216 246 c || in_range 248 255 c)%bool.

(** [str.lower] on one code point. *)
Definition lower_char (c : ascii) : ascii :=
  if (in_range 65 90 c || in_range 192 214 c || in_range 216 222 c)%bool
  then ascii_of_N (N_of_ascii c + 32)
  else c.

Definition lower (s : str) : str := map lower_char s.

Definition space : ascii := " "%char.

(** *** Regular expression scanning

    [re.sub] and [re.findall] walk the text from left to right: at each
    position the pattern is tried; where it matches, the match is consumed
    and the scan goes on behind it, otherwise the scan moves one code
    point on.  A matcher receives the code point before the position (for
    [\b]) and the remaining text and answers with its capture and the text
    behind the match.  None of the patterns of the program matches the
    empty string. *)

Inductive scan_item (A : Type) : Type :=
| Matched (a : A)
| Unmatched (c : ascii).
Arguments Matched {A} a.
Arguments Unmatched {A} c.

Definition matcher (A : Type) : Type :=
  option ascii -> str -> option (A * str * str).

Fixpoint re_scan {A} (m : matcher A) (fuel : nat) (prev : option ascii)
  (s : str) : list (scan_item A) :=
  match fuel with
  | O => []
  | S fuel' =>
      match s with
      | [] => []
      | c :: s' =>
          match m prev s with
          | Some (a, matched, rest) =>
              Matched a :: re_scan m fuel' (Some (last matched c)) rest
          | None => Unmatched c :: re_scan m fuel' (Some c) s'
          end
      end
  end.

Definition unmatched_of {A} (i : scan_item A) : str :=
  match i with Matched _ => [] | Unmatched c => [c] end.

Definition captures_of {A} (i : scan_item A) : list A :=
  match i with Matched a => [a] | Unmatched _ => [] end.

(** [re.sub(pattern, '', s)] *)
Definition re_sub_empty {A} (m : matcher A) (s : str) : str :=
  flat_map unmatched_of (re_scan m (List.length s) None s).

(** [re.findall(pattern, s)] for a pattern with one group *)
Definition re_findall {A} (m : matcher A) (s : str) : list A :=
  flat_map captures_of (re_scan m (List.length s) None s).

Fixpoint strip_prefix (p s : str) : option str :=
  match p with
  | [] => Some s
  | a :: p' =>
      match s with
      | [] => None
      | b :: s' => if ascii_dec a b then strip_prefix p' s' else None
      end
  end.

(** The longest prefix of code points satisfying [p], at most [n] of them,
    and what follows it: a greedy [{0,n}] repetition of a character
    class. *)
Fixpoint span_upto (p : ascii -> bool) (n : nat) (s : str) : str * str :=
  match n with
  | O => ([], s)
  | S n' =>
      match s with
      | [] => ([], [])
      | c :: s' =>
          if p c then let (a, b) := span_upto p n' s' in (c :: a, b)
          else ([], s)
      end
  end.

(** A greedy [*] repetition of a character class. *)
Definition span (p : ascii -> bool) (s : str) : str * str :=
  span_upto p (List.length s) s.

Definition non_space (c : ascii) : bool := negb (is_space c).

(** [lit\S+]: the literal, then one or more code points that are not
    white space, as many as there are. *)
Definition match_lit_nonspace (lit : str) (s : str) : option (str * str) :=
  match strip_prefix lit s with
  | Some r =>
      let (tok, rest) := span non_space r in
      match tok with
      | [] => None
      | _ :: _ => Some (lit ++ tok, rest)
      end
  | None => None
  end.

Definition or_else {A} (a b : option A) : option A :=
  match a with Some _ => a | None => b end.

(** [r'http\S+|www\S+|https\S+']: the alternatives are tried in order. *)
Definition url_pattern : matcher unit :=
  fun _ s =>
    match or_else (match_lit_nonspace "http" s)
            (or_else (match_lit_nonspace "www" s)
               (match_lit_nonspace "https" s)) with
    | Some (m, rest) => Some (tt, m, rest)
    | None => None
    end.

(** [r'[^\w\s]'] matches one code point that is neither a word character
    nor white space. *)
Definition special_pattern : matcher unit :=
  fun _ s =>
    match s with
    | c :: rest =>
        if (is_word c || is_space c)%bool then None
        else Some (tt, [c], rest)
    | [] => None
    end.

(** [str.split()]: the maximal runs of code points that are not white
    space.  The text is folded from its end; the first component is the
    run the fold is inside of. *)
Definition push_token (cur : str) (toks : list str) : list str :=
  match cur with [] => toks | _ :: _ => cur :: toks end.

Definition split_step (c : ascii) (acc : str * list str) : str * list str :=
  let (cur, toks) := acc in
  if is_space c then ([], push_token cur toks) else (c :: cur, toks).

Definition split_ws (s : str) : list str :=
  let (cur, toks) := fold_right split_step ([], []) s in
  push_token cur toks.

(** [sep.join(parts)] *)
Fixpoint join (sep : str) (parts : list str) : str :=
  match parts with
  | [] => []
  | [t] => t
  | t :: rest => t ++ sep ++ join sep rest
  end.

(** [str.strip()] *)
Fixpoint lstrip (s : str) : str :=
  match s with
  | c :: s' => if is_space c then lstrip s' else s
  | [] => []
  end.

Definition strip (s : str) : str := rev (lstrip (rev (lstrip s))).

(** ** Exceptions *)

Inductive exn : Type :=
| KeyError (key : string)
| TypeError
| AttributeError
| ValueError (msg : string).

Inductive result (A : Type) : Type :=
| Ok (a : A)
| Raise (e : exn).
Arguments Ok {A} a.
Arguments Raise {A} e.

(** ** TextPreprocessor *)

(** What [clean_text] can be handed: a [str], a missing value ([None],
    [NaN] or [NaT], the values [pd.isna] is true of), or another scalar (a
    number, a boolean, a timestamp), which has no [lower] method. *)
Inductive pyscalar : Type :=
| PStr (s : str)
| PMissing
| POther.

Definition isna (x : pyscalar) : bool :=
  match x with PMissing => true | _ => false end.

(** The [try] block of [clean_text]. *)
Definition clean_text_body (text : pyscalar) : result str :=
  match text with
  | PStr s =>
      let text := lower s in
      let text := re_sub_empty url_pattern text in
      let text := re_sub_empty special_pattern text in
      let text := join " " (split_ws text) in
      Ok text
  | _ => Raise AttributeError
  end.

Definition clean_text (text : pyscalar) : str :=
  if isna text then ""
  else match clean_text_body text with
       | Ok s => s
       | Raise _ => ""
       end.

(** [list(set(l))]: the distinct elements.  Python leaves their order
    open; the model keeps the order of first occurrence and nothing below
    depends on it. *)
Fixpoint distinct (l : list str) : list str :=
  match l with
  | [] => []
  | x :: l' =>
      x :: List.filter (fun y => negb (str_eqb x y)) (distinct l')
  end.

(** [r'@(\w+)'] *)
Definition mention_pattern : matcher str :=
  fun _ s =>
    match s with
    | c :: r =>
        if ascii_dec c "@"%char then
          let (w, rest) := span is_word r in
          match w with
          | [] => None
          | _ :: _ => Some (w, c :: w, rest)
          end
        else None
    | [] => None
    end.

(** The [try] block of [extract_mentions]; [re.findall] wants a [str]. *)
Definition extract_mentions_body (text : pyscalar) : result (list str) :=
  match text with
  | PStr s =>
      let mentions := re_findall mention_pattern s in
      Ok (distinct mentions)
  | _ => Raise TypeError
  end.

Definition extract_mentions (text : pyscalar) : list str :=
  match extract_mentions_body text with
  | Ok l => l
  | Raise _ => []
  end.

(** [r'\$([A-Za-z]{1,5})'] *)
Definition dollar_ticker_pattern : matcher str :=
  fun _ s =>
    match s with
    | c :: r =>
        if ascii_dec c "$"%char then
          let (w, rest) := span_upto is_ascii_alpha 5 r in
          match w with
          | [] => None
          | _ :: _ => Some (w, c :: w, rest)
          end
        else None
    | [] => None
    end.

(** [\b]: exactly one of the code points around the position is a word
    character (the ends of the text count as none). *)
Definition word_at (c : option ascii) : bool :=
  match c with Some c => is_word c | None => false end.

Definition boundary (before after : option ascii) : bool :=
  xorb (word_at before) (word_at after).

(** [r'\b([A-Z]{2,5})\b'].  The repetition is greedy and gives back one
    letter at a time until the closing [\b] holds; inside a run of
    capitals it never does, so only the longest run can match. *)
Definition bare_ticker_pattern : matcher str :=
  fun prev s =>
    if boundary prev (hd_error s) then
      let (w, rest) := span_upto is_ascii_upper 5 s in
      if (Nat.leb 2 (List.length w)
          && boundary (Some (last w space)) (hd_error rest))%bool
      then Some (w, w, rest)
      else None
    else None.

(** The [try] block of [extract_tickers]. *)
Definition extract_tickers_body (text : pyscalar) : result (list str) :=
  match text with
  | PStr s =>
      let tickers := re_findall dollar_ticker_pattern s in
      let tickers := tickers ++ re_findall bare_ticker_pattern s in
      Ok (distinct tickers)
  | _ => Raise TypeError
  end.

Definition extract_tickers (text : pyscalar) : list str :=
  match extract_tickers_body text with
  | Ok l => l
  | Raise _ => []
  end.

(** *** The shape of normalized text *)

Definition only_word_or_space (s : str) : bool :=
  forallb (fun c => (is_word c || Ascii.eqb c space)%bool) s.

Definition starts_with_space (s : str) : bool :=
  match s with c :: _ => is_space c | [] => false end.

Definition ends_with_space (s : str) : bool := starts_with_space (rev s).

Fixpoint has_double_space (s : str) : bool :=
  match s with
  | c :: s' =>
      (is_space c && starts_with_space s' || has_double_space s')%bool
  | [] => false
  end.

(** Some position of the text is the start of a match of the URL
    pattern. *)
Fixpoint contains_url (s : str) : bool :=
  match s with
  | [] => false
  | _ :: s' =>
      (match url_pattern None s with Some _ => true | None => false end
       || contains_url s')%bool
  end.

(** Normalized text: word characters and single spaces between them. *)
Definition normalized (s : str) : bool :=
  (only_word_or_space s && negb (starts_with_space s)
   && negb (ends_with_space s) && negb (has_double_space s))%bool.

(** ** DataProcessor.identify_trending_topics *)

Definition stop_words : list str :=
  map str_of ["the"; "and"; "is"; "in"; "to"; "a"; "for"].

Definition mem (w : str) (l : list str) : bool := existsb (str_eqb w) l.

(** [word_counts[word] += 1] on a [defaultdict(int)].  A dictionary keeps
    its keys in the order of their first insertion. *)
Fixpoint incr (word : str) (d : list (str * nat)) : list (str * nat) :=
  match d with
  | [] => [(word, 1%nat)]
  | (k, n) :: d' =>
      if str_eqb k word then (k, S n) :: d' else (k, n) :: incr word d'
  end.

Definition count_words (words : list str) : list (str * nat) :=
  fold_left (fun d w => incr w d) words [].

(** [sorted(trending, key=lambda x: x['count'], reverse=True)].  Python's
    sort is stable, also with [reverse=True]: entries with equal counts
    keep the order they had.  The model inserts the entries from the last
    to the first, each before the first entry that does not count more. *)
Fixpoint insert_desc (x : str * nat) (l : list (str * nat))
  : list (str * nat) :=
  match l with
  | [] => [x]
  | y :: l' =>
      if Nat.leb (snd y) (snd x) then x :: y :: l'
      else y :: insert_desc x l'
  end.

Definition sorted_desc (l : list (str * nat)) : list (str * nat) :=
  fold_right insert_desc [] l.

(** [' '.join(texts)] raises [TypeError] unless every item is a [str]. *)
Fixpoint strs_of (texts : list pyscalar) : result (list str) :=
  match texts with
  | [] => Ok []
  | PStr s :: texts' =>
      match strs_of texts' with
      | Ok l => Ok (s :: l)
      | Raise e => Raise e
      end
  | _ :: _ => Raise TypeError
  end.

(** A topic is the pair of the entries ['topic'] and ['count'] of the
    dictionary the source builds. *)
Definition identify_trending_topics_body (texts : list pyscalar)
  (min_count : Z) : result (list (str * nat)) :=
  match strs_of texts with
  | Raise e => Raise e
  | Ok texts =>
      let combined_text := join " " texts in
      let words := split_ws (lower combined_text) in
      let words :=
        List.filter
          (fun w => (negb (mem w stop_words)
                     && Nat.ltb 2 (List.length w))%bool) words in
      let word_counts := count_words words in
      let trending :=
        List.filter (fun wc => Z.leb min_count (Z.of_nat (snd wc)))
          word_counts in
      Ok (sorted_desc trending)
  end.

Definition identify_trending_topics (texts : list pyscalar) (min_count : Z)
  : list (str * nat) :=
  match identify_trending_topics_body texts min_count with
  | Ok r => r
  | Raise _ => []
  end.

Definition default_min_count : Z := 3.

(** *** The specification's reading of the trending topics *)

(** The words that count: the texts joined, lowercased and split on white
    space, without the stop words and the tokens of length 2 or less. *)
Definition topic_words (texts : list str) : list str :=
  List.filter
    (fun w => (negb (mem w stop_words) && negb (Nat.leb (List.length w) 2))%bool)
    (split_ws (lower (join " " texts))).

(** How often a word occurs. *)
Definition occurrences (words : list str) (w : str) : nat :=
  count_occ str_eq_dec words w.



(** ** Numbers *)

(** The conversion of an [int64] to a [float64], rounded to nearest. *)
Definition float_of_Z (z : Z) : float :=
  SF2Prim (binary_normalize prec emax z 0 false).

Definition float_of_bool (b : bool) : float :=
  if b then 1%float else 0%float.

(** ** Series and frames *)

(** A cell of an [object] column: a [str], a missing value, or a list of
    [str] (the cells of the columns [mentions] and [tickers]). *)
Inductive obj : Type :=
| OStr (s : str)
| ONone
| OList (l : list str).

(** A column, by its dtype.  A [datetime64] cell is a number of
    nanoseconds since 1970-01-01T00:00, or [NaT]. *)
Inductive Series : Type :=
| SInt (l : list Z)
| SFloat (l : list float)
| SBool (l : list bool)
| SDatetime (l : list (option Z))
| SObject (l : list obj).

Inductive cell : Type :=
| CInt (z : Z)
| CFloat (f : float)
| CBool (b : bool)
| CTime (t : option Z)
| CObj (o : obj).

Definition cells (s : Series) : list cell :=
  match s with
  | SInt l => map CInt l
  | SFloat l => map CFloat l
  | SBool l => map CBool l
  | SDatetime l => map CTime l
  | SObject l => map CObj l
  end.

Definition cell_at (s : Series) (i : nat) : option cell :=
  nth_error (cells s) i.

(** [pd.isna] of a cell *)
Definition cell_isna (c : cell) : bool :=
  match c with
  | CFloat f => PrimFloat.is_nan f
  | CTime None => true
  | CObj ONone => true
  | _ => false
  end.

(** A frame: its columns in their order.  The columns of one frame have
    the same length. *)
Definition DataFrame : Type := list (string * Series).

Fixpoint df_get (df : DataFrame) (col : string) : option Series :=
  match df with
  | [] => None
  | (k, s) :: df' => if String.eqb k col then Some s else df_get df' col
  end.

(** Assignment to a column replaces it where it stands or appends it. *)
Fixpoint df_set (df : DataFrame) (col : string) (s : Series) : DataFrame :=
  match df with
  | [] => [(col, s)]
  | (k, s') :: df' =>
      if String.eqb k col then (k, s) :: df'
      else (k, s') :: df_set df' col s
  end.

Definition df_columns (df : DataFrame) : list string := map fst df.

(** ** The heap and the monad of the pipeline *)

Definition loc : Type := positive.
Bind Scope positive_scope with loc.

Abbreviation heap := (gmap loc DataFrame).

(** What a caller can pass for [df]: a reference to a frame, or something
    that is no frame ([None] stands for all of those). *)
Inductive pyobj : Type :=
| PyNone
| PyFrame (l : loc).

Definition M (A : Type) : Type := heap -> result A * heap.

Definition ret {A} (a : A) : M A := fun h => (Ok a, h).

Definition raise {A} (e : exn) : M A := fun h => (Raise e, h).

Definition bind {A B} (m : M A) (k : A -> M B) : M B :=
  fun h =>
    match m h with
    | (Ok a, h') => k a h'
    | (Raise e, h') => (Raise e, h')
    end.

(** [try: m except Exception as e: handler e] *)
Definition try_except {A} (m : M A) (handler : exn -> M A) : M A :=
  fun h =>
    match m h with
    | (Ok a, h') => (Ok a, h')
    | (Raise e, h') => handler e h'
    end.

Definition lift {A} (r : result A) : M A := fun h => (r, h).

Notation "x <- c ;; k" := (bind c (fun x => k))
  (at level 100, c at next level, right associativity).
Notation "c ;; k" := (bind c (fun _ => k))
  (at level 100, right associativity).

(** The frame behind a reference.  Attribute access and subscription on
    a value that is no frame raise. *)
Definition deref (df : pyobj) (e : exn) : M DataFrame :=
  fun h =>
    match df with
    | PyFrame l =>
        match h !! l with
        | Some f => (Ok f, h)
        | None => (Raise e, h)
        end
    | PyNone => (Raise e, h)
    end.

(** [df.columns] *)
Definition columns (df : pyobj) : M (list string) :=
  f <- deref df AttributeError ;; ret (df_columns f).

(** [df[col]] *)
Definition getitem (df : pyobj) (col : string) : M Series :=
  f <- deref df TypeError ;;
  match df_get f col with
  | Some s => ret s
  | None => raise (KeyError col)
  end.

(** [df[col] = s]: the frame behind the reference is changed in place. *)
Definition setitem (df : pyobj) (col : string) (s : Series) : M unit :=
  f <- deref df TypeError ;;
  fun h =>
    match df with
    | PyFrame l => (Ok tt, <[l := df_set f col s]> h)
    | PyNone => (Raise TypeError, h)
    end.

(** ** DataValidator *)

Definition required_columns : list string :=
  ["title"; "text"; "score"; "created_utc"; "num_comments"; "upvote_ratio"].

Definition is_numeric_dtype (s : Series) : bool :=
  match s with SInt _ | SFloat _ | SBool _ => true | _ => false end.

Definition is_datetime64_any_dtype (s : Series) : bool :=
  match s with SDatetime _ => true | _ => false end.

Definition is_float_dtype (s : Series) : bool :=
  match s with SFloat _ => true | _ => false end.

(** [s.isnull().any()] *)
Definition isnull_any (s : Series) : bool := existsb cell_isna (cells s).

Definition col_in (cols : list string) (col : string) : bool :=
  existsb (String.eqb col) cols.

(** The [try] block of [validate_reddit_data]. *)
Definition validate_reddit_data_body (df : pyobj) : M bool :=
  cols <- columns df ;;
  if negb (forallb (col_in cols) required_columns) then ret false
  else
    score <- getitem df "score" ;;
    if negb (is_numeric_dtype score) then ret false
    else
      created_utc <- getitem df "created_utc" ;;
      if negb (is_datetime64_any_dtype created_utc) then ret false
      else
        num_comments <- getitem df "num_comments" ;;
        if negb (is_numeric_dtype num_comments) then ret false
        else
          upvote_ratio <- getitem df "upvote_ratio" ;;
          if negb (is_float_dtype upvote_ratio) then ret false
          else
            title <- getitem df "title" ;;
            if isnull_any title then ret false
            else ret true.

Definition validate_reddit_data (df : pyobj) : M bool :=
  try_except (validate_reddit_data_body df) (fun _ => ret false).

(** ** DataProcessor.calculate_engagement_metrics *)

(** The values of a column as [float64], for arithmetic with a float.
    Timestamps, strings, [None] and lists do not take part in it. *)
Definition to_floats (s : Series) : result (list float) :=
  match s with
  | SInt l => Ok (map float_of_Z l)
  | SFloat l => Ok l
  | SBool l => Ok (map float_of_bool l)
  | SDatetime _ => Raise TypeError
  | SObject [] => Ok []
  | SObject (_ :: _) => Raise TypeError
  end.

Fixpoint zip_with {A B C} (f : A -> B -> C) (a : list A) (b : list B)
  : list C :=
  match a, b with
  | x :: a', y :: b' => f x y :: zip_with f a' b'
  | _, _ => []
  end.

(** [s * x] for a float [x] *)
Definition series_mul_scalar (s : Series) (x : float) : result Series :=
  match to_floats s with
  | Ok l => Ok (SFloat (map (fun a => PrimFloat.mul a x) l))
  | Raise e => Raise e
  end.

Definition series_binop (op : float -> float -> float) (a b : Series)
  : result Series :=
  match to_floats a with
  | Ok la =>
      match to_floats b with
      | Ok lb => Ok (SFloat (zip_with op la lb))
      | Raise e => Raise e
      end
  | Raise e => Raise e
  end.

Definition series_add : Series -> Series -> result Series :=
  series_binop PrimFloat.add.

Definition series_mul : Series -> Series -> result Series :=
  series_binop PrimFloat.mul.

Definition ns_per_hour : Z := 3600000000000.
Definition ns_per_day : Z := 86400000000000.

(** The hour of a timestamp, and its day of the week counted from Monday
    (1970-01-01 was a Thursday). *)
Definition hour_of (t : Z) : Z := (t / ns_per_hour) mod 24.
Definition weekday_of (t : Z) : Z := (t / ns_per_day + 3) mod 7.

Definition day_names : list str :=
  map str_of ["Monday"; "Tuesday"; "Wednesday"; "Thursday"; "Friday";
              "Saturday"; "Sunday"].

Definition day_name_of (t : Z) : str :=
  nth (Z.to_nat (weekday_of t)) day_names [].

Definition is_some {A} (o : option A) : bool :=
  match o with Some _ => true | None => false end.

(** [s.dt.hour]: integers, or floats with [NaN] at the [NaT] rows when
    there are any.  The accessor [.dt] exists on datetime columns only. *)
Definition dt_hour (s : Series) : result Series :=
  match s with
  | SDatetime l =>
      if forallb is_some l
      then Ok (SInt (map (fun t => match t with
                                   | Some t => hour_of t
                                   | None => 0
                                   end) l))
      else Ok (SFloat (map (fun t => match t with
                                     | Some t => float_of_Z (hour_of t)
                                     | None => PrimFloat.nan
                                     end) l))
  | _ => Raise AttributeError
  end.

(** [s.dt.day_name()]: a missing value at the [NaT] rows. *)
Definition dt_day_name (s : Series) : result Series :=
  match s with
  | SDatetime l =>
      Ok (SObject (map (fun t => match t with
                                 | Some t => OStr (day_name_of t)
                                 | None => ONone
                                 end) l))
  | _ => Raise AttributeError
  end.

(** The [try] block of [calculate_engagement_metrics]. *)
Definition calculate_engagement_metrics_body (df : pyobj) : M pyobj :=
  score <- getitem df "score" ;;
  a <- lift (series_mul_scalar score 1.0%float) ;;
  num_comments <- getitem df "num_comments" ;;
  b <- lift (series_mul_scalar num_comments 2.0%float) ;;
  ab <- lift (series_add a b) ;;
  upvote_ratio <- getitem df "upvote_ratio" ;;
  engagement_score <- lift (series_mul ab upvote_ratio) ;;
  setitem df "engagement_score" engagement_score ;;
  created_utc <- getitem df "created_utc" ;;
  hour <- lift (dt_hour created_utc) ;;
  setitem df "hour_of_day" hour ;;
  created_utc <- getitem df "created_utc" ;;
  day <- lift (dt_day_name created_utc) ;;
  setitem df "day_of_week" day ;;
  ret df.

Definition calculate_engagement_metrics (df : pyobj) : M pyobj :=
  try_except (calculate_engagement_metrics_body df) (fun _ => ret df).

(** *** The specification's reading of the engagement metrics *)

Definition engagement_formula (score num_comments upvote_ratio : float)
  : float :=
  PrimFloat.mul
    (PrimFloat.add (PrimFloat.mul score 1.0%float)
       (PrimFloat.mul num_comments 2.0%float))
    upvote_ratio.

(** A cell that holds a number from 0 to 23. *)
Definition hour_cell (c : cell) : bool :=
  match c with
  | CInt z => ((0 <=? z) && (z <=? 23))%bool
  | CFloat f => (PrimFloat.leb 0%float f && PrimFloat.leb f 23%float)%bool
  | _ => false
  end.

(** A cell that holds the name of a day. *)
Definition day_cell (c : cell) : bool :=
  match c with
  | CObj (OStr s) => mem s day_names
  | _ => false
  end.

(** ** Applying the text functions to a column *)

(** The value [Series.apply] and iteration hand over for a cell.  A list
    is no [str]; where the function asks [pd.isna] first, lists are dealt
    with apart (below). *)
Definition scalar_of (c : cell) : pyscalar :=
  match c with
  | CObj (OStr s) => PStr s
  | CObj (OList _) => POther
  | _ => if cell_isna c then PMissing else POther
  end.

Fixpoint map_result {A B} (f : A -> result B) (l : list A)
  : result (list B) :=
  match l with
  | [] => Ok []
  | x :: l' =>
      match f x with
      | Ok y =>
          match map_result f l' with
          | Ok ys => Ok (y :: ys)
          | Raise e => Raise e
          end
      | Raise e => Raise e
      end
  end.

Definition ambiguous : exn :=
  ValueError "The truth value of an array is ambiguous".

(** [clean_text] on a cell.  For a list, [pd.isna] answers with an array:
    [if] on it is an error unless the list has one element, and the error
    is outside the [try] block; with one element, a [str], the test is
    false and [lower] is missing. *)
Definition clean_text_cell (c : cell) : result str :=
  match c with
  | CObj (OList l) =>
      if Nat.eqb (List.length l) 1 then Ok (clean_text POther)
      else Raise ambiguous
  | _ => Ok (clean_text (scalar_of c))
  end.

(** [s.apply(clean_text)] *)
Definition series_apply_clean_text (s : Series) : result Series :=
  match map_result clean_text_cell (cells s) with
  | Ok l => Ok (SObject (map OStr l))
  | Raise e => Raise e
  end.

(** [s.apply(extract)] for [extract_mentions] and [extract_tickers] *)
Definition series_apply_extract (extract : pyscalar -> list str)
  (s : Series) : Series :=
  SObject (map (fun c => OList (extract (scalar_of c))) (cells s)).

(** [a + b] on the cells of object columns *)
Definition obj_add (a b : obj) : result obj :=
  match a, b with
  | OStr x, OStr y => Ok (OStr (x ++ y))
  | OList x, OList y => Ok (OList (x ++ y))
  | _, _ => Raise TypeError
  end.

(** [s + x] for a [str] [x] *)
Definition series_add_str (s : Series) (x : str) : result Series :=
  match s with
  | SObject l =>
      match map_result (fun o => obj_add o (OStr x)) l with
      | Ok l' => Ok (SObject l')
      | Raise e => Raise e
      end
  | _ => Raise TypeError
  end.

(** [a + b] for two columns of strings *)
Definition series_concat (a b : Series) : result Series :=
  match a, b with
  | SObject la, SObject lb =>
      match map_result (fun p => obj_add (fst p) (snd p)) (combine la lb) with
      | Ok l => Ok (SObject l)
      | Raise e => Raise e
      end
  | _, _ => Raise TypeError
  end.

(** ** SentimentAnalyzer *)

(** The analyzer object: the flag, the transformer pipeline (the first
    entry of its answer, a label and a score) and TextBlob's polarity.
    Both models are capabilities from outside and may raise. *)
Record SentimentAnalyzer : Type := {
  use_transformers : bool;
  sentiment_model : str -> result (str * float);
  textblob_polarity : str -> result float
}.

Definition neutral : str * float := (str_of "neutral", 0.5%float).

(** 0.1 as a [float64] *)
Definition tenth : float := 0x1.999999999999ap-4%float.

(** Python's [min(a, b)] and [max(a, b)] *)
Definition py_min (a b : float) : float := if PrimFloat.ltb b a then b else a.
Definition py_max (a b : float) : float := if PrimFloat.ltb a b then b else a.

(** The [try] block of [analyze_text]. *)
Definition analyze_text_body (self : SentimentAnalyzer) (text : str)
  : result (str * float) :=
  if use_transformers self then sentiment_model self text
  else
    match textblob_polarity self text with
    | Raise e => Raise e
    | Ok polarity =>
        if PrimFloat.ltb tenth polarity then
          Ok (str_of "positive",
              py_min (PrimFloat.add 0.5%float polarity) 1.0%float)
        else if PrimFloat.ltb polarity (PrimFloat.opp tenth) then
          Ok (str_of "negative",
              py_max (PrimFloat.sub 0.5%float (PrimFloat.abs polarity))
                0.0%float)
        else Ok neutral
    end.

(** [analyze_text]: the test for empty text stands before the [try]
    block, so a value without [strip] raises. *)
Definition analyze_text (self : SentimentAnalyzer) (text : pyscalar)
  : result (str * float) :=
  match text with
  | PMissing => Ok neutral
  | POther => Raise AttributeError
  | PStr s =>
      match strip s with
      | [] => Ok neutral
      | _ :: _ =>
          match analyze_text_body self s with
          | Ok r => Ok r
          | Raise _ => Ok neutral
          end
      end
  end.

(** [analyze_text] on a cell; a list fails the test for empty text. *)
Definition analyze_text_cell (self : SentimentAnalyzer) (c : cell)
  : result (str * float) :=
  match c with
  | CObj (OList l) =>
      if Nat.eqb (List.length l) 1 then Raise AttributeError
      else Raise ambiguous
  | _ => analyze_text self (scalar_of c)
  end.

(** [[self.analyze_text(text) for text in texts]] *)
Definition analyze_texts_batch (self : SentimentAnalyzer) (texts : Series)
  : result (list (str * float)) :=
  map_result (analyze_text_cell self) (cells texts).

(** ** Insights *)

(** The reductions of pandas that the insights use and that the model
    takes as given: [Series.mean], [Series.std] of a series of counts,
    and the ISO week of [.dt.isocalendar()]. *)
Record Pandas : Type := {
  pd_mean : Series -> result float;
  pd_std : list nat -> float;
  pd_iso_week : list (option Z) -> Series
}.

Fixpoint str_ltb (a b : str) : bool :=
  match a, b with
  | [], _ :: _ => true
  | x :: a', y :: b' =>
      (N.ltb (N_of_ascii x) (N_of_ascii y)
       || (N.eqb (N_of_ascii x) (N_of_ascii y) && str_ltb a' b'))%bool
  | _, _ => false
  end.

Definition cell_eqb (a b : cell) : bool :=
  match a, b with
  | CInt x, CInt y => Z.eqb x y
  | CFloat x, CFloat y => PrimFloat.eqb x y
  | CBool x, CBool y => Bool.eqb x y
  | CObj (OStr x), CObj (OStr y) => str_eqb x y
  | _, _ => false
  end.

Definition cell_ltb (a b : cell) : bool :=
  match a, b with
  | CInt x, CInt y => Z.ltb x y
  | CFloat x, CFloat y => PrimFloat.ltb x y
  | CBool x, CBool y => (negb x && y)%bool
  | CObj (OStr x), CObj (OStr y) => str_ltb x y
  | _, _ => false
  end.

(** One more member of the group of a key; the groups are kept in the
    order of their keys. *)
Fixpoint bucket_add (k : cell) (b : list (cell * nat)) : list (cell * nat) :=
  match b with
  | [] => [(k, 1%nat)]
  | (k', n) :: b' =>
      if cell_eqb k k' then (k', S n) :: b'
      else if cell_ltb k k' then (k, 1%nat) :: b
      else (k', n) :: bucket_add k b'
  end.

(** [groupby(col).size()] on the cells of the column: the rows with a
    missing key belong to no group. *)
Definition group_sizes (s : Series) : list (cell * nat) :=
  fold_left (fun b c => if cell_isna c then b else bucket_add c b)
    (cells s) [].

Definition empty_sequence : exn :=
  ValueError "attempt to get argmax of an empty sequence".

(** [idxmax] and [idxmin]: the first key with the largest and with the
    smallest size; an error on an empty series. *)
Fixpoint first_best (better : nat -> nat -> bool) (best : cell * nat)
  (b : list (cell * nat)) : cell :=
  match b with
  | [] => fst best
  | x :: b' =>
      if better (snd x) (snd best) then first_best better x b'
      else first_best better best b'
  end.

Definition idxmax (b : list (cell * nat)) : result cell :=
  match b with
  | [] => Raise empty_sequence
  | x :: b' => Ok (first_best (fun n m => Nat.ltb m n) x b')
  end.

Definition idxmin (b : list (cell * nat)) : result cell :=
  match b with
  | [] => Raise empty_sequence
  | x :: b' => Ok (first_best (fun n m => Nat.ltb n m) x b')
  end.

Record bucket_stats : Type := {
  peak : cell;
  low : cell;
  std_dev : float
}.

(** The dictionary of [calculate_time_based_metrics]; [None] is the empty
    dictionary, which is also what the entry ['weekly'] always is. *)
Record time_metrics : Type := {
  hourly : option bucket_stats;
  daily : option bucket_stats
}.

Definition no_time_metrics : time_metrics :=
  {| hourly := None; daily := None |}.

(** [value_counts()]: the values that are not missing with the number of
    their occurrences, the most frequent first (equal counts in the
    order of first occurrence). *)
Fixpoint count_cell (k : cell) (d : list (cell * nat)) : list (cell * nat) :=
  match d with
  | [] => [(k, 1%nat)]
  | (k', n) :: d' =>
      if cell_eqb k k' then (k', S n) :: d' else (k', n) :: count_cell k d'
  end.

Fixpoint insert_count {A} (x : A * nat) (l : list (A * nat))
  : list (A * nat) :=
  match l with
  | [] => [x]
  | y :: l' =>
      if Nat.leb (snd y) (snd x) then x :: y :: l'
      else y :: insert_count x l'
  end.

Definition value_counts (values : list cell) : list (cell * nat) :=
  fold_right insert_count []
    (fold_left (fun d c => if cell_isna c then d else count_cell c d)
       values []).

(** [[ticker for tickers in column for ticker in tickers]]: a list gives
    its elements, a [str] its characters, anything else cannot be
    iterated. *)
Definition iterate_cell (c : cell) : result (list cell) :=
  match c with
  | CObj (OList l) => Ok (map (fun s => CObj (OStr s)) l)
  | CObj (OStr s) => Ok (map (fun ch => CObj (OStr [ch])) s)
  | _ => Raise TypeError
  end.

Definition flatten_cells (s : Series) : result (list cell) :=
  match map_result iterate_cell (cells s) with
  | Ok ls => Ok (List.concat ls)
  | Raise e => Raise e
  end.

(** [df.nlargest(n, col)]: the positions of the [n] largest values, the
    largest first, equal values in the order of the rows, rows without a
    value last.  An object column cannot be ranked.  The rows are
    inserted from the last to the first, each behind the rows that are
    larger: a row stands before the later rows of the same value. *)
Fixpoint insert_rank (x : nat * float) (l : list (nat * float))
  : list (nat * float) :=
  match l with
  | [] => [x]
  | y :: l' =>
      if PrimFloat.ltb (snd x) (snd y) then y :: insert_rank x l'
      else x :: y :: l'
  end.

Definition nlargest (n : nat) (s : Series) : result (list nat) :=
  match s with
  | SObject _ => Raise TypeError
  | SDatetime _ => Raise TypeError
  | _ =>
      match to_floats s with
      | Raise e => Raise e
      | Ok l =>
          let rows := combine (seq 0 (List.length l)) l in
          let valued :=
            List.filter (fun r => negb (PrimFloat.is_nan (snd r))) rows in
          let missing :=
            List.filter (fun r => PrimFloat.is_nan (snd r)) rows in
          Ok (firstn n
                (map fst (fold_right insert_rank [] valued ++ missing)))
      end
  end.

Record engagement_stats : Type := {
  avg_score : float;
  avg_comments : float;
  top_posts : list (option cell * option cell)
}.

Record insights_dict : Type := {
  time_metrics_of : time_metrics;
  trending_topics : list (str * nat);
  sentiment_distribution : list (cell * nat);
  top_tickers : list (cell * nat);
  engagement_stats_of : engagement_stats
}.

(** The insights: the empty dictionary or the one with all five
    entries. *)
Inductive insights : Type :=
| EmptyInsights
| Insights (d : insights_dict).

Section Pipeline.

Variable pd : Pandas.

(** [.dt.isocalendar().week] *)
Definition dt_isocalendar_week (s : Series) : result Series :=
  match s with
  | SDatetime l => Ok (pd_iso_week pd l)
  | _ => Raise AttributeError
  end.

Definition bucket_metrics (df : pyobj) (col : string) : M bucket_stats :=
  s <- getitem df col ;;
  let counts := group_sizes s in
  peak <- lift (idxmax counts) ;;
  low <- lift (idxmin counts) ;;
  ret {| peak := peak; low := low; std_dev := pd_std pd (map snd counts) |}.

(** The [try] block of [calculate_time_based_metrics]. *)
Definition calculate_time_based_metrics_body (df : pyobj)
  (timestamp_col : string) : M time_metrics :=
  ts <- getitem df timestamp_col ;;
  hour <- lift (dt_hour ts) ;;
  setitem df "hour" hour ;;
  ts <- getitem df timestamp_col ;;
  day <- lift (dt_day_name ts) ;;
  setitem df "day" day ;;
  ts <- getitem df timestamp_col ;;
  week <- lift (dt_isocalendar_week ts) ;;
  setitem df "week" week ;;
  hourly <- bucket_metrics df "hour" ;;
  daily <- bucket_metrics df "day" ;;
  ret {| hourly := Some hourly; daily := Some daily |}.

Definition calculate_time_based_metrics (df : pyobj) (timestamp_col : string)
  : M time_metrics :=
  try_except (calculate_time_based_metrics_body df timestamp_col)
    (fun _ => ret no_time_metrics).

(** The RedditDataProcessor object. *)
Variable sentiment_analyzer : SentimentAnalyzer.

(** [s.tolist()] *)
Definition tolist (s : Series) : list pyscalar := map scalar_of (cells s).

(** The [try] block of [_calculate_insights]. *)
Definition _calculate_insights_body (df : pyobj) : M insights :=
  time_metrics <- calculate_time_based_metrics df "created_utc" ;;
  clean_title <- getitem df "clean_title" ;;
  clean_text <- getitem df "clean_text" ;;
  let trending :=
    identify_trending_topics (tolist clean_title ++ tolist clean_text)
      default_min_count in
  sentiment <- getitem df "sentiment" ;;
  let sentiment_counts := value_counts (cells sentiment) in
  tickers <- getitem df "tickers" ;;
  all_tickers <- lift (flatten_cells tickers) ;;
  let ticker_counts := value_counts all_tickers in
  score <- getitem df "score" ;;
  avg_score <- lift (pd_mean pd score) ;;
  num_comments <- getitem df "num_comments" ;;
  avg_comments <- lift (pd_mean pd num_comments) ;;
  engagement <- getitem df "engagement_score" ;;
  rows <- lift (nlargest 5 engagement) ;;
  title <- getitem df "title" ;;
  engagement <- getitem df "engagement_score" ;;
  ret (Insights
         {| time_metrics_of := time_metrics;
            trending_topics := trending;
            sentiment_distribution := sentiment_counts;
            top_tickers := firstn 10 ticker_counts;
            engagement_stats_of :=
              {| avg_score := avg_score;
                 avg_comments := avg_comments;
                 top_posts :=
                   map (fun i => (cell_at title i, cell_at engagement i))
                     rows |} |}).

Definition _calculate_insights (df : pyobj) : M insights :=
  try_except (_calculate_insights_body df) (fun _ => ret EmptyInsights).

Definition invalid_format : exn := ValueError "Invalid Reddit data format".

(** The statements of [process_reddit_data] between the validation and
    the insights. *)
Definition enrich (df : pyobj) : M pyobj :=
  title <- getitem df "title" ;;
  clean_title <- lift (series_apply_clean_text title) ;;
  setitem df "clean_title" clean_title ;;
  text <- getitem df "text" ;;
  clean_text <- lift (series_apply_clean_text text) ;;
  setitem df "clean_text" clean_text ;;
  clean_text <- getitem df "clean_text" ;;
  setitem df "mentions" (series_apply_extract extract_mentions clean_text) ;;
  clean_text <- getitem df "clean_text" ;;
  setitem df "tickers" (series_apply_extract extract_tickers clean_text) ;;
  df <- calculate_engagement_metrics df ;;
  clean_title <- getitem df "clean_title" ;;
  spaced <- lift (series_add_str clean_title " ") ;;
  clean_text <- getitem df "clean_text" ;;
  texts <- lift (series_concat spaced clean_text) ;;
  sentiment_results <- lift (analyze_texts_batch sentiment_analyzer texts) ;;
  setitem df "sentiment"
    (SObject (map (fun r => OStr (fst r)) sentiment_results)) ;;
  setitem df "sentiment_score" (SFloat (map snd sentiment_results)) ;;
  ret df.

(** The [try] block of [process_reddit_data]. *)
Definition process_reddit_data_body (df : pyobj) : M (pyobj * insights) :=
  valid <- validate_reddit_data df ;;
  if negb valid then raise invalid_format
  else
    df <- enrich df ;;
    insights <- _calculate_insights df ;;
    ret (df, insights).

(** The handler logs the exception and raises it again. *)
Definition process_reddit_data (df : pyobj) : M (pyobj * insights) :=
  try_except (process_reddit_data_body df) (fun e => raise e).

End Pipeline.

(** *** The specification's reading of the validator *)

Definition has_dtype (f : DataFrame) (col : string) (p : Series -> bool)
  : bool :=
  match df_get f col with Some s => p s | None => false end.

(** The frame passes every check of the validator. *)
Definition valid_frame (f : DataFrame) : bool :=
  (forallb (col_in (df_columns f)) required_columns
   && has_dtype f "score" is_numeric_dtype
   && has_dtype f "created_utc" is_datetime64_any_dtype
   && has_dtype f "num_comments" is_numeric_dtype
   && has_dtype f "upvote_ratio" is_float_dtype
   && has_dtype f "title" (fun s => negb (isnull_any s)))%bool.

(** A frame the validator turns down, with the reason. *)
Inductive rejected (f : DataFrame) : Prop :=
| missing_column col :
    In col required_columns -> df_get f col = None -> rejected f
| score_not_numeric s :
    df_get f "score" = Some s -> is_numeric_dtype s = false -> rejected f
| num_comments_not_numeric s :
    df_get f "num_comments" = Some s -> is_numeric_dtype s = false ->
    rejected f
| created_utc_not_datetime s :
    df_get f "created_utc" = Some s -> is_datetime64_any_dtype s = false ->
    rejected f
| upvote_ratio_not_float s :
    df_get f "upvote_ratio" = Some s -> is_float_dtype s = false ->
    rejected f
| title_missing_value s :
    df_get f "title" = Some s -> isnull_any s = true -> rejected f.

(** *** Rows of a frame *)

(** The cell of a column at a row. *)
Definition cell_of (f : DataFrame) (col : string) (i : nat) : option cell :=
  match df_get f col with
  | Some s => cell_at s i
  | None => None
  end.

(** The value of a numeric column at a row, as a [float64]. *)
Definition float_at (f : DataFrame) (col : string) (i : nat) : option float :=
  match df_get f col with
  | Some s =>
      match to_floats s with
      | Ok l => nth_error l i
      | Raise _ => None
      end
  | None => None
  end.

(** The claim about the time fields, read for every row: the step leaves
    an hour from 0 to 23 and the name of a day at every row of the
    frame. *)
Definition every_row_has_hour_and_day (f f' : DataFrame) : Prop :=
  forall i c,
    cell_of f "created_utc" i = Some c ->
    exists ch cd,
      cell_of f' "hour_of_day" i = Some ch /\ hour_cell ch = true
      /\ cell_of f' "day_of_week" i = Some cd /\ day_cell cd = true.

(** 0.95 as a [float64]. *)
Definition ratio_095 : float := 0x1.e666666666666p-1%float.

(** A post whose timestamp is missing. *)
Definition frame_without_time : DataFrame :=
  [("title", SObject [OStr "GME to the moon"]);
   ("text", SObject [OStr "GME showing strong momentum"]);
   ("score", SInt [100]);
   ("created_utc", SDatetime [None]);
   ("num_comments", SInt [50]);
   ("upvote_ratio", SFloat [ratio_095])].

(** A post whose timestamp is still the epoch number of the source. *)
Definition frame_with_epoch : DataFrame :=
  [("title", SObject [OStr "GME to the moon"]);
   ("text", SObject [OStr "GME showing strong momentum"]);
   ("score", SInt [100]);
   ("created_utc", SFloat [1700000000%float]);
   ("num_comments", SInt [50]);
   ("upvote_ratio", SFloat [ratio_095])].

(** A post as the collector delivers it. *)
Definition frame_one_post : DataFrame :=
  [("title", SObject [OStr "AAPL earnings discussion"]);
   ("text", SObject [OStr "Apple earnings beat expectations $AAPL"]);
   ("score", SInt [100]);
   ("created_utc", SDatetime [Some 1700000000000000000]);
   ("num_comments", SInt [50]);
   ("upvote_ratio", SFloat [ratio_095])].

(** *** What a computation may do to the caller's frame

    [frame_spec cols l m Q]: run on a heap that holds a frame at [l], the
    computation [m] changes nothing but that frame, in it nothing but
    the columns [cols], and a value it returns satisfies [Q]. *)
Definition frame_spec {A} (cols : list string) (l : loc) (m : M A)
  (Q : A -> Prop) : Prop :=
  forall (h : heap) f,
    h !! l = Some f ->
    exists r f',
      m h = (r, <[l := f']> h)
      /\ (forall c, ~ In c cols -> df_get f' c = df_get f c)
      /\ (forall a, r = Ok a -> Q a).

(** The columns the pipeline assigns. *)
Definition engagement_columns : list string :=
  ["engagement_score"; "hour_of_day"; "day_of_week"].

Definition time_columns : list string := ["hour"; "day"; "week"].

Definition derived_columns : list string :=
  ["clean_title"; "clean_text"; "mentions"; "tickers"]
    ++ engagement_columns ++ ["sentiment"; "sentiment_score"]
    ++ time_columns.

(** The frame of the test for an invalid input. *)
Definition frame_invalid : DataFrame := [("invalid", SInt [1; 2; 3])].

Definition enrich_columns : list string :=
  ["clean_title"; "clean_text"; "mentions"; "tickers"]
    ++ engagement_columns ++ ["sentiment"; "sentiment_score"].

(** The text the sentiment of a post is computed from. *)
Definition joined_text (clean_title clean_text : str) : str :=
  clean_title ++ str_of " " ++ clean_text.

(** A sentiment model for the examples: every text is positive. *)
Definition always_positive : SentimentAnalyzer :=
  {| use_transformers := true;
     sentiment_model := fun _ => Ok (str_of "POS", 0.75%float);
     textblob_polarity := fun _ => Ok 0%float |}.

(** Reductions for the examples: the mean is the first value. *)
Definition first_value : Pandas :=
  {| pd_mean := fun s =>
       match to_floats s with
       | Ok (x :: _) => Ok x
       | Ok [] => Ok PrimFloat.nan
       | Raise e => Raise e
       end;
     pd_std := fun _ => PrimFloat.nan;
     pd_iso_week := fun l => SInt (map (fun _ => 46) l) |}.

(** Reductions whose mean is forced to raise. *)
Definition failing_mean : Pandas :=
  {| pd_mean := fun _ => Raise TypeError;
     pd_std := fun _ => PrimFloat.nan;
     pd_iso_week := fun l => SInt (map (fun _ => 46) l) |}.

(** *** Notions used in the proofs *)

(** A matcher is productive when every match is a non-empty prefix of the
    text it was tried on. *)
Definition productive {A} (m : matcher A) : Prop :=
  forall prev s a mt rest,
    m prev s = Some (a, mt, rest) -> mt <> [] /\ s = mt ++ rest.

(** A token: not empty and free of white space. *)
Definition token (t : str) : Prop :=
  t <> [] /\ forallb non_space t = true.

Definition word_token (t : str) : Prop :=
  t <> [] /\ forallb is_word t = true.

(** The tokens that [clean_text] joins. *)
Definition clean_tokens (s : str) : list str :=
  split_ws (re_sub_empty special_pattern (re_sub_empty url_pattern (lower s))).

(** The keys of the dictionary after one more word. *)
Definition add_key (w : str) (ks : list str) : list str :=
  if in_dec str_eq_dec w ks then ks else ks ++ [w].

Definition uniq (words : list str) : list str :=
  fold_left (fun ks w => add_key w ks) words [].

Definition bump (f : str -> nat) (w k : str) : nat :=
  if str_eq_dec k w then S (f k) else f k.


(** The three assignments of the step, as far as they get. *)
Inductive engagement_outcome (h : heap) (l : loc) (f : DataFrame)
  : result pyobj * heap -> Prop :=
| failed_before_assigning e :
    engagement_outcome h l f (Raise e, h)
| failed_after_engagement_score e es :
    engagement_outcome h l f
      (Raise e, <[l := df_set f "engagement_score" es]> h)
| all_assigned sc nc ur ss ns us ts :
    df_get f "score" = Some sc -> to_floats sc = Ok ss ->
    df_get f "num_comments" = Some nc -> to_floats nc = Ok ns ->
    df_get f "upvote_ratio" = Some ur -> to_floats ur = Ok us ->
    df_get f "created_utc" = Some (SDatetime ts) ->
    engagement_outcome h l f
      (Ok (PyFrame l),
       <[l := df_set
                (df_set
                   (df_set f "engagement_score"
                      (SFloat
                         (zip_with PrimFloat.mul
                            (zip_with PrimFloat.add
                               (map (fun a => PrimFloat.mul a 1.0%float) ss)
                               (map (fun a => PrimFloat.mul a 2.0%float) ns))
                            us)))
                   "hour_of_day"
                   match dt_hour (SDatetime ts) with
                   | Ok s => s
                   | Raise _ => SObject []
                   end)
                "day_of_week"
                match dt_day_name (SDatetime ts) with
                | Ok s => s
                | Raise _ => SObject []
                end]> h).

(** The value of the expression that [calculate_engagement_metrics]
    assigns to [engagement_score], on a frame. *)
Definition engagement_score_of (f : DataFrame) : result Series :=
  match df_get f "score" with
  | None => Raise (KeyError "score")
  | Some score =>
      match series_mul_scalar score 1.0%float with
      | Raise e => Raise e
      | Ok a =>
          match df_get f "num_comments" with
          | None => Raise (KeyError "num_comments")
          | Some num_comments =>
              match series_mul_scalar num_comments 2.0%float with
              | Raise e => Raise e
              | Ok b =>
                  match series_add a b with
                  | Raise e => Raise e
                  | Ok ab =>
                      match df_get f "upvote_ratio" with
                      | None => Raise (KeyError "upvote_ratio")
                      | Some upvote_ratio => series_mul ab upvote_ratio
                      end
                  end
              end
          end
      end
  end.

(** Two posts with different texts. *)
Definition frame_two_posts : DataFrame :=
  [("title", SObject [OStr "GME to the moon!"; OStr "Sell AAPL"]);
   ("text", SObject [OStr "Diamond hands"; OStr "Earnings were bad"]);
   ("score", SInt [100; 7]);
   ("created_utc",
    SDatetime [Some 1700000000000000000; Some 1700003600000000000]);
   ("num_comments", SInt [50; 3]);
   ("upvote_ratio", SFloat [ratio_095; ratio_095])].

(** A sentiment model for the examples that answers with the text it
    was given as the label, so that a label shows what was analyzed. *)
Definition echo_model : SentimentAnalyzer :=
  {| use_transformers := true;
     sentiment_model := fun s => Ok (s, 0.75%float);
     textblob_polarity := fun _ => Ok 0%float |}.

(** *** Notions used in the further properties *)

(** The length of the joined tokens, with one more for a white space that
    was read since the last token. *)
Definition split_weight (acc : str * list str) : nat :=
  (List.length (join " " (push_token (fst acc) (snd acc)))
   + match fst acc, snd acc with
     | [], _ :: _ => 1
     | _, _ => 0
     end)%nat.




(** An analyzer on the TextBlob path whose polarity is out of range. *)
Definition eager_textblob : SentimentAnalyzer :=
  {| use_transformers := false;
     sentiment_model := fun _ => Raise TypeError;
     textblob_polarity := fun _ => Ok 7%float |}.

(** A post whose text is a list of two strings: the validator accepts
    it, the normalizer fails on it. *)
Definition frame_list_text : DataFrame :=
  [("title", SObject [OStr "GME to the moon"]);
   ("text", SObject [OList [str_of "GME"; str_of "moon"]]);
   ("score", SInt [100]);
   ("created_utc", SDatetime [Some 1700000000000000000]);
   ("num_comments", SInt [50]);
   ("upvote_ratio", SFloat [ratio_095])].

(** ** CacheManager *)

(** [datetime.now()] is an input of the model: a naive date and time in
    microseconds.  The difference of two of them is a [timedelta], which
    Python keeps as days, seconds (0 to 86399) and microseconds;
    [.seconds] is the middle part. *)
Definition us_per_second : Z := 1000000.
Definition seconds_per_day : Z := 86400.

Definition timedelta_seconds (microseconds : Z) : Z :=
  (microseconds / us_per_second) mod seconds_per_day.

Module CacheManager.
Section Values.

(** The cached values other than [None]. *)
Variable V : Type.

Record t : Type := {
  cache : gmap string (option V);
  cache_times : gmap string Z;
  cache_duration : Z
}.

(** [__init__] *)
Definition init (cache_duration : Z) : t :=
  {| cache := ∅; cache_times := ∅; cache_duration := cache_duration |}.

(** [get]: [None] is Python's [None].  With keys that are [str] nothing
    in the [try] block raises. *)
Definition get (self : t) (now : Z) (key : string) : option V :=
  match cache_times self !! key with
  | Some time =>
      if timedelta_seconds (now - time) <? cache_duration self
      then match cache self !! key with
           | Some value => value
           | None => None
           end
      else None
  | None => None
  end.

(** [set] *)
Definition set (self : t) (now : Z) (key : string) (value : option V) : t :=
  {| cache := <[key := value]> (cache self);
     cache_times := <[key := now]> (cache_times self);
     cache_duration := cache_duration self |}.

End Values.

Arguments cache {V}.
Arguments cache_times {V}.
Arguments cache_duration {V}.
Arguments get {V}.
Arguments set {V}.

End CacheManager.

(** ** RedditDataProcessor._calculate_ticker_sentiment *)

(** The dictionary the first loop keeps for a ticker. *)
Record ticker_counts : Type := {
  positive : nat;
  negative : nat;
  neutral_count : nat;
  total_mentions : nat
}.

Definition no_mentions : ticker_counts :=
  {| positive := 0; negative := 0; neutral_count := 0; total_mentions := 0 |}.

(** [counts[label] += 1]: the label has to be one of the four keys;
    anything else is an exception ([None]: the function's handler does
    not look at the exception). *)
Definition count_label (label : cell) (c : ticker_counts)
  : option ticker_counts :=
  match label with
  | CObj (OStr s) =>
      if str_eqb s (str_of "positive") then
        Some {| positive := S (positive c); negative := negative c;
                neutral_count := neutral_count c;
                total_mentions := total_mentions c |}
      else if str_eqb s (str_of "negative") then
        Some {| positive := positive c; negative := S (negative c);
                neutral_count := neutral_count c;
                total_mentions := total_mentions c |}
      else if str_eqb s (str_of "neutral") then
        Some {| positive := positive c; negative := negative c;
                neutral_count := S (neutral_count c);
                total_mentions := total_mentions c |}
      else if str_eqb s (str_of "total_mentions") then
        Some {| positive := positive c; negative := negative c;
                neutral_count := neutral_count c;
                total_mentions := S (total_mentions c) |}
      else None
  | _ => None
  end.

(** The two increments of the inner loop; [label] is [row['sentiment']],
    which is missing when the frame has no such column. *)
Definition record_mention (label : option cell) (c : ticker_counts)
  : option ticker_counts :=
  match label with
  | Some l =>
      match count_label l c with
      | Some c' =>
          Some {| positive := positive c'; negative := negative c';
                  neutral_count := neutral_count c';
                  total_mentions := S (total_mentions c') |}
      | None => None
      end
  | None => None
  end.

(** The body of the inner loop on the dictionary of all tickers, which
    keeps its keys in the order of their insertion. *)
Fixpoint mention (label : option cell) (ticker : str)
  (d : list (str * ticker_counts)) : option (list (str * ticker_counts)) :=
  match d with
  | [] =>
      match record_mention label no_mentions with
      | Some c => Some [(ticker, c)]
      | None => None
      end
  | (k, c) :: d' =>
      if str_eqb k ticker then
        match record_mention label c with
        | Some c' => Some ((k, c') :: d')
        | None => None
        end
      else
        match mention label ticker d' with
        | Some d'' => Some ((k, c) :: d'')
        | None => None
        end
  end.

(** [for ticker in row['tickers']]: a list gives its elements, a [str]
    its characters, nothing else can be iterated. *)
Definition iterate_tickers (c : cell) : option (list str) :=
  match c with
  | CObj (OList l) => Some l
  | CObj (OStr s) => Some (map (fun ch => [ch]) s)
  | _ => None
  end.

(** The number of rows of a frame. *)
Definition nrows (f : DataFrame) : nat :=
  match f with
  | [] => 0
  | (_, s) :: _ => List.length (cells s)
  end.

(** One round of the outer loop. *)
Definition row_mentions (f : DataFrame)
  (d : option (list (str * ticker_counts))) (i : nat)
  : option (list (str * ticker_counts)) :=
  match d with
  | None => None
  | Some d =>
      match cell_of f "tickers" i with
      | None => None
      | Some c =>
          match iterate_tickers c with
          | None => None
          | Some tickers =>
              fold_left
                (fun acc ticker =>
                   match acc with
                   | Some d => mention (cell_of f "sentiment" i) ticker d
                   | None => None
                   end)
                tickers (Some d)
          end
      end
  end.

(** The entry of a ticker in the result. *)
Record ticker_report : Type := {
  counts : ticker_counts;
  positive_ratio : float;
  negative_ratio : float;
  neutral_ratio : float
}.

(** [a / b] on two [int]: an error when [b] is zero.  The quotient is
    the one of the two numbers as [float64], which is Python's for
    numbers below 2^53. *)
Definition true_div (a b : nat) : option float :=
  if Nat.eqb b 0 then None
  else Some (PrimFloat.div (float_of_Z (Z.of_nat a))
               (float_of_Z (Z.of_nat b))).

Definition with_ratios (c : ticker_counts) : option ticker_report :=
  let total := total_mentions c in
  match true_div (positive c) total, true_div (negative c) total,
        true_div (neutral_count c) total with
  | Some p, Some n, Some u =>
      Some {| counts := c; positive_ratio := p; negative_ratio := n;
              neutral_ratio := u |}
  | _, _, _ => None
  end.

Fixpoint all_with_ratios (d : list (str * ticker_counts))
  : option (list (str * ticker_report)) :=
  match d with
  | [] => Some []
  | (k, c) :: d' =>
      match with_ratios c, all_with_ratios d' with
      | Some r, Some rs => Some ((k, r) :: rs)
      | _, _ => None
      end
  end.

(** The [try] block on a frame: [None] is an exception. *)
Definition ticker_sentiment_body (f : DataFrame)
  : option (list (str * ticker_report)) :=
  match fold_left (row_mentions f) (seq 0 (nrows f)) (Some []) with
  | Some d => all_with_ratios d
  | None => None
  end.

(** The function: every exception gives the empty dictionary, and so
    does an object that is no frame. *)
Definition _calculate_ticker_sentiment (df : pyobj)
  : M (list (str * ticker_report)) :=
  fun h =>
    match deref df AttributeError h with
    | (Ok f, _) =>
        match ticker_sentiment_body f with
        | Some d => (Ok d, h)
        | None => (Ok [], h)
        end
    | (Raise _, _) => (Ok [], h)
    end.

(** Two posts about one ticker; the label of the second one is given. *)
Definition frame_labelled (label : string) : DataFrame :=
  [("tickers", SObject [OList [str_of "GME"]; OList [str_of "GME"]]);
   ("sentiment", SObject [OStr "positive"; OStr label])].

(** The labels the counting knows. *)
Definition known_label (label : option cell) : bool :=
  match label with
  | Some (CObj (OStr s)) =>
      mem s [str_of "positive"; str_of "negative"; str_of "neutral";
             str_of "total_mentions"]
  | _ => false
  end.

(** What the first loop keeps true of the counts of a ticker. *)
Definition counted (c : ticker_counts) : Prop :=
  (1 <= total_mentions c
   /\ positive c + negative c + neutral_count c <= total_mentions c)%nat.

(** *** The posts of an hour *)

(** How many of the timestamps fall into the hour [k] of the day. *)
Definition posts_in_hour (ts : list Z) (k : Z) : nat :=
  count_occ Z.eq_dec (map hour_of ts) k.

(** [bucket_add] on keys that are integers. *)
Fixpoint int_bucket_add (k : Z) (b : list (Z * nat)) : list (Z * nat) :=
  match b with
  | [] => [(k, 1%nat)]
  | (k', n) :: b' =>
      if Z.eqb k k' then (k', S n) :: b'
      else if Z.ltb k k' then (k, 1%nat) :: b
      else (k', n) :: int_bucket_add k b'
  end.

Definition int_cell (x : Z * nat) : cell * nat := (CInt (fst x), snd x).

(** The size of the group of a key. *)
Fixpoint group_size (k : Z) (b : list (Z * nat)) : nat :=
  match b with
  | [] => 0
  | (k', n) :: b' => if Z.eqb k k' then n else group_size k b'
  end.

(** The groups stand in the order of their keys. *)
Definition ascending (b : list (Z * nat)) : Prop :=
  StronglySorted (fun x y => fst x < fst y) b.

(** Three posts, two of them in the same hour. *)
Definition three_timestamps : list Z :=
  [1700000000000000000; 1700020000000000000; 1700000100000000000].

Definition frame_three_posts : DataFrame :=
  [("title", SObject [OStr "one"; OStr "two"; OStr "three"]);
   ("created_utc", SDatetime (map Some three_timestamps))].

(** A post that repeats a word. *)
Definition frame_moon : DataFrame :=
  [("title", SObject [OStr "Moon moon MOON"]);
   ("text", SObject [OStr "To the moon!"]);
   ("score", SInt [100]);
   ("created_utc", SDatetime [Some 1700000000000000000]);
   ("num_comments", SInt [50]);
   ("upvote_ratio", SFloat [ratio_095])].

(** ** RedditDataProcessor.generate_report *)

(** What the report takes from outside: the clock, and the reductions of
    pandas it applies to columns, which may raise: the ISO text of the
    smallest and of the largest value, the number of distinct values,
    and the first of the most frequent values. *)
Record ReportOps : Type := {
  now_isoformat : str;
  min_isoformat : Series -> result str;
  max_isoformat : Series -> result str;
  nunique : Series -> result Z;
  mode_first : Series -> result cell
}.

(** The report with all its entries.  [insights] has the key
    ['top_tickers'] whenever it has any key, so the entry
    ['stock_analysis'] is there as well. *)
Record report_dict : Type := {
  timestamp : str;
  total_posts : nat;
  date_start : str;
  date_end : str;
  unique_authors : Z;
  overall_sentiment : cell;
  report_sentiment_distribution : list (cell * nat);
  average_sentiment_score : float;
  report_trending_topics : list (str * nat);
  engagement_metrics : engagement_stats;
  time_analysis : time_metrics;
  stock_top_tickers : list (cell * nat);
  ticker_sentiment : list (str * ticker_report)
}.

(** The report, or the dictionary with the one entry ['error'], which
    holds the text of the exception. *)
Inductive report : Type :=
| ErrorReport (e : exn)
| Report (r : report_dict).

(** [insights[key]] *)
Definition insights_item (ins : insights) (key : string)
  : M insights_dict :=
  match ins with
  | Insights d => ret d
  | EmptyInsights => raise (KeyError key)
  end.

Section Reporting.

Variable pd : Pandas.
Variable ops : ReportOps.

(** The [try] block of [generate_report]. *)
Definition generate_report_body (df : pyobj) (ins : insights) : M report :=
  let timestamp := now_isoformat ops in
  f <- deref df TypeError ;;
  let total_posts := nrows f in
  created_utc <- getitem df "created_utc" ;;
  date_start <- lift (min_isoformat ops created_utc) ;;
  created_utc <- getitem df "created_utc" ;;
  date_end <- lift (max_isoformat ops created_utc) ;;
  author <- getitem df "author" ;;
  unique_authors <- lift (nunique ops author) ;;
  sentiment <- getitem df "sentiment" ;;
  overall_sentiment <- lift (mode_first ops sentiment) ;;
  d1 <- insights_item ins "sentiment_distribution" ;;
  sentiment_score <- getitem df "sentiment_score" ;;
  average <- lift (pd_mean pd sentiment_score) ;;
  d2 <- insights_item ins "trending_topics" ;;
  d3 <- insights_item ins "engagement_stats" ;;
  d4 <- insights_item ins "time_metrics" ;;
  match ins with
  | Insights d5 =>
      ticker_sentiment <- _calculate_ticker_sentiment df ;;
      ret (Report
             {| timestamp := timestamp;
                total_posts := total_posts;
                date_start := date_start;
                date_end := date_end;
                unique_authors := unique_authors;
                overall_sentiment := overall_sentiment;
                report_sentiment_distribution := sentiment_distribution d1;
                average_sentiment_score := average;
                report_trending_topics := firstn 10 (trending_topics d2);
                engagement_metrics := engagement_stats_of d3;
                time_analysis := time_metrics_of d4;
                stock_top_tickers := top_tickers d5;
                ticker_sentiment := ticker_sentiment |})
  | EmptyInsights => raise (KeyError "sentiment_distribution")
  end.

Definition generate_report (df : pyobj) (ins : insights) : M report :=
  try_except (generate_report_body df ins) (fun e => ret (ErrorReport e)).

End Reporting.

(** Operations for the examples. *)
Definition plain_ops : ReportOps :=
  {| now_isoformat := str_of "2023-11-14T22:13:20";
     min_isoformat := fun _ => Ok (str_of "2023-11-14T22:13:20");
     max_isoformat := fun _ => Ok (str_of "2023-11-14T22:13:20");
     nunique := fun s => Ok (Z.of_nat (List.length (cells s)));
     mode_first := fun s =>
       match cells s with
       | c :: _ => Ok c
       | [] => Raise (KeyError "0")
       end |}.

(** A computation that leaves the heap as it is. *)
Definition reads_only {A} (m : M A) : Prop := forall h : heap, snd (m h) = h.

(** ** SentimentAnalyzer.get_sentiment_stats *)

(** The five entries of the statistics. *)
Record sentiment_stats : Type := {
  stats_positive_ratio : float;
  stats_negative_ratio : float;
  stats_neutral_ratio : float;
  average_score : float;
  score_std : float
}.

(** The dictionary of the handler.  Its zeros are [int] in the source;
    they compare equal to these. *)
Definition default_stats : sentiment_stats :=
  {| stats_positive_ratio := 0%float;
     stats_negative_ratio := 0%float;
     stats_neutral_ratio := 0%float;
     average_score := 0.5%float;
     score_std := 0%float |}.

(** The number of results with a label. *)
Definition label_count (label : str) (results : list (str * float)) : nat :=
  List.length (List.filter (fun r => str_eqb (fst r) label) results).

(** [(sentiment_df['label'] == label).mean()]: the mean of a column of
    [bool], the number of its [True] over its length. *)
Definition label_ratio (label : str) (results : list (str * float)) : float :=
  PrimFloat.div (float_of_Z (Z.of_nat (label_count label results)))
    (float_of_Z (Z.of_nat (List.length results))).

Section Statistics.

Variable pd : Pandas.

(** [Series.std] of a column of [float64]. *)
Variable pd_std_float : list float -> float.

Variable self : SentimentAnalyzer.

(** The [try] block of [get_sentiment_stats].  A frame made of an empty
    list of results has no columns, so its ['label'] is a [KeyError]. *)
Definition get_sentiment_stats_body (df : pyobj) (text_column : string)
  : M sentiment_stats :=
  texts <- getitem df text_column ;;
  sentiments <- lift (analyze_texts_batch self texts) ;;
  match sentiments with
  | [] => raise (KeyError "label")
  | _ :: _ =>
      average <- lift (pd_mean pd (SFloat (map snd sentiments))) ;;
      ret {| stats_positive_ratio := label_ratio (str_of "positive") sentiments;
             stats_negative_ratio := label_ratio (str_of "negative") sentiments;
             stats_neutral_ratio := label_ratio (str_of "neutral") sentiments;
             average_score := average;
             score_std := pd_std_float (map snd sentiments) |}
  end.

Definition get_sentiment_stats (df : pyobj) (text_column : string)
  : M sentiment_stats :=
  try_except (get_sentiment_stats_body df text_column)
    (fun _ => ret default_stats).

End Statistics.

(** A frame without a row. *)
Definition frame_no_rows : DataFrame := [("text", SObject [])].

(** * Properties *)

(** ** Code points *)

Ltac by_code_point c :=
  destruct c as [[] [] [] [] [] [] [] []]; vm_compute; try reflexivity;
  try discriminate; auto.

Lemma lower_char_idem (c : ascii) : lower_char (lower_char c) = lower_char c.
Proof. by_code_point c. Qed.

Lemma is_word_not_space (c : ascii) : is_word c = true -> is_space c = false.
Proof. by_code_point c. Qed.

Lemma is_space_space : is_space space = true.
Proof. reflexivity. Qed.

Lemma lower_char_space : lower_char space = space.
Proof. reflexivity. Qed.

Lemma lower_fixed (s : str) :
  Forall (fun c => lower_char c = c) s -> lower s = s.
Proof.
  induction 1 as [|c s Hc _ IH]; simpl; [reflexivity|].
  now rewrite Hc, IH.
Qed.

Lemma lower_all_fixed (s : str) : Forall (fun c => lower_char c = c) (lower s).
Proof.
  induction s as [|c s IH]; simpl; constructor; auto using lower_char_idem.
Qed.

(** ** Scanning *)

Lemma span_upto_app p n s :
  forall a b, span_upto p n s = (a, b) -> s = a ++ b.
Proof.
  revert s; induction n as [|n IH]; intros s a b; simpl.
  - intros [= <- <-]; reflexivity.
  - destruct s as [|c s]; [intros [= <- <-]; reflexivity|].
    destruct (p c); [|intros [= <- <-]; reflexivity].
    destruct (span_upto p n s) as [a' b'] eqn:E.
    intros [= <- <-]. simpl. f_equal. eauto.
Qed.

Lemma span_upto_all p n s :
  forall a b, span_upto p n s = (a, b) -> forallb p a = true.
Proof.
  revert s; induction n as [|n IH]; intros s a b; simpl.
  - intros [= <- <-]; reflexivity.
  - destruct s as [|c s]; [intros [= <- <-]; reflexivity|].
    destruct (p c) eqn:Hc; [|intros [= <- <-]; reflexivity].
    destruct (span_upto p n s) as [a' b'] eqn:E.
    intros [= <- <-]. simpl. rewrite Hc. eauto.
Qed.

Lemma strip_prefix_app p s r : strip_prefix p s = Some r -> s = p ++ r.
Proof.
  revert s; induction p as [|a p IH]; intros s; simpl.
  - now intros [= ->].
  - destruct s as [|b s]; [discriminate|].
    destruct (ascii_dec a b) as [->|]; [|discriminate].
    intros H. f_equal. auto.
Qed.

Lemma match_lit_nonspace_app lit s m rest :
  match_lit_nonspace lit s = Some (m, rest) ->
  (exists c tok, m = lit ++ c :: tok) /\ s = m ++ rest.
Proof.
  unfold match_lit_nonspace.
  destruct (strip_prefix lit s) as [r|] eqn:Hp; [|discriminate].
  destruct (span non_space r) as [tok rest'] eqn:Hs.
  destruct tok as [|c tok]; [discriminate|].
  intros [= <- <-]. split; [eauto|].
  apply strip_prefix_app in Hp. apply span_upto_app in Hs.
  subst. now rewrite <- app_assoc.
Qed.

Lemma url_pattern_productive : productive url_pattern.
Proof.
  intros prev s a mt rest. unfold url_pattern, or_else.
  destruct (match_lit_nonspace "http" s) as [[m r]|] eqn:E1.
  { intros [= <- <- <-]. apply match_lit_nonspace_app in E1.
    destruct E1 as [(c & tok & ->) ->]. split; [discriminate|reflexivity]. }
  destruct (match_lit_nonspace "www" s) as [[m r]|] eqn:E2.
  { intros [= <- <- <-]. apply match_lit_nonspace_app in E2.
    destruct E2 as [(c & tok & ->) ->]. split; [discriminate|reflexivity]. }
  destruct (match_lit_nonspace "https" s) as [[m r]|] eqn:E3; [|discriminate].
  intros [= <- <- <-]. apply match_lit_nonspace_app in E3.
  destruct E3 as [(c & tok & ->) ->]. split; [discriminate|reflexivity].
Qed.

Lemma special_pattern_productive : productive special_pattern.
Proof.
  intros prev s a mt rest. unfold special_pattern.
  destruct s as [|c s]; [discriminate|].
  destruct (is_word c || is_space c)%bool; [discriminate|].
  intros [= <- <- <-]. split; [discriminate|reflexivity].
Qed.

(** More fuel than the length of the text changes nothing: the scan of a
    productive matcher ends by reaching the end of the text. *)
Lemma re_scan_fuel {A} (m : matcher A) :
  productive m ->
  forall n s prev,
    (List.length s <= n)%nat ->
    re_scan m n prev s = re_scan m (List.length s) prev s.
Proof.
  intros Hm n. induction n as [n IH] using lt_wf_ind.
  intros s prev Hn. destruct s as [|c s]; [destruct n; reflexivity|].
  destruct n as [|n]; [simpl in Hn; lia|].
  cbn [re_scan List.length].
  destruct (m prev (c :: s)) as [[[a mt] rest]|] eqn:E.
  - destruct (Hm _ _ _ _ _ E) as [Hne Hs].
    assert (Hl : (List.length rest <= List.length s)%nat).
    { apply (f_equal (@List.length _)) in Hs. rewrite length_app in Hs.
      destruct mt; [congruence|]. simpl in Hs. lia. }
    f_equal. rewrite (IH n) by (simpl in Hn; lia).
    symmetry. apply IH; simpl in *; lia.
  - f_equal. apply IH; simpl in *; lia.
Qed.

Lemma re_scan_in {A} (m : matcher A) :
  productive m ->
  forall n s prev c,
    In c (flat_map unmatched_of (re_scan m n prev s)) -> In c s.
Proof.
  intros Hm n. induction n as [|n IH]; intros s prev c; [simpl; tauto|].
  destruct s as [|d s]; [simpl; tauto|].
  cbn [re_scan].
  destruct (m prev (d :: s)) as [[[a mt] rest]|] eqn:E;
    cbn [flat_map unmatched_of app].
  - intros H. apply IH in H. destruct (Hm _ _ _ _ _ E) as [_ Hs].
    rewrite Hs. apply in_or_app; now right.
  - intros [->|H]; [now left|right; eauto].
Qed.

Lemma re_sub_empty_in {A} (m : matcher A) s c :
  productive m -> In c (re_sub_empty m s) -> In c s.
Proof. intros Hm. apply re_scan_in, Hm. Qed.

(** Removing the special characters keeps exactly the word characters and
    the white space. *)
Lemma re_scan_special n : forall s prev,
  (List.length s <= n)%nat ->
  flat_map unmatched_of (re_scan special_pattern n prev s)
  = List.filter (fun c => (is_word c || is_space c)%bool) s.
Proof.
  induction n as [|n IH]; intros s prev Hn.
  - destruct s; [reflexivity|simpl in Hn; lia].
  - destruct s as [|c s]; [reflexivity|].
    cbn [re_scan special_pattern List.filter].
    destruct (is_word c || is_space c)%bool; simpl;
      rewrite IH by (simpl in Hn; lia); reflexivity.
Qed.

Lemma re_sub_special s :
  re_sub_empty special_pattern s
  = List.filter (fun c => (is_word c || is_space c)%bool) s.
Proof. apply re_scan_special. lia. Qed.

(** Without a match there is nothing to remove. *)
Lemma re_scan_no_url n : forall s prev,
  contains_url s = false ->
  (List.length s <= n)%nat ->
  flat_map unmatched_of (re_scan url_pattern n prev s) = s.
Proof.
  induction n as [|n IH]; intros s prev Hs Hn.
  - destruct s; [reflexivity|simpl in Hn; lia].
  - destruct s as [|c s]; [reflexivity|].
    cbn [contains_url] in Hs. apply orb_false_iff in Hs as [H1 H2].
    cbn [re_scan].
    assert (E : url_pattern prev (c :: s) = url_pattern None (c :: s))
      by reflexivity.
    rewrite E. destruct (url_pattern None (c :: s)); [discriminate|].
    simpl. f_equal. apply IH; [assumption|simpl in Hn; lia].
Qed.

Lemma re_sub_no_url s :
  contains_url s = false -> re_sub_empty url_pattern s = s.
Proof. intros H. apply re_scan_no_url; [assumption|lia]. Qed.

(** ** Splitting and joining *)

Lemma split_fold_tokens s :
  forall cur toks,
    fold_right split_step ([], []) s = (cur, toks) ->
    forallb non_space cur = true /\ Forall token toks.
Proof.
  induction s as [|c s IH]; simpl; intros cur toks.
  - intros [= <- <-]. split; [reflexivity|constructor].
  - destruct (fold_right split_step ([], []) s) as [cur' toks'] eqn:E.
    destruct (IH _ _ eq_refl) as [Hc Ht].
    unfold split_step. destruct (is_space c) eqn:Hsp.
    + intros [= <- <-]. split; [reflexivity|].
      destruct cur' as [|d cur']; simpl; [assumption|].
      constructor; [|assumption]. split; [discriminate|assumption].
    + intros [= <- <-]. split; [|assumption].
      simpl. unfold non_space at 1. now rewrite Hsp.
Qed.

Lemma split_ws_tokens s : Forall token (split_ws s).
Proof.
  unfold split_ws.
  destruct (fold_right split_step ([], []) s) as [cur toks] eqn:E.
  destruct (split_fold_tokens _ _ _ E) as [Hc Ht].
  destruct cur as [|d cur]; simpl; [assumption|].
  constructor; [|assumption]. split; [discriminate|assumption].
Qed.

Lemma split_fold_in s :
  forall cur toks,
    fold_right split_step ([], []) s = (cur, toks) ->
    forall c, In c cur \/ In c (List.concat toks) -> In c s.
Proof.
  induction s as [|d s IH]; simpl; intros cur toks.
  - intros [= <- <-] c [[]|[]].
  - destruct (fold_right split_step ([], []) s) as [cur' toks'] eqn:E.
    specialize (IH _ _ eq_refl).
    unfold split_step. destruct (is_space d).
    + intros [= <- <-] c [[]|H]. right. apply IH.
      destruct cur' as [|e cur']; simpl in H; [now right|].
      destruct H as [->|H]; [left; now left|].
      apply in_app_or in H as [H|H]; [left; now right|now right].
    + intros [= <- <-] c [[->|H]|H]; [now left| |]; right; apply IH; auto.
Qed.

Lemma split_ws_in s c : In c (List.concat (split_ws s)) -> In c s.
Proof.
  unfold split_ws.
  destruct (fold_right split_step ([], []) s) as [cur toks] eqn:E.
  intros H. apply (split_fold_in _ _ _ E).
  destruct cur as [|d cur]; simpl in H; [now right|].
  destruct H as [->|H]; [left; now left|].
  apply in_app_or in H as [H|H]; [left; now right|now right].
Qed.

Lemma join_cons sep t t' parts :
  join sep (t :: t' :: parts) = t ++ sep ++ join sep (t' :: parts).
Proof. reflexivity. Qed.

Lemma join_cons_space t t' parts :
  join " " (t :: t' :: parts) = t ++ space :: join " " (t' :: parts).
Proof. reflexivity. Qed.

Lemma join_single sep t : join sep [t] = t.
Proof. reflexivity. Qed.

Lemma join_in parts c :
  In c (join " " parts) -> c = space \/ In c (List.concat parts).
Proof.
  induction parts as [|t parts IH]; [simpl; tauto|].
  destruct parts as [|t' parts].
  - intros H. right. simpl. rewrite app_nil_r. exact H.
  - rewrite join_cons_space. intros H. apply in_app_or in H as [H|H].
    + right. apply in_or_app. now left.
    + destruct H as [<-|H]; [now left|].
      destruct (IH H) as [->|H']; [now left|right].
      apply in_or_app. now right.
Qed.

Lemma fold_split_token t :
  forallb non_space t = true ->
  forall s cur toks,
    fold_right split_step ([], []) s = (cur, toks) ->
    fold_right split_step ([], []) (t ++ s) = (t ++ cur, toks).
Proof.
  induction t as [|c t IH]; simpl; intros Ht s cur toks E; [assumption|].
  apply andb_prop in Ht as [Hc Ht].
  rewrite (IH Ht _ _ _ E). unfold split_step.
  unfold non_space in Hc. apply negb_true_iff in Hc. now rewrite Hc.
Qed.

(** Splitting a text that was joined from tokens gives the tokens back. *)
Lemma split_join parts :
  Forall token parts -> split_ws (join " " parts) = parts.
Proof.
  induction 1 as [|t parts [Hne Ht] Hparts IH]; [reflexivity|].
  destruct parts as [|t' parts].
  - rewrite join_single. unfold split_ws. rewrite <- (app_nil_r t) at 1.
    rewrite (fold_split_token t Ht [] [] []) by reflexivity.
    rewrite app_nil_r. destruct t; [congruence|reflexivity].
  - rewrite join_cons_space. unfold split_ws in *.
    destruct (fold_right split_step ([], []) (join " " (t' :: parts)))
      as [cur toks] eqn:E.
    assert (E' : fold_right split_step ([], [])
                   (space :: join " " (t' :: parts))
                 = ([], push_token cur toks)).
    { cbn [fold_right]. rewrite E. reflexivity. }
    rewrite (fold_split_token t Ht _ _ _ E').
    rewrite app_nil_r, IH. destruct t; [congruence|reflexivity].
Qed.

(** ** The shape of a joined list of word tokens *)

Lemma word_token_token t : word_token t -> token t.
Proof.
  intros [Hne Hw]. split; [assumption|].
  rewrite forallb_forall in *. intros c Hc. unfold non_space.
  now rewrite (is_word_not_space c (Hw c Hc)).
Qed.

Lemma word_token_start t r :
  word_token t -> starts_with_space (t ++ r) = false.
Proof.
  intros [Hne Hw]. destruct t as [|c t]; [congruence|].
  simpl in *. apply andb_prop in Hw as [Hc _].
  now apply is_word_not_space.
Qed.

Lemma has_double_space_word t r :
  forallb is_word t = true ->
  has_double_space (t ++ space :: r)
  = (starts_with_space r || has_double_space r)%bool.
Proof.
  induction t as [|c t IH]; intros Hw.
  - reflexivity.
  - simpl in Hw. apply andb_prop in Hw as [Hc Hw].
    cbn [app has_double_space]. rewrite (is_word_not_space c Hc).
    simpl. auto.
Qed.

Lemma has_double_space_words t :
  forallb is_word t = true -> has_double_space t = false.
Proof.
  induction t as [|c t IH]; intros Hw; [reflexivity|].
  simpl in Hw. apply andb_prop in Hw as [Hc Hw].
  cbn [has_double_space]. rewrite (is_word_not_space c Hc). simpl. auto.
Qed.

Lemma ends_with_space_app_word s t :
  word_token t -> ends_with_space (s ++ t) = false.
Proof.
  intros [Hne Hw]. unfold ends_with_space. rewrite rev_app_distr.
  destruct (rev t) as [|c r] eqn:E.
  - apply (f_equal (@rev _)) in E. rewrite rev_involutive in E.
    simpl in E. congruence.
  - simpl. apply is_word_not_space.
    rewrite forallb_forall in Hw. apply Hw.
    apply in_rev. rewrite E. now left.
Qed.

Lemma join_last parts :
  parts <> [] -> exists pre, join " " parts = pre ++ last parts [].
Proof.
  induction parts as [|t parts IH]; [congruence|intros _].
  destruct parts as [|t' parts].
  - exists []. reflexivity.
  - destruct IH as [pre Hpre]; [discriminate|].
    exists (t ++ space :: pre). rewrite join_cons_space, Hpre.
    now rewrite <- app_assoc.
Qed.

Lemma Forall_last {A} (P : A -> Prop) (l : list A) d :
  l <> [] -> Forall P l -> P (last l d).
Proof.
  induction l as [|x l IH]; [congruence|intros _ H].
  inversion H as [|? ? Hx Hl]; subst.
  destruct l as [|y l]; [exact Hx|]. apply IH; [discriminate|exact Hl].
Qed.

Lemma join_words_shape parts :
  Forall word_token parts ->
  only_word_or_space (join " " parts) = true
  /\ starts_with_space (join " " parts) = false
  /\ ends_with_space (join " " parts) = false
  /\ has_double_space (join " " parts) = false.
Proof.
  intros Hall.
  assert (Hstart : forall ps, Forall word_token ps ->
                     starts_with_space (join " " ps) = false).
  { intros ps Hps. destruct Hps as [|t ps Ht Hps]; [reflexivity|].
    destruct ps as [|t' ps].
    - rewrite join_single, <- (app_nil_r t). now apply word_token_start.
    - rewrite join_cons_space. now apply word_token_start. }
  split; [|split; [|split]].
  - induction Hall as [|t parts Ht Hparts IH]; [reflexivity|].
    assert (Hw : only_word_or_space t = true).
    { destruct Ht as [_ Hw]. unfold only_word_or_space.
      rewrite forallb_forall in *. intros c Hc. now rewrite (Hw c Hc). }
    destruct parts as [|t' parts]; [assumption|].
    rewrite join_cons_space.
    unfold only_word_or_space in *. rewrite forallb_app, Hw.
    cbn [forallb]. rewrite IH. reflexivity.
  - auto.
  - destruct parts as [|t parts]; [reflexivity|].
    destruct (join_last (t :: parts)) as [pre ->]; [discriminate|].
    apply ends_with_space_app_word, Forall_last; [discriminate|assumption].
  - induction Hall as [|t parts Ht Hparts IH]; [reflexivity|].
    destruct parts as [|t' parts].
    + apply has_double_space_words, Ht.
    + rewrite join_cons_space, has_double_space_word by apply Ht.
      rewrite IH, Hstart by assumption. reflexivity.
Qed.

(** ** clean_text *)

Lemma clean_text_str s : clean_text (PStr s) = join " " (clean_tokens s).
Proof. reflexivity. Qed.

Lemma in_concat_token {A} (c : A) t (toks : list (list A)) :
  In t toks -> In c t -> In c (List.concat toks).
Proof. intros Ht Hc. apply in_concat. eauto. Qed.

Lemma clean_tokens_words s : Forall word_token (clean_tokens s).
Proof.
  unfold clean_tokens.
  set (z := re_sub_empty special_pattern _).
  pose proof (split_ws_tokens z) as Htok.
  rewrite Forall_forall in *. intros t Ht.
  destruct (Htok t Ht) as [Hne Hns]. split; [assumption|].
  rewrite forallb_forall in *. intros c Hc.
  assert (Hz : In c z) by (eapply split_ws_in, in_concat_token; eauto).
  unfold z in Hz. rewrite re_sub_special in Hz.
  apply filter_In in Hz as [_ Hk].
  specialize (Hns c Hc). unfold non_space in Hns.
  apply negb_true_iff in Hns. rewrite Hns, orb_false_r in Hk. exact Hk.
Qed.

Lemma clean_tokens_lower s t c :
  In t (clean_tokens s) -> In c t -> lower_char c = c.
Proof.
  intros Ht Hc.
  assert (Hz : In c (lower s)).
  { apply (re_sub_empty_in url_pattern _ _ url_pattern_productive).
    apply (re_sub_empty_in special_pattern _ _ special_pattern_productive).
    eapply split_ws_in, in_concat_token; eauto. }
  pose proof (lower_all_fixed s) as Hf. rewrite Forall_forall in Hf. auto.
Qed.

Lemma filter_all {A} (p : A -> bool) l : forallb p l = true -> List.filter p l = l.
Proof.
  induction l as [|x l IH]; simpl; [reflexivity|].
  intros H. apply andb_prop in H as [Hx Hl]. now rewrite Hx, IH.
Qed.

Lemma only_word_or_space_kept s :
  only_word_or_space s = true -> forallb (fun c => (is_word c || is_space c)%bool) s = true.
Proof.
  unfold only_word_or_space. rewrite !forallb_forall. intros H c Hc.
  specialize (H c Hc). apply orb_prop in H as [->|H]; [reflexivity|].
  apply Ascii.eqb_eq in H. subst. reflexivity.
Qed.

(** C5, as far as it holds: a second pass changes nothing when the text
    the first pass produced holds no match of the URL pattern (no "http"
    and no "www" with a character other than white space behind it). *)
Theorem clean_text_idempotent (s : str) :
  contains_url (clean_text (PStr s)) = false ->
  clean_text (PStr (clean_text (PStr s))) = clean_text (PStr s).
Proof.
  intros Hurl. rewrite (clean_text_str (clean_text (PStr s))).
  unfold clean_tokens at 1.
  pose proof (clean_tokens_words s) as Hw.
  destruct (join_words_shape _ Hw) as (Hshape & _).
  rewrite <- clean_text_str in Hshape.
  rewrite lower_fixed.
  - rewrite (re_sub_no_url _ Hurl), re_sub_special.
    rewrite filter_all by now apply only_word_or_space_kept.
    rewrite clean_text_str. rewrite split_join; [reflexivity|].
    eapply Forall_impl; [|exact Hw]. apply word_token_token.
  - rewrite Forall_forall. intros c Hc. rewrite clean_text_str in Hc.
    apply join_in in Hc as [->|Hc]; [reflexivity|].
    apply in_concat in Hc as (t & Ht & Hc).
    eapply clean_tokens_lower; eauto.
Qed.

(** ** Counting words *)

Lemma str_eqb_eq a b : str_eqb a b = true <-> a = b.
Proof. unfold str_eqb. destruct (str_eq_dec a b); split; congruence. Qed.

Lemma str_eqb_refl a : str_eqb a a = true.
Proof. now apply str_eqb_eq. Qed.

Lemma str_eqb_neq a b : str_eqb a b = false <-> a <> b.
Proof. unfold str_eqb. destruct (str_eq_dec a b); split; congruence. Qed.

Lemma incr_map (f : str -> nat) (w : str) (ks : list str) :
  NoDup ks -> (~ In w ks -> f w = O) ->
  incr w (map (fun k => (k, f k)) ks)
  = map (fun k => (k, bump f w k)) (add_key w ks).
Proof.
  unfold add_key. induction ks as [|k ks IH]; intros Hnd Hw.
  - simpl. unfold bump. destruct (str_eq_dec w w); [|congruence].
    rewrite Hw by tauto. reflexivity.
  - inversion Hnd as [|? ? Hk Hks]; subst. cbn [map incr].
    destruct (str_eqb k w) eqn:E.
    + apply str_eqb_eq in E. subst k.
      destruct (in_dec str_eq_dec w (w :: ks)) as [_|n]; [|elim n; now left].
      cbn [map]. unfold bump at 1.
      destruct (str_eq_dec w w); [|congruence]. f_equal.
      apply map_ext_in. intros k Hin. unfold bump.
      destruct (str_eq_dec k w); [congruence|reflexivity].
    + apply str_eqb_neq in E.
      assert (Hw' : ~ In w ks -> f w = O).
      { intros Hn. apply Hw. intros [->|H]; [congruence|tauto]. }
      rewrite (IH Hks Hw').
      destruct (in_dec str_eq_dec w ks) as [i|n];
        destruct (in_dec str_eq_dec w (k :: ks)) as [i'|n'].
      * cbn [map]. unfold bump at 2.
        destruct (str_eq_dec k w); [congruence|reflexivity].
      * elim n'. now right.
      * destruct i' as [->|]; [congruence|tauto].
      * cbn [map app]. unfold bump at 2.
        destruct (str_eq_dec k w); [congruence|reflexivity].
Qed.

Lemma add_key_in w ks k : In k (add_key w ks) <-> k = w \/ In k ks.
Proof.
  unfold add_key. destruct (in_dec str_eq_dec w ks) as [i|n].
  - split; [tauto|]. intros [->|H]; assumption.
  - rewrite in_app_iff. simpl. intuition.
Qed.

Lemma add_key_nodup w ks : NoDup ks -> NoDup (add_key w ks).
Proof.
  unfold add_key. intros H. destruct (in_dec str_eq_dec w ks) as [i|n].
  - assumption.
  - apply NoDup_app; [assumption|constructor; [tauto|constructor]|].
    intros k Hk [<-|[]]. tauto.
Qed.

Lemma uniq_snoc ws w : uniq (ws ++ [w]) = add_key w (uniq ws).
Proof. unfold uniq. now rewrite fold_left_app. Qed.

Lemma count_words_snoc ws w : count_words (ws ++ [w]) = incr w (count_words ws).
Proof. unfold count_words. now rewrite fold_left_app. Qed.

Lemma uniq_in ws k : In k (uniq ws) <-> In k ws.
Proof.
  induction ws as [|w ws IH] using rev_ind; [reflexivity|].
  rewrite uniq_snoc, add_key_in, in_app_iff, IH. simpl. intuition.
Qed.

Lemma uniq_nodup ws : NoDup (uniq ws).
Proof.
  induction ws as [|w ws IH] using rev_ind; [constructor|].
  rewrite uniq_snoc. now apply add_key_nodup.
Qed.

(** The dictionary holds every word once, in the order of the first
    occurrences, with the number of its occurrences. *)
Lemma count_words_uniq ws :
  count_words ws = map (fun k => (k, occurrences ws k)) (uniq ws).
Proof.
  induction ws as [|w ws IH] using rev_ind; [reflexivity|].
  rewrite count_words_snoc, uniq_snoc, IH.
  rewrite incr_map.
  - apply map_ext. intros k. unfold bump, occurrences.
    rewrite count_occ_app. simpl. f_equal.
    destruct (str_eq_dec k w) as [e|n];
      destruct (str_eq_dec w k) as [e'|n']; try congruence; lia.
  - apply uniq_nodup.
  - intros Hn. apply count_occ_not_In. now rewrite <- uniq_in.
Qed.







(** ** Sorting by count *)

Lemma insert_desc_in x l y : In y (insert_desc x l) <-> y = x \/ In y l.
Proof.
  induction l as [|z l IH]; simpl; [intuition|].
  destruct (Nat.leb (snd z) (snd x)); simpl; rewrite ?IH; intuition.
Qed.

Lemma sorted_desc_in l y : In y (sorted_desc l) <-> In y l.
Proof.
  induction l as [|x l IH]; [reflexivity|].
  simpl. rewrite insert_desc_in, IH. intuition.
Qed.








Lemma strs_of_map texts : strs_of (map PStr texts) = Ok texts.
Proof.
  induction texts as [|s texts IH]; [reflexivity|]. simpl. now rewrite IH.
Qed.

(** ** Trending topics *)

Lemma topic_words_body texts :
  List.filter
    (fun w => (negb (mem w stop_words) && Nat.ltb 2 (List.length w))%bool)
    (split_ws (lower (join " " texts)))
  = topic_words texts.
Proof.
  unfold topic_words. apply filter_ext. intros w. f_equal.
  destruct (Nat.ltb_spec 2 (List.length w));
    destruct (Nat.leb_spec (List.length w) 2); simpl; try reflexivity; lia.
Qed.

Lemma identify_trending_topics_strs texts min_count :
  identify_trending_topics (map PStr texts) min_count
  = sorted_desc
      (List.filter (fun wc => Z.leb min_count (Z.of_nat (snd wc)))
         (map (fun k => (k, occurrences (topic_words texts) k))
            (uniq (topic_words texts)))).
Proof.
  unfold identify_trending_topics, identify_trending_topics_body.
  rewrite strs_of_map, topic_words_body, count_words_uniq. reflexivity.
Qed.


(** The scenario of the specification: "bitcoin" five times and "ai"
    three times.  "ai" has two characters and is no topic. *)
Example trending_bitcoin_ai :
  identify_trending_topics
    (map PStr [str_of "bitcoin ai bitcoin"; str_of "AI and Bitcoin";
               str_of "bitcoin ai"; str_of "Bitcoin"])
    default_min_count
  = [(str_of "bitcoin", 5%nat)].
Proof. vm_compute. reflexivity. Qed.

(** Equal counts keep the order of the first occurrences. *)
Example trending_ties :
  identify_trending_topics
    (map PStr [str_of "moon gme moon"; str_of "gme tsla moon gme";
               str_of "tsla tsla tsla tsla"])
    default_min_count
  = [(str_of "tsla", 5%nat); (str_of "moon", 3%nat); (str_of "gme", 3%nat)].
Proof. vm_compute. reflexivity. Qed.

(** ** Frames and the heap *)

Lemma df_get_set_eq df col s : df_get (df_set df col s) col = Some s.
Proof.
  induction df as [|[k s'] df IH]; simpl.
  - now rewrite String.eqb_refl.
  - destruct (String.eqb k col) eqn:E; simpl; now rewrite E.
Qed.

Lemma df_get_set_ne df col col' s :
  col <> col' -> df_get (df_set df col s) col' = df_get df col'.
Proof.
  intros Hne. induction df as [|[k s'] df IH]; simpl.
  - destruct (String.eqb col col') eqn:E; [|reflexivity].
    apply String.eqb_eq in E. congruence.
  - destruct (String.eqb k col) eqn:E; simpl.
    + apply String.eqb_eq in E. subst k.
      destruct (String.eqb col col') eqn:E'; [|reflexivity].
      apply String.eqb_eq in E'. congruence.
    + now rewrite IH.
Qed.

Lemma col_in_columns df col : col_in (df_columns df) col = is_some (df_get df col).
Proof.
  unfold col_in, df_columns. induction df as [|[k s] df IH]; [reflexivity|].
  simpl. rewrite String.eqb_sym. destruct (String.eqb k col); auto.
Qed.

Lemma bind_eq {A B} (m : M A) (k : A -> M B) h :
  bind m k h
  = match m h with
    | (Ok a, h') => k a h'
    | (Raise e, h') => (Raise e, h')
    end.
Proof. reflexivity. Qed.

Lemma bind_ok {A B} (m : M A) (k : A -> M B) h a h' :
  m h = (Ok a, h') -> bind m k h = k a h'.
Proof. intros E. now rewrite bind_eq, E. Qed.

Lemma bind_raise {A B} (m : M A) (k : A -> M B) h e h' :
  m h = (Raise e, h') -> bind m k h = (Raise e, h').
Proof. intros E. now rewrite bind_eq, E. Qed.

Lemma deref_frame (h : heap) l f e :
  h !! l = Some f -> deref (PyFrame l) e h = (Ok f, h).
Proof. intros E. unfold deref. now rewrite E. Qed.

Lemma columns_frame (h : heap) l f :
  h !! l = Some f -> columns (PyFrame l) h = (Ok (df_columns f), h).
Proof.
  intros E. unfold columns. now rewrite (bind_ok _ _ _ _ _ (deref_frame _ _ _ _ E)).
Qed.

Lemma getitem_frame (h : heap) l f col :
  h !! l = Some f ->
  getitem (PyFrame l) col h
  = (match df_get f col with
     | Some s => Ok s
     | None => Raise (KeyError col)
     end, h).
Proof.
  intros E. unfold getitem.
  rewrite (bind_ok _ _ _ _ _ (deref_frame _ _ _ _ E)).
  now destruct (df_get f col).
Qed.

Lemma getitem_ok (h : heap) l f col s :
  h !! l = Some f -> df_get f col = Some s ->
  getitem (PyFrame l) col h = (Ok s, h).
Proof. intros E Hs. now rewrite (getitem_frame _ _ _ _ E), Hs. Qed.

Lemma setitem_frame (h : heap) l f col s :
  h !! l = Some f ->
  setitem (PyFrame l) col s h = (Ok tt, <[l := df_set f col s]> h).
Proof.
  intros E. unfold setitem.
  now rewrite (bind_ok _ _ _ _ _ (deref_frame _ _ _ _ E)).
Qed.

Lemma deref_none e (h : heap) : deref PyNone e h = (Raise e, h).
Proof. reflexivity. Qed.

Lemma deref_dangling (h : heap) l e :
  h !! l = None -> deref (PyFrame l) e h = (Raise e, h).
Proof. intros E. unfold deref. now rewrite E. Qed.

(** ** The validator *)

Lemma validate_frame (h : heap) l f :
  h !! l = Some f ->
  validate_reddit_data (PyFrame l) h = (Ok (valid_frame f), h).
Proof.
  intros E. unfold validate_reddit_data, try_except, validate_reddit_data_body.
  rewrite (bind_ok _ _ _ _ _ (columns_frame _ _ _ E)).
  unfold valid_frame.
  destruct (forallb (col_in (df_columns f)) required_columns) eqn:Hcols;
    [|reflexivity].
  cbn [negb andb].
  assert (Hin : forall c, In c required_columns -> is_some (df_get f c) = true).
  { intros c Hc. rewrite <- col_in_columns.
    rewrite forallb_forall in Hcols. auto. }
  unfold has_dtype.
  rewrite bind_eq, (getitem_frame _ _ _ _ E).
  destruct (df_get f "score") as [score|] eqn:E1;
    [|specialize (Hin "score"); rewrite E1 in Hin; simpl in Hin;
      discriminate Hin; tauto].
  destruct (is_numeric_dtype score); [|reflexivity]. cbn [negb andb].
  rewrite bind_eq, (getitem_frame _ _ _ _ E).
  destruct (df_get f "created_utc") as [created|] eqn:E2;
    [|specialize (Hin "created_utc"); rewrite E2 in Hin; simpl in Hin;
      discriminate Hin; tauto].
  destruct (is_datetime64_any_dtype created); [|reflexivity]. cbn [negb andb].
  rewrite bind_eq, (getitem_frame _ _ _ _ E).
  destruct (df_get f "num_comments") as [nc|] eqn:E3;
    [|specialize (Hin "num_comments"); rewrite E3 in Hin; simpl in Hin;
      discriminate Hin; tauto].
  destruct (is_numeric_dtype nc); [|reflexivity]. cbn [negb andb].
  rewrite bind_eq, (getitem_frame _ _ _ _ E).
  destruct (df_get f "upvote_ratio") as [ur|] eqn:E4;
    [|specialize (Hin "upvote_ratio"); rewrite E4 in Hin; simpl in Hin;
      discriminate Hin; tauto].
  destruct (is_float_dtype ur); [|reflexivity]. cbn [negb andb].
  rewrite bind_eq, (getitem_frame _ _ _ _ E).
  destruct (df_get f "title") as [title|] eqn:E5;
    [|specialize (Hin "title"); rewrite E5 in Hin; simpl in Hin;
      discriminate Hin; tauto].
  destruct (isnull_any title); reflexivity.
Qed.

Lemma validate_no_frame df (h : heap) :
  (forall l f, df = PyFrame l -> h !! l <> Some f) ->
  validate_reddit_data_body df h = (Raise AttributeError, h)
  /\ validate_reddit_data df h = (Ok false, h).
Proof.
  intros Hno.
  assert (E : deref df AttributeError h = (Raise AttributeError, h)).
  { destruct df as [|l]; [reflexivity|]. apply deref_dangling.
    destruct (h !! l) as [f|] eqn:El; [|reflexivity].
    elim (Hno l f); auto. }
  assert (E' : validate_reddit_data_body df h = (Raise AttributeError, h)).
  { unfold validate_reddit_data_body, columns.
    now rewrite (bind_raise _ _ _ _ _ (bind_raise _ _ _ _ _ E)). }
  split; [exact E'|].
  unfold validate_reddit_data, try_except. now rewrite E'.
Qed.

Lemma rejected_invalid f : rejected f -> valid_frame f = false.
Proof.
  unfold valid_frame, has_dtype.
  intros [col Hin Hc|s Hs Hd|s Hs Hd|s Hs Hd|s Hs Hd|s Hs Hd];
    try (rewrite Hs, Hd; cbn [negb]; rewrite ?andb_false_r; reflexivity).
  assert (E : forallb (col_in (df_columns f)) required_columns = false).
  { apply not_true_is_false. intros Hall. rewrite forallb_forall in Hall.
    specialize (Hall col Hin). rewrite col_in_columns, Hc in Hall.
    discriminate. }
  now rewrite E.
Qed.

(** C4: the validator never raises and never changes the heap; an
    exception raised by one of its checks becomes the answer [false]; and
    a frame that lacks a required column, whose [score] or [num_comments]
    is not numeric, whose [created_utc] is not a datetime column, whose
    [upvote_ratio] is not a float column or whose [title] has a missing
    value gets the answer [false]. *)
Theorem validate_reddit_data_fail_closed (df : pyobj) (h : heap) :
  (exists b, validate_reddit_data df h = (Ok b, h))
  /\ (forall e h',
        validate_reddit_data_body df h = (Raise e, h') ->
        validate_reddit_data df h = (Ok false, h'))
  /\ (forall l f,
        df = PyFrame l -> h !! l = Some f -> rejected f ->
        validate_reddit_data df h = (Ok false, h)).
Proof.
  split; [|split].
  - destruct df as [|l].
    + exists false. apply validate_no_frame. discriminate.
    + destruct (h !! l) as [f|] eqn:E.
      * exists (valid_frame f). now apply validate_frame.
      * exists false. apply validate_no_frame.
        intros l' f' [= <-]. congruence.
  - intros e h' E. unfold validate_reddit_data, try_except. now rewrite E.
  - intros l f -> E Hr. rewrite (validate_frame _ _ _ E).
    now rewrite (rejected_invalid _ Hr).
Qed.

Lemma validate_reddit_data_fail_closed_witness :
  rejected frame_invalid
  /\ validate_reddit_data (PyFrame 1) {[1%positive := frame_invalid]}
     = (Ok false, {[1%positive := frame_invalid]}).
Proof.
  assert (Hr : rejected frame_invalid).
  { apply (missing_column frame_invalid "upvote_ratio");
      [simpl; tauto|reflexivity]. }
  split; [exact Hr|].
  apply (proj2 (proj2 (validate_reddit_data_fail_closed (PyFrame 1)
                         {[1%positive := frame_invalid]}))
           1%positive frame_invalid); [reflexivity|reflexivity|exact Hr].
Defined.

(** The handler of the validator is live: an argument that is no frame
    makes the first check raise. *)
Example validate_reddit_data_not_a_frame :
  validate_reddit_data_body PyNone ∅ = (Raise AttributeError, ∅)
  /\ validate_reddit_data PyNone ∅ = (Ok false, ∅).
Proof. split; reflexivity. Qed.

(** ** Engagement metrics *)

Lemma bind_lift {A B} (r : result A) (k : A -> M B) h :
  bind (lift r) k h
  = match r with Ok a => k a h | Raise e => (Raise e, h) end.
Proof. rewrite bind_eq. unfold lift. now destruct r. Qed.

Lemma nth_error_zip_with {A B C} (f : A -> B -> C) la lb i a b :
  nth_error la i = Some a -> nth_error lb i = Some b ->
  nth_error (zip_with f la lb) i = Some (f a b).
Proof.
  revert lb i. induction la as [|x la IH]; intros lb i; [now destruct i|].
  destruct lb as [|y lb]; [now destruct i|].
  destruct i as [|i]; simpl.
  - now intros [= ->] [= ->].
  - apply IH.
Qed.

Lemma calculate_engagement_metrics_body_outcome (h : heap) l f :
  h !! l = Some f ->
  engagement_outcome h l f (calculate_engagement_metrics_body (PyFrame l) h).
Proof.
  intros E. unfold calculate_engagement_metrics_body.
  rewrite bind_eq, (getitem_frame _ _ _ _ E).
  destruct (df_get f "score") as [sc|] eqn:Hsc; [|constructor].
  rewrite bind_lift. unfold series_mul_scalar.
  destruct (to_floats sc) as [ss|e] eqn:Hss; [|constructor].
  rewrite bind_eq, (getitem_frame _ _ _ _ E).
  destruct (df_get f "num_comments") as [nc|] eqn:Hnc; [|constructor].
  rewrite bind_lift.
  destruct (to_floats nc) as [ns|e] eqn:Hns; [|constructor].
  rewrite bind_lift. cbn [series_add series_binop to_floats].
  rewrite bind_eq, (getitem_frame _ _ _ _ E).
  destruct (df_get f "upvote_ratio") as [ur|] eqn:Hur; [|constructor].
  rewrite bind_lift. unfold series_mul, series_binop. cbn [to_floats].
  destruct (to_floats ur) as [us|e] eqn:Hus; [|constructor].
  rewrite bind_eq, (setitem_frame _ _ _ _ _ E).
  set (f1 := df_set f "engagement_score" _).
  assert (E1 : <[l := f1]> h !! l = Some f1) by apply lookup_insert_eq.
  rewrite bind_eq, (getitem_frame _ _ _ _ E1).
  unfold f1 at 1. rewrite df_get_set_ne by discriminate.
  destruct (df_get f "created_utc") as [cu|] eqn:Hcu; [|constructor].
  rewrite bind_lift.
  destruct cu as [?|?|?|ts|?]; try (cbn [dt_hour]; constructor).
  destruct (dt_hour (SDatetime ts)) as [hs|e] eqn:Hhs;
    [|cbn [dt_hour] in Hhs; destruct (forallb is_some ts); discriminate].
  rewrite bind_eq, (setitem_frame _ _ _ _ _ E1).
  rewrite insert_insert_eq.
  set (f2 := df_set f1 "hour_of_day" hs).
  assert (E2 : <[l := f2]> h !! l = Some f2) by apply lookup_insert_eq.
  rewrite bind_eq, (getitem_frame _ _ _ _ E2).
  unfold f2 at 1, f1 at 1. rewrite !df_get_set_ne by discriminate.
  rewrite Hcu, bind_lift. cbn [dt_day_name].
  rewrite bind_eq, (setitem_frame _ _ _ _ _ E2).
  rewrite insert_insert_eq.
  pose proof (all_assigned h l f sc nc ur ss ns us ts
                Hsc Hss Hnc Hns Hur Hus Hcu) as Hall.
  rewrite Hhs in Hall. exact Hall.
Qed.

Lemma calculate_engagement_metrics_body_ok (h : heap) l f sc nc ur ss ns us ts :
  h !! l = Some f ->
  df_get f "score" = Some sc -> to_floats sc = Ok ss ->
  df_get f "num_comments" = Some nc -> to_floats nc = Ok ns ->
  df_get f "upvote_ratio" = Some ur -> to_floats ur = Ok us ->
  df_get f "created_utc" = Some (SDatetime ts) ->
  exists hs,
    dt_hour (SDatetime ts) = Ok hs
    /\ calculate_engagement_metrics_body (PyFrame l) h
       = (Ok (PyFrame l),
          <[l := df_set
                   (df_set
                      (df_set f "engagement_score"
                         (SFloat
                            (zip_with PrimFloat.mul
                               (zip_with PrimFloat.add
                                  (map (fun a => PrimFloat.mul a 1.0%float) ss)
                                  (map (fun a => PrimFloat.mul a 2.0%float) ns))
                               us)))
                      "hour_of_day" hs)
                   "day_of_week"
                   (SObject
                      (map (fun t => match t with
                                     | Some t => OStr (day_name_of t)
                                     | None => ONone
                                     end) ts))]> h).
Proof.
  intros E Hsc Hss Hnc Hns Hur Hus Hcu.
  pose proof (calculate_engagement_metrics_body_outcome h l f E) as Hout.
  destruct (dt_hour (SDatetime ts)) as [hs|e] eqn:Hhs;
    [|cbn [dt_hour] in Hhs; destruct (forallb is_some ts); discriminate].
  exists hs. split; [reflexivity|].
  unfold calculate_engagement_metrics_body in *.
  rewrite bind_eq, (getitem_frame _ _ _ _ E), Hsc.
  rewrite bind_lift. unfold series_mul_scalar. rewrite Hss.
  rewrite bind_eq, (getitem_frame _ _ _ _ E), Hnc.
  rewrite bind_lift, Hns.
  rewrite bind_lift. cbn [series_add series_binop to_floats].
  rewrite bind_eq, (getitem_frame _ _ _ _ E), Hur.
  rewrite bind_lift. unfold series_mul, series_binop. cbn [to_floats].
  rewrite Hus.
  rewrite bind_eq, (setitem_frame _ _ _ _ _ E).
  set (f1 := df_set f "engagement_score" _).
  assert (E1 : <[l := f1]> h !! l = Some f1) by apply lookup_insert_eq.
  rewrite bind_eq, (getitem_frame _ _ _ _ E1).
  unfold f1 at 1. rewrite df_get_set_ne by discriminate.
  rewrite Hcu, bind_lift, Hhs.
  rewrite bind_eq, (setitem_frame _ _ _ _ _ E1).
  rewrite insert_insert_eq.
  set (f2 := df_set f1 "hour_of_day" hs).
  assert (E2 : <[l := f2]> h !! l = Some f2) by apply lookup_insert_eq.
  rewrite bind_eq, (getitem_frame _ _ _ _ E2).
  unfold f2 at 1, f1 at 1. rewrite !df_get_set_ne by discriminate.
  rewrite Hcu, bind_lift. cbn [dt_day_name].
  rewrite bind_eq, (setitem_frame _ _ _ _ _ E2).
  rewrite insert_insert_eq. reflexivity.
Qed.

Lemma has_dtype_true f col p :
  has_dtype f col p = true -> exists s, df_get f col = Some s /\ p s = true.
Proof.
  unfold has_dtype. destruct (df_get f col) as [s|]; [eauto|discriminate].
Qed.

Lemma numeric_to_floats s :
  is_numeric_dtype s = true -> exists l, to_floats s = Ok l.
Proof. destruct s; try discriminate; simpl; eauto. Qed.

Lemma hour_of_range t : 0 <= hour_of t <= 23.
Proof.
  unfold hour_of. pose proof (Z.mod_pos_bound (t / ns_per_hour) 24). lia.
Qed.

Lemma weekday_of_range t : 0 <= weekday_of t <= 6.
Proof.
  unfold weekday_of. pose proof (Z.mod_pos_bound (t / ns_per_day + 3) 7). lia.
Qed.

Lemma hour_cell_float z :
  0 <= z <= 23 -> hour_cell (CFloat (float_of_Z z)) = true.
Proof.
  intros Hz. assert (Hn : (Z.to_nat z < 24)%nat) by lia.
  rewrite <- (Z2Nat.id z) by lia. revert Hn.
  generalize (Z.to_nat z). intros n Hn.
  do 24 (destruct n as [|n]; [vm_compute; reflexivity|]). lia.
Qed.

Lemma hour_cell_int z : 0 <= z <= 23 -> hour_cell (CInt z) = true.
Proof. intros Hz. simpl. apply andb_true_intro. split; lia. Qed.

Lemma day_cell_name t : day_cell (CObj (OStr (day_name_of t))) = true.
Proof.
  pose proof (weekday_of_range t) as Hw. unfold day_name_of.
  assert (Hn : (Z.to_nat (weekday_of t) < 7)%nat) by lia. revert Hn.
  generalize (Z.to_nat (weekday_of t)). intros n Hn.
  do 7 (destruct n as [|n]; [vm_compute; reflexivity|]). lia.
Qed.

Lemma cell_at_hour ts hs i t :
  dt_hour (SDatetime ts) = Ok hs ->
  nth_error ts i = Some (Some t) ->
  cell_at hs i = Some (CInt (hour_of t))
  \/ cell_at hs i = Some (CFloat (float_of_Z (hour_of t))).
Proof.
  cbn [dt_hour]. intros Hhs Ht. unfold cell_at.
  destruct (forallb is_some ts); injection Hhs as <-; cbn [cells];
    rewrite !nth_error_map, Ht; simpl; auto.
Qed.

Lemma cell_of_set_eq f col s i :
  cell_of (df_set f col s) col i = cell_at s i.
Proof. unfold cell_of. now rewrite df_get_set_eq. Qed.

Lemma cell_of_set_ne f col col' s i :
  col <> col' -> cell_of (df_set f col s) col' i = cell_of f col' i.
Proof. intros H. unfold cell_of. now rewrite df_get_set_ne. Qed.

(** C2, as far as it holds: on a frame that passes the validator the
    step succeeds and returns the frame it was given; at every row the
    column [engagement_score] holds [(score * 1.0 + num_comments * 2.0) *
    upvote_ratio] computed in [float64], which for 100, 50 and 0.95 is
    exactly 190.0; and at every row whose [created_utc] is a timestamp
    (not [NaT]), [hour_of_day] holds the hour of that timestamp, a number
    from 0 to 23, and [day_of_week] the name of its day. *)
Theorem calculate_engagement_metrics_valid (h : heap) (l : loc) (f : DataFrame) :
  h !! l = Some f ->
  valid_frame f = true ->
  exists f',
    calculate_engagement_metrics (PyFrame l) h
    = (Ok (PyFrame l), <[l := f']> h)
    /\ (forall i s n u,
          float_at f "score" i = Some s ->
          float_at f "num_comments" i = Some n ->
          float_at f "upvote_ratio" i = Some u ->
          cell_of f' "engagement_score" i
          = Some (CFloat (engagement_formula s n u)))
    /\ (forall i t,
          cell_of f "created_utc" i = Some (CTime (Some t)) ->
          exists ch,
            cell_of f' "hour_of_day" i = Some ch
            /\ (ch = CInt (hour_of t) \/ ch = CFloat (float_of_Z (hour_of t)))
            /\ hour_cell ch = true
            /\ cell_of f' "day_of_week" i
               = Some (CObj (OStr (day_name_of t)))
            /\ day_cell (CObj (OStr (day_name_of t))) = true)
    /\ engagement_formula (float_of_Z 100) (float_of_Z 50) ratio_095
       = 190.0%float.
Proof.
  intros E Hv. unfold valid_frame in Hv.
  repeat (apply andb_prop in Hv as [Hv ?]).
  destruct (has_dtype_true _ _ _ H3) as (sc & Hsc & Hscn).
  destruct (has_dtype_true _ _ _ H2) as (cu & Hcu & Hcud).
  destruct (has_dtype_true _ _ _ H1) as (nc & Hnc & Hncn).
  destruct (has_dtype_true _ _ _ H0) as (ur & Hur & Hurf).
  destruct (numeric_to_floats _ Hscn) as [ss Hss].
  destruct (numeric_to_floats _ Hncn) as [ns Hns].
  destruct ur as [?|us|?|?|?]; try discriminate.
  destruct cu as [?|?|?|ts|?]; try discriminate.
  destruct (calculate_engagement_metrics_body_ok h l f _ _ _ _ _ _ _
              E Hsc Hss Hnc Hns Hur eq_refl Hcu) as (hs & Hhs & Hbody).
  eexists. split; [|split; [|split]].
  - unfold calculate_engagement_metrics, try_except. rewrite Hbody.
    reflexivity.
  - intros i s n u. unfold float_at. rewrite Hsc, Hss, Hnc, Hns, Hur.
    cbn [to_floats]. intros Hs Hn Hu.
    rewrite !cell_of_set_ne by discriminate. rewrite cell_of_set_eq.
    unfold cell_at. cbn [cells]. rewrite nth_error_map.
    erewrite nth_error_zip_with; [reflexivity| |exact Hu].
    erewrite nth_error_zip_with; [reflexivity| |].
    + rewrite nth_error_map, Hs. reflexivity.
    + rewrite nth_error_map, Hn. reflexivity.
  - intros i t. unfold cell_of at 1. rewrite Hcu. unfold cell_at.
    cbn [cells]. rewrite nth_error_map.
    destruct (nth_error ts i) as [[t'|]|] eqn:Ht; try discriminate.
    intros [= ->].
    rewrite cell_of_set_ne by discriminate. rewrite cell_of_set_eq.
    rewrite cell_of_set_eq.
    pose proof (hour_of_range t) as Hr.
    destruct (cell_at_hour _ _ _ _ Hhs Ht) as [Hc|Hc]; rewrite Hc.
    + eexists. split; [reflexivity|]. split; [now left|].
      split; [now apply hour_cell_int|].
      split; [|apply day_cell_name].
      unfold cell_at. cbn [cells]. now rewrite !nth_error_map, Ht.
    + eexists. split; [reflexivity|]. split; [now right|].
      split; [now apply hour_cell_float|].
      split; [|apply day_cell_name].
      unfold cell_at. cbn [cells]. now rewrite !nth_error_map, Ht.
  - vm_compute. reflexivity.
Qed.

Lemma calculate_engagement_metrics_valid_witness :
  valid_frame frame_one_post = true
  /\ exists f',
       calculate_engagement_metrics (PyFrame 1)
         {[1%positive := frame_one_post]}
       = (Ok (PyFrame 1),
          <[1%positive := f']> {[1%positive := frame_one_post]})
       /\ cell_of f' "engagement_score" 0
          = Some (CFloat
                    (engagement_formula (float_of_Z 100) (float_of_Z 50)
                       ratio_095)).
Proof.
  split; [reflexivity|].
  destruct (calculate_engagement_metrics_valid
              {[1%positive := frame_one_post]} 1%positive frame_one_post)
    as (f' & Hrun & Heng & _).
  - reflexivity.
  - reflexivity.
  - exists f'. split; [exact Hrun|].
    apply (Heng 0%nat (float_of_Z 100) (float_of_Z 50) ratio_095);
        reflexivity.
Defined.

(** C2 as it is stated fails at a row whose timestamp is missing: the
    validator looks for missing values in [title] only, the frame passes,
    and the step writes [NaN] and a missing day name at that row. *)
Lemma calculate_engagement_metrics_missing_time :
  let h : heap := {[1%positive := frame_without_time]} in
  validate_reddit_data (PyFrame 1) h = (Ok true, h)
  /\ exists f',
       calculate_engagement_metrics (PyFrame 1) h
       = (Ok (PyFrame 1), <[1%positive := f']> h)
       /\ cell_of f' "engagement_score" 0 = Some (CFloat 190.0%float)
       /\ cell_of f' "hour_of_day" 0 = Some (CFloat PrimFloat.nan)
       /\ cell_of f' "day_of_week" 0 = Some (CObj ONone)
       /\ ~ every_row_has_hour_and_day frame_without_time f'.
Proof.
  intros h. split; [reflexivity|].
  eexists. split; [vm_compute; reflexivity|].
  split; [reflexivity|]. split; [reflexivity|]. split; [reflexivity|].
  intros Hall.
  destruct (Hall 0%nat (CTime None) eq_refl) as (ch & cd & Hch & Hh & _).
  vm_compute in Hch. injection Hch as <-. vm_compute in Hh. discriminate.
Qed.

(** ** Failure of the engagement step *)

Lemma calculate_engagement_metrics_body_no_frame df (h : heap) :
  (forall l f, df = PyFrame l -> h !! l <> Some f) ->
  calculate_engagement_metrics_body df h = (Raise TypeError, h).
Proof.
  intros Hno.
  assert (E : deref df TypeError h = (Raise TypeError, h)).
  { destruct df as [|l]; [reflexivity|]. apply deref_dangling.
    destruct (h !! l) as [f|] eqn:El; [|reflexivity].
    elim (Hno l f); auto. }
  unfold calculate_engagement_metrics_body, getitem.
  now rewrite (bind_raise _ _ _ _ _ (bind_raise _ _ _ _ _ E)).
Qed.

(** C8, as far as it holds: an error inside the step is swallowed and
    the step returns the very frame it was given, not a copy; that frame
    is unchanged in every column but [engagement_score], and no other
    frame of the heap is touched.  When the failure comes before the
    first assignment (the expression of the score raises) nothing has
    changed at all; when it comes from [created_utc], which is then
    missing or no datetime column, [engagement_score] has already been
    assigned the value of its expression. *)
Theorem calculate_engagement_metrics_on_error
  (df : pyobj) (h : heap) (e : exn) (h' : heap) :
  calculate_engagement_metrics_body df h = (Raise e, h') ->
  calculate_engagement_metrics df h = (Ok df, h')
  /\ (forall l f,
        df = PyFrame l -> h !! l = Some f ->
        exists f',
          h' !! l = Some f'
          /\ (forall col,
                col <> "engagement_score" -> df_get f' col = df_get f col)
          /\ (forall l', l' <> l -> h' !! l' = h !! l')
          /\ (forall e0,
                engagement_score_of f = Raise e0 -> e = e0 /\ h' = h)
          /\ (forall es,
                engagement_score_of f = Ok es ->
                h' = <[l := df_set f "engagement_score" es]> h
                /\ df_get f' "engagement_score" = Some es
                /\ forall ts, df_get f "created_utc" <> Some (SDatetime ts)))
  /\ ((forall l f, df = PyFrame l -> h !! l <> Some f) -> h' = h).
Proof.
  intros Hbody. split; [|split].
  - unfold calculate_engagement_metrics, try_except. now rewrite Hbody.
  - intros l f -> E. revert Hbody.
    assert (Hearly : forall e1 : exn,
              (Raise e1 : result pyobj, h) = (Raise e, h') ->
              forall r : result Series,
                r = Raise e1 ->
                exists f',
                  h' !! l = Some f'
                  /\ (forall col,
                        col <> "engagement_score"%string ->
                        df_get f' col = df_get f col)
                  /\ (forall l', l' <> l -> h' !! l' = h !! l')
                  /\ (forall e0, r = Raise e0 -> e = e0 /\ h' = h)
                  /\ (forall es,
                        r = Ok es ->
                        h' = <[l := df_set f "engagement_score" es]> h
                        /\ df_get f' "engagement_score" = Some es
                        /\ forall ts,
                             df_get f "created_utc" <> Some (SDatetime ts))).
    { intros e1 [= <- <-] r ->. exists f. split; [exact E|].
      split; [reflexivity|]. split; [reflexivity|]. split.
      - intros e0 [= <-]. split; reflexivity.
      - intros es Hx. discriminate Hx. }
    unfold calculate_engagement_metrics_body, engagement_score_of.
    rewrite bind_eq, (getitem_frame _ _ _ _ E).
    destruct (df_get f "score") as [sc|] eqn:Hsc;
      [|intros Hx; exact (Hearly _ Hx _ eq_refl)].
    rewrite bind_lift.
    destruct (series_mul_scalar sc 1) as [a|e1] eqn:Ha;
      [|intros Hx; exact (Hearly _ Hx _ eq_refl)].
    rewrite bind_eq, (getitem_frame _ _ _ _ E).
    destruct (df_get f "num_comments") as [nc|] eqn:Hnc;
      [|intros Hx; exact (Hearly _ Hx _ eq_refl)].
    rewrite bind_lift.
    destruct (series_mul_scalar nc 2) as [b|e1] eqn:Hb;
      [|intros Hx; exact (Hearly _ Hx _ eq_refl)].
    rewrite bind_lift.
    destruct (series_add a b) as [ab|e1] eqn:Hab;
      [|intros Hx; exact (Hearly _ Hx _ eq_refl)].
    rewrite bind_eq, (getitem_frame _ _ _ _ E).
    destruct (df_get f "upvote_ratio") as [ur|] eqn:Hur;
      [|intros Hx; exact (Hearly _ Hx _ eq_refl)].
    rewrite bind_lift.
    destruct (series_mul ab ur) as [es|e1] eqn:Hes;
      [|intros Hx; exact (Hearly _ Hx _ eq_refl)].
    clear Hearly.
    rewrite bind_eq, (setitem_frame _ _ _ _ _ E).
    set (f1 := df_set f "engagement_score" es).
    assert (E1 : <[l := f1]> h !! l = Some f1) by apply lookup_insert_eq.
    assert (Hlate : forall e1 : exn,
              (Raise e1 : result pyobj, <[l := f1]> h) = (Raise e, h') ->
              (forall ts, df_get f "created_utc" <> Some (SDatetime ts)) ->
              exists f',
                h' !! l = Some f'
                /\ (forall col,
                      col <> "engagement_score"%string ->
                      df_get f' col = df_get f col)
                /\ (forall l', l' <> l -> h' !! l' = h !! l')
                /\ (forall e0,
                      (Ok es : result Series) = Raise e0 -> e = e0 /\ h' = h)
                /\ (forall es0,
                      Ok es = Ok es0 ->
                      h' = <[l := df_set f "engagement_score" es0]> h
                      /\ df_get f' "engagement_score" = Some es0
                      /\ forall ts,
                           df_get f "created_utc" <> Some (SDatetime ts))).
    { intros e1 [= <- <-] Hcu. exists f1. split; [exact E1|].
      split; [intros col Hcol; unfold f1; apply df_get_set_ne; congruence|].
      split; [intros l' Hl'; now apply lookup_insert_ne|]. split.
      - intros e0 Hx. discriminate Hx.
      - intros es0 [= <-]. split; [reflexivity|].
        split; [apply df_get_set_eq|exact Hcu]. }
    rewrite bind_eq, (getitem_frame _ _ _ _ E1).
    unfold f1 at 1. rewrite df_get_set_ne by discriminate.
    destruct (df_get f "created_utc") as [cu|] eqn:Hcu;
      [|intros Hx; apply (Hlate _ Hx); discriminate].
    rewrite bind_lift.
    destruct (dt_hour cu) as [hs|e1] eqn:Hhs.
    2:{ intros Hx. apply (Hlate _ Hx). intros ts [= ->].
        cbn in Hhs. destruct (forallb is_some ts); discriminate Hhs. }
    rewrite bind_eq, (setitem_frame _ _ _ _ _ E1), insert_insert_eq.
    set (f2 := df_set f1 "hour_of_day" hs).
    assert (E2 : <[l := f2]> h !! l = Some f2) by apply lookup_insert_eq.
    rewrite bind_eq, (getitem_frame _ _ _ _ E2).
    unfold f2 at 1, f1 at 1. rewrite !df_get_set_ne, Hcu by discriminate.
    rewrite bind_lift.
    destruct (dt_day_name cu) as [ds|e1] eqn:Hds;
      [|destruct cu; discriminate].
    rewrite bind_eq, (setitem_frame _ _ _ _ _ E2).
    unfold ret. intros Hx. discriminate Hx.
  - intros Hno.
    rewrite (calculate_engagement_metrics_body_no_frame df h Hno) in Hbody.
    now injection Hbody as _ <-.
Qed.

Lemma calculate_engagement_metrics_on_error_witness :
  exists e h' f',
    calculate_engagement_metrics_body (PyFrame 1)
      {[1%positive := frame_with_epoch]} = (Raise e, h')
    /\ calculate_engagement_metrics (PyFrame 1)
         {[1%positive := frame_with_epoch]} = (Ok (PyFrame 1), h')
    /\ h' !! 1%positive = Some f'
    /\ df_get f' "engagement_score" = Some (SFloat [190.0%float])
    /\ df_get f' "score" = df_get frame_with_epoch "score".
Proof.
  destruct (calculate_engagement_metrics_body (PyFrame 1)
              {[1%positive := frame_with_epoch]}) as [[v|e] h'] eqn:Hbody;
    [vm_compute in Hbody; discriminate Hbody|].
  destruct (calculate_engagement_metrics_on_error _ _ _ _ Hbody)
    as (Hstep & Hframe & _).
  destruct (Hframe 1%positive frame_with_epoch eq_refl
              (lookup_singleton_eq 1%positive frame_with_epoch))
    as (f' & Hf' & Hkeep & _ & _ & Hlate).
  destruct (Hlate (SFloat [190.0%float])) as (_ & Hscore & _);
    [vm_compute; reflexivity|].
  exists e, h', f'. split; [reflexivity|]. split; [exact Hstep|].
  split; [exact Hf'|]. split; [exact Hscore|].
  apply Hkeep. discriminate.
Defined.

(** C8 as it is stated fails: with a [created_utc] column that holds
    epoch numbers, the accessor [.dt] raises after [engagement_score] has
    been assigned, and the frame that comes back has that column. *)
Lemma calculate_engagement_metrics_not_atomic :
  let h : heap := {[1%positive := frame_with_epoch]} in
  exists e h',
    calculate_engagement_metrics_body (PyFrame 1) h = (Raise e, h')
    /\ calculate_engagement_metrics (PyFrame 1) h = (Ok (PyFrame 1), h')
    /\ h' !! 1%positive
       = Some (frame_with_epoch
                 ++ [("engagement_score", SFloat [190.0%float])])
    /\ h' !! 1%positive <> h !! 1%positive.
Proof.
  intros h. exists AttributeError. eexists.
  split; [vm_compute; reflexivity|].
  split; [vm_compute; reflexivity|].
  split; [vm_compute; reflexivity|].
  vm_compute. intros H. discriminate H.
Qed.

(** ** The text normalizer *)

Lemma clean_text_normalized (x : pyscalar) : normalized (clean_text x) = true.
Proof.
  destruct x as [s| |]; [|reflexivity|reflexivity].
  rewrite clean_text_str.
  destruct (join_words_shape _ (clean_tokens_words s)) as (H1 & H2 & H3 & H4).
  unfold normalized. now rewrite H1, H2, H3, H4.
Qed.

Lemma map_result_ok {A B} (f : A -> result B) l l' :
  map_result f l = Ok l' ->
  List.length l' = List.length l
  /\ forall i x, nth_error l i = Some x ->
       exists y, f x = Ok y /\ nth_error l' i = Some y.
Proof.
  revert l'. induction l as [|a l IH]; intros l'; simpl.
  - intros [= <-]. split; [reflexivity|]. intros [|i] x; discriminate.
  - destruct (f a) as [b|e] eqn:Ha; [|discriminate].
    destruct (map_result f l) as [bs|e] eqn:Hl; [|discriminate].
    intros [= <-]. destruct (IH bs eq_refl) as [Hlen Hnth].
    split; [simpl; now rewrite Hlen|].
    intros [|i] x; simpl.
    + intros [= <-]. eauto.
    + apply Hnth.
Qed.



(** The exception path of [clean_text] is live: a number has no
    [lower]. *)
Example clean_text_of_number :
  clean_text_body POther = Raise AttributeError /\ clean_text POther = [].
Proof. split; reflexivity. Qed.

Example clean_text_of_post :
  clean_text (PStr "Check out $AAPL and @wallstreetbets! http://example.com")
  = str_of "check out aapl and wallstreetbets".
Proof. vm_compute. reflexivity. Qed.

(** C5 as it is stated fails: the URL pattern is applied before the
    punctuation is removed, and removing punctuation can bring the
    letters "www" or "http" together.  The second pass then removes what
    the first pass made. *)
Lemma clean_text_not_idempotent :
  clean_text (PStr "Aww...we lost") = str_of "awwwe lost"
  /\ clean_text (PStr (clean_text (PStr "Aww...we lost"))) = str_of "a lost"
  /\ clean_text (PStr (clean_text (PStr "Aww...we lost")))
     <> clean_text (PStr "Aww...we lost").
Proof.
  split; [vm_compute; reflexivity|].
  split; [vm_compute; reflexivity|].
  vm_compute. discriminate.
Qed.

Lemma clean_text_idempotent_witness :
  contains_url
    (clean_text (PStr "Visit http://a.com now, and tell @bob!")) = false
  /\ clean_text
       (PStr (clean_text (PStr "Visit http://a.com now, and tell @bob!")))
     = clean_text (PStr "Visit http://a.com now, and tell @bob!").
Proof.
  split; [vm_compute; reflexivity|].
  apply (clean_text_idempotent "Visit http://a.com now, and tell @bob!").
  vm_compute. reflexivity.
Defined.

(** ** Frame rules *)

Lemma frame_spec_ret {A} cols l (a : A) (Q : A -> Prop) :
  Q a -> frame_spec cols l (ret a) Q.
Proof.
  intros Ha h f E. exists (Ok a), f. split; [|split].
  - unfold ret. now rewrite insert_id.
  - reflexivity.
  - now intros a' [= <-].
Qed.

Lemma frame_spec_raise {A} cols l e (Q : A -> Prop) :
  frame_spec cols l (raise e) Q.
Proof.
  intros h f E. exists (Raise e), f. split; [|split].
  - unfold raise. now rewrite insert_id.
  - reflexivity.
  - discriminate.
Qed.

Lemma frame_spec_lift {A} cols l (r : result A) :
  frame_spec cols l (lift r) (fun a => r = Ok a).
Proof.
  intros h f E. exists r, f. split; [|split].
  - unfold lift. now rewrite insert_id.
  - reflexivity.
  - auto.
Qed.

Lemma frame_spec_bind {A B} cols l (m : M A) (k : A -> M B) Q R :
  frame_spec cols l m Q ->
  (forall a, Q a -> frame_spec cols l (k a) R) ->
  frame_spec cols l (bind m k) R.
Proof.
  intros Hm Hk h f E. destruct (Hm h f E) as (r & f1 & Hr & Hf1 & HQ).
  rewrite bind_eq, Hr. destruct r as [a|e].
  - assert (E1 : <[l := f1]> h !! l = Some f1) by apply lookup_insert_eq.
    destruct (Hk a (HQ a eq_refl) _ _ E1) as (r' & f2 & Hr' & Hf2 & HR).
    exists r', f2. rewrite Hr', insert_insert_eq.
    split; [reflexivity|]. split; [|exact HR].
    intros c Hc. now rewrite Hf2, Hf1.
  - exists (Raise e), f1. split; [reflexivity|]. split; [exact Hf1|].
    discriminate.
Qed.

Lemma frame_spec_try {A} cols l (m : M A) (handler : exn -> M A) Q R :
  frame_spec cols l m Q ->
  (forall a, Q a -> R a) ->
  (forall e, frame_spec cols l (handler e) R) ->
  frame_spec cols l (try_except m handler) R.
Proof.
  intros Hm HQR Hh h f E. destruct (Hm h f E) as (r & f1 & Hr & Hf1 & HQ).
  unfold try_except. rewrite Hr. destruct r as [a|e].
  - exists (Ok a), f1. split; [reflexivity|]. split; [exact Hf1|].
    intros a' [= <-]. auto.
  - assert (E1 : <[l := f1]> h !! l = Some f1) by apply lookup_insert_eq.
    destruct (Hh e _ _ E1) as (r' & f2 & Hr' & Hf2 & HR).
    exists r', f2. rewrite Hr', insert_insert_eq.
    split; [reflexivity|]. split; [|exact HR].
    intros c Hc. now rewrite Hf2, Hf1.
Qed.

Lemma frame_spec_weaken {A} cols l (m : M A) (Q R : A -> Prop) :
  frame_spec cols l m Q -> (forall a, Q a -> R a) -> frame_spec cols l m R.
Proof.
  intros Hm HQR h f E. destruct (Hm h f E) as (r & f1 & Hr & Hf1 & HQ).
  exists r, f1. repeat split; auto.
Qed.

Lemma frame_spec_more {A} cols cols' l (m : M A) Q :
  frame_spec cols l m Q -> incl cols cols' -> frame_spec cols' l m Q.
Proof.
  intros Hm Hi h f E. destruct (Hm h f E) as (r & f1 & Hr & Hf1 & HQ).
  exists r, f1. repeat split; auto.
Qed.

Lemma frame_spec_getitem cols l col :
  frame_spec cols l (getitem (PyFrame l) col) (fun _ => True).
Proof.
  intros h f E. rewrite (getitem_frame _ _ _ _ E).
  eexists _, f. rewrite insert_id by assumption. repeat split; auto.
Qed.

Lemma frame_spec_setitem cols l col s :
  In col cols -> frame_spec cols l (setitem (PyFrame l) col s) (fun _ => True).
Proof.
  intros Hin h f E. rewrite (setitem_frame _ _ _ _ _ E).
  eexists _, _. split; [reflexivity|]. split; [|auto].
  intros c Hc. apply df_get_set_ne. intros ->. contradiction.
Qed.

Lemma frame_spec_columns cols l :
  frame_spec cols l (columns (PyFrame l)) (fun _ => True).
Proof.
  intros h f E. rewrite (columns_frame _ _ _ E).
  eexists _, f. rewrite insert_id by assumption. repeat split; auto.
Qed.

Lemma frame_spec_bind_any {A B} cols l (m : M A) (k : A -> M B) R :
  frame_spec cols l m (fun _ => True) ->
  (forall a, frame_spec cols l (k a) R) ->
  frame_spec cols l (bind m k) R.
Proof. intros Hm Hk. eapply frame_spec_bind; [exact Hm|auto]. Qed.

Lemma frame_spec_lift_any {A} cols l (r : result A) :
  frame_spec cols l (lift r) (fun _ => True).
Proof. eapply frame_spec_weaken; [apply frame_spec_lift|auto]. Qed.

Ltac frame_auto :=
  repeat first
    [ apply frame_spec_ret; try exact I
    | apply frame_spec_raise
    | apply frame_spec_getitem
    | apply frame_spec_columns
    | apply frame_spec_setitem; simpl; tauto
    | apply frame_spec_lift_any
    | apply frame_spec_bind_any; [|intros ?] ].

Lemma calculate_engagement_metrics_frame l :
  frame_spec engagement_columns l
    (calculate_engagement_metrics (PyFrame l)) (fun v => v = PyFrame l).
Proof.
  unfold calculate_engagement_metrics.
  eapply frame_spec_try with (Q := fun v => v = PyFrame l).
  - unfold calculate_engagement_metrics_body, engagement_columns.
    repeat (apply frame_spec_bind_any;
            [first [apply frame_spec_getitem
                   |apply frame_spec_lift_any
                   |apply frame_spec_setitem; simpl; tauto]|intros ?]).
    now apply frame_spec_ret.
  - auto.
  - intros e. now apply frame_spec_ret.
Qed.

Lemma bucket_metrics_frame pd cols l col :
  frame_spec cols l (bucket_metrics pd (PyFrame l) col) (fun _ => True).
Proof. unfold bucket_metrics. frame_auto. Qed.

Lemma calculate_time_based_metrics_frame pd l col :
  frame_spec time_columns l
    (calculate_time_based_metrics pd (PyFrame l) col) (fun _ => True).
Proof.
  unfold calculate_time_based_metrics.
  eapply frame_spec_try with (Q := fun _ => True); [|auto|].
  - unfold calculate_time_based_metrics_body, time_columns.
    repeat (apply frame_spec_bind_any;
            [first [apply frame_spec_getitem
                   |apply frame_spec_lift_any
                   |apply bucket_metrics_frame
                   |apply frame_spec_setitem; simpl; tauto]|intros ?]).
    now apply frame_spec_ret.
  - intros e. now apply frame_spec_ret.
Qed.

(** The aggregation never raises; it assigns [hour], [day] and [week]
    and nothing else. *)
Lemma _calculate_insights_frame pd l :
  frame_spec time_columns l (_calculate_insights pd (PyFrame l))
    (fun _ => True).
Proof.
  unfold _calculate_insights.
  eapply frame_spec_try with (Q := fun _ => True); [|auto|].
  - unfold _calculate_insights_body.
    repeat (apply frame_spec_bind_any;
            [first [apply frame_spec_getitem
                   |apply frame_spec_lift_any
                   |apply calculate_time_based_metrics_frame]|intros ?]).
    now apply frame_spec_ret.
  - intros e. now apply frame_spec_ret.
Qed.


(** ** The orchestrator *)

Lemma series_apply_clean_text_strs s s' :
  series_apply_clean_text s = Ok s' -> exists l, s' = SObject (map OStr l).
Proof.
  unfold series_apply_clean_text.
  destruct (map_result clean_text_cell (cells s)) as [l|e]; [|discriminate].
  intros [= <-]. eauto.
Qed.

Lemma series_add_str_strs l x :
  series_add_str (SObject (map OStr l)) x
  = Ok (SObject (map (fun s => OStr (s ++ x)) l)).
Proof.
  unfold series_add_str.
  assert (H : map_result (fun o => obj_add o (OStr x)) (map OStr l)
              = Ok (map (fun s => OStr (s ++ x)) l)).
  { induction l as [|s l IH]; [reflexivity|]. simpl. now rewrite IH. }
  now rewrite H.
Qed.

Lemma series_concat_strs la lb :
  series_concat (SObject (map (fun s => OStr (s ++ str_of " ")) la))
    (SObject (map OStr lb))
  = Ok (SObject (map OStr (zip_with joined_text la lb))).
Proof.
  unfold series_concat.
  assert (H : map_result (fun p => obj_add (fst p) (snd p))
                (combine (map (fun s => OStr (s ++ str_of " ")) la)
                   (map OStr lb))
              = Ok (map OStr (zip_with joined_text la lb))).
  { revert lb. induction la as [|a la IH]; intros [|b lb]; try reflexivity.
    simpl. rewrite IH. unfold joined_text. now rewrite <- app_assoc. }
  now rewrite H.
Qed.

Lemma enrich_frame sa l :
  frame_spec enrich_columns l (enrich sa (PyFrame l)) (fun v => v = PyFrame l).
Proof.
  unfold enrich, enrich_columns.
  do 10 (apply frame_spec_bind_any;
         [first [apply frame_spec_getitem
                |apply frame_spec_lift_any
                |apply frame_spec_setitem; simpl; tauto]|intros ?]).
  eapply frame_spec_bind.
  - eapply frame_spec_more; [apply calculate_engagement_metrics_frame|].
    unfold engagement_columns. intros c Hc. simpl in *. tauto.
  - intros v ->.
    repeat (apply frame_spec_bind_any;
            [first [apply frame_spec_getitem
                   |apply frame_spec_lift_any
                   |apply frame_spec_setitem; simpl; tauto]|intros ?]).
    now apply frame_spec_ret.
Qed.

(** What a successful enrichment has written. *)
Lemma enrich_ok sa l (h : heap) f v h1 :
  h !! l = Some f ->
  enrich sa (PyFrame l) h = (Ok v, h1) ->
  exists f1 title text titles texts results,
    v = PyFrame l /\ h1 = <[l := f1]> h
    /\ df_get f "title" = Some title
    /\ series_apply_clean_text title = Ok (SObject (map OStr titles))
    /\ df_get f "text" = Some text
    /\ series_apply_clean_text text = Ok (SObject (map OStr texts))
    /\ analyze_texts_batch sa
         (SObject (map OStr (zip_with joined_text titles texts)))
       = Ok results
    /\ df_get f1 "clean_title" = Some (SObject (map OStr titles))
    /\ df_get f1 "clean_text" = Some (SObject (map OStr texts))
    /\ df_get f1 "mentions"
       = Some (series_apply_extract extract_mentions
                 (SObject (map OStr texts)))
    /\ df_get f1 "tickers"
       = Some (series_apply_extract extract_tickers
                 (SObject (map OStr texts)))
    /\ df_get f1 "sentiment"
       = Some (SObject (map (fun r => OStr (fst r)) results))
    /\ df_get f1 "sentiment_score" = Some (SFloat (map snd results)).
Proof.
  intros E. unfold enrich.
  rewrite bind_eq, (getitem_frame _ _ _ _ E).
  destruct (df_get f "title") as [title|] eqn:Htitle;
    [|intros Hx; discriminate Hx].
  rewrite bind_lift.
  destruct (series_apply_clean_text title) as [ct|e] eqn:Hct;
    [|intros Hx; discriminate Hx].
  destruct (series_apply_clean_text_strs _ _ Hct) as [titles ->].
  rewrite bind_eq, (setitem_frame _ _ _ _ _ E).
  set (f1 := df_set f "clean_title" _).
  assert (E1 : <[l := f1]> h !! l = Some f1) by apply lookup_insert_eq.
  rewrite bind_eq, (getitem_frame _ _ _ _ E1).
  unfold f1 at 1. rewrite df_get_set_ne by discriminate.
  destruct (df_get f "text") as [text|] eqn:Htext;
    [|intros Hx; discriminate Hx].
  rewrite bind_lift.
  destruct (series_apply_clean_text text) as [cx|e] eqn:Hcx;
    [|intros Hx; discriminate Hx].
  destruct (series_apply_clean_text_strs _ _ Hcx) as [texts ->].
  rewrite bind_eq, (setitem_frame _ _ _ _ _ E1), insert_insert_eq.
  set (f2 := df_set f1 "clean_text" _).
  assert (E2 : <[l := f2]> h !! l = Some f2) by apply lookup_insert_eq.
  rewrite bind_eq, (getitem_frame _ _ _ _ E2).
  unfold f2 at 1. rewrite df_get_set_eq.
  rewrite bind_eq, (setitem_frame _ _ _ _ _ E2), insert_insert_eq.
  set (f3 := df_set f2 "mentions" _).
  assert (E3 : <[l := f3]> h !! l = Some f3) by apply lookup_insert_eq.
  rewrite bind_eq, (getitem_frame _ _ _ _ E3).
  unfold f3 at 1, f2 at 1.
  rewrite df_get_set_ne by discriminate. rewrite df_get_set_eq.
  rewrite bind_eq, (setitem_frame _ _ _ _ _ E3), insert_insert_eq.
  set (f4 := df_set f3 "tickers" _).
  assert (E4 : <[l := f4]> h !! l = Some f4) by apply lookup_insert_eq.
  destruct (calculate_engagement_metrics_frame l _ _ E4)
    as (r & f5 & Hcalc & Hf5 & Hr).
  rewrite bind_eq, Hcalc, insert_insert_eq.
  destruct r as [v5|e]; [|intros Hx; discriminate Hx].
  rewrite (Hr v5 eq_refl).
  assert (E5 : <[l := f5]> h !! l = Some f5) by apply lookup_insert_eq.
  assert (Hct5 : df_get f5 "clean_title" = Some (SObject (map OStr titles))).
  { rewrite Hf5 by (unfold engagement_columns; simpl; intuition discriminate).
    unfold f4, f3, f2. rewrite !df_get_set_ne by discriminate.
    apply df_get_set_eq. }
  assert (Hcx5 : df_get f5 "clean_text" = Some (SObject (map OStr texts))).
  { rewrite Hf5 by (unfold engagement_columns; simpl; intuition discriminate).
    unfold f4, f3. rewrite !df_get_set_ne by discriminate.
    apply df_get_set_eq. }
  assert (Hm5 : df_get f5 "mentions"
                = Some (series_apply_extract extract_mentions
                          (SObject (map OStr texts)))).
  { rewrite Hf5 by (unfold engagement_columns; simpl; intuition discriminate).
    unfold f4. rewrite !df_get_set_ne by discriminate.
    apply df_get_set_eq. }
  assert (Ht5 : df_get f5 "tickers"
                = Some (series_apply_extract extract_tickers
                          (SObject (map OStr texts)))).
  { rewrite Hf5 by (unfold engagement_columns; simpl; intuition discriminate).
    apply df_get_set_eq. }
  rewrite bind_eq, (getitem_frame _ _ _ _ E5), Hct5.
  rewrite bind_lift, series_add_str_strs.
  rewrite bind_eq, (getitem_frame _ _ _ _ E5), Hcx5.
  rewrite bind_lift, series_concat_strs.
  rewrite bind_lift.
  destruct (analyze_texts_batch sa _) as [results|e] eqn:Hres;
    [|intros Hx; discriminate Hx].
  rewrite bind_eq, (setitem_frame _ _ _ _ _ E5), insert_insert_eq.
  set (f6 := df_set f5 "sentiment" _).
  assert (E6 : <[l := f6]> h !! l = Some f6) by apply lookup_insert_eq.
  rewrite bind_eq, (setitem_frame _ _ _ _ _ E6), insert_insert_eq.
  unfold ret. intros [= <- <-].
  exists (df_set f6 "sentiment_score" (SFloat (map snd results))),
    title, text, titles, texts, results.
  unfold f6.
  repeat split; auto;
    rewrite ?df_get_set_ne by discriminate; rewrite ?df_get_set_eq; auto.
Qed.

Lemma validate_reddit_data_heap df (h : heap) r h' :
  validate_reddit_data df h = (r, h') ->
  h' = h
  /\ (r = Ok true ->
      exists l f, df = PyFrame l /\ h !! l = Some f /\ valid_frame f = true).
Proof.
  destruct df as [|l].
  - destruct (validate_no_frame PyNone h) as [_ Hv]; [discriminate|].
    rewrite Hv. intros [= <- <-]. split; [reflexivity|discriminate].
  - destruct (h !! l) as [f|] eqn:E.
    + rewrite (validate_frame _ _ _ E). intros [= <- <-].
      split; [reflexivity|]. intros [= Hv]. eauto.
    + destruct (validate_no_frame (PyFrame l) h) as [_ Hv].
      { intros l' f' [= <-]. congruence. }
      rewrite Hv. intros [= <- <-]. split; [reflexivity|discriminate].
Qed.

(** C1: when the validator turns the input down, the run raises the
    [ValueError] "Invalid Reddit data format" to its caller, whatever
    the sentiment model and the reductions are; the heap is as it was
    before the call, so nothing was enriched and no column was added;
    and the outcome is no successful result, with or without insights. *)
Theorem process_reddit_data_invalid
  (pd : Pandas) (sa : SentimentAnalyzer) (df : pyobj) (h : heap) :
  validate_reddit_data df h = (Ok false, h) ->
  process_reddit_data pd sa df h = (Raise invalid_format, h)
  /\ (forall r h', process_reddit_data pd sa df h <> (Ok r, h')).
Proof.
  intros Hv.
  assert (E : process_reddit_data pd sa df h = (Raise invalid_format, h)).
  { unfold process_reddit_data, try_except, process_reddit_data_body.
    rewrite bind_eq, Hv. reflexivity. }
  split; [exact E|]. intros r h'. rewrite E. discriminate.
Qed.

Lemma process_reddit_data_invalid_witness :
  validate_reddit_data (PyFrame 1) {[1%positive := frame_invalid]}
  = (Ok false, {[1%positive := frame_invalid]})
  /\ process_reddit_data first_value always_positive (PyFrame 1)
       {[1%positive := frame_invalid]}
     = (Raise invalid_format, {[1%positive := frame_invalid]}).
Proof.
  split; [reflexivity|].
  apply (process_reddit_data_invalid first_value always_positive).
  reflexivity.
Defined.

(** A successful run, taken apart. *)
Lemma process_reddit_data_ok pd sa df (h : heap) r h' :
  process_reddit_data pd sa df h = (Ok r, h') ->
  exists l f h1 ins,
    df = PyFrame l /\ h !! l = Some f /\ valid_frame f = true
    /\ enrich sa (PyFrame l) h = (Ok (PyFrame l), h1)
    /\ _calculate_insights pd (PyFrame l) h1 = (Ok ins, h')
    /\ r = (PyFrame l, ins).
Proof.
  unfold process_reddit_data, try_except, process_reddit_data_body.
  rewrite bind_eq.
  destruct (validate_reddit_data df h) as [rv hv] eqn:Hv.
  destruct (validate_reddit_data_heap _ _ _ _ Hv) as [-> Hvalid].
  destruct rv as [[|]|e]; try (intros Hx; discriminate Hx).
  destruct (Hvalid eq_refl) as (l & f & -> & E & Hf).
  cbn [negb]. rewrite bind_eq.
  destruct (enrich_frame sa l h f E) as (re & f1 & He & _ & Hre).
  rewrite He. destruct re as [v|e]; [|intros Hx; discriminate Hx].
  rewrite (Hre v eq_refl). rewrite bind_eq.
  destruct (_calculate_insights pd (PyFrame l) (<[l := f1]> h))
    as [[ins|e] h2] eqn:Hi; [|intros Hx; discriminate Hx].
  unfold ret. intros [= <- <-].
  exists l, f, (<[l := f1]> h), ins. rewrite (Hre v eq_refl) in He.
  repeat split; auto.
Qed.

Lemma cell_of_strs f col l i :
  df_get f col = Some (SObject (map OStr l)) ->
  cell_of f col i = option_map (fun s => CObj (OStr s)) (nth_error l i).
Proof.
  intros H. unfold cell_of, cell_at. rewrite H. cbn [cells].
  rewrite map_map, nth_error_map. reflexivity.
Qed.

Lemma map_result_values {A B} (f : A -> result B) l l' :
  map_result f l = Ok l' -> Forall2 (fun x y => f x = Ok y) l l'.
Proof.
  revert l'. induction l as [|a l IH]; intros l'; simpl.
  - intros [= <-]. constructor.
  - destruct (f a) as [b|e] eqn:Ha; [|discriminate].
    destruct (map_result f l) as [bs|e]; [|discriminate].
    intros [= <-]. constructor; auto.
Qed.

Lemma map_OStr_inj l l' : map OStr l = map OStr l' -> l = l'.
Proof.
  revert l'. induction l as [|a l IH]; intros [|b l']; try discriminate.
  - reflexivity.
  - simpl. intros [= -> H]. f_equal. auto.
Qed.

Lemma series_apply_clean_text_rows s l :
  series_apply_clean_text s = Ok (SObject (map OStr l)) ->
  List.length l = List.length (cells s)
  /\ forall i c, cell_at s i = Some c ->
       exists t, clean_text_cell c = Ok t /\ nth_error l i = Some t.
Proof.
  unfold series_apply_clean_text.
  destruct (map_result clean_text_cell (cells s)) as [l'|e] eqn:E;
    [|discriminate].
  intros [= H]. apply map_OStr_inj in H. subst l'.
  destruct (map_result_ok _ _ _ E) as [Hlen Hnth]. split; [exact Hlen|].
  intros i c Hc. apply (Hnth i c Hc).
Qed.

(** C6: in every successful run the frame that was passed in is the
    frame that comes back; there is one batch of texts, the text of
    post [i] being the cleaned title of row [i] of the input, a space
    and the cleaned text of row [i] of the input; the batch of results
    has the length of the batch of texts; the columns [sentiment] and
    [sentiment_score] are the labels and the scores of these results in
    their order; so at every row of the input both fields come from one
    call of [analyze_text] on the joined text of that row. *)
Theorem process_reddit_data_sentiment
  (pd : Pandas) (sa : SentimentAnalyzer) (df df' : pyobj) (ins : insights)
  (h h' : heap) :
  process_reddit_data pd sa df h = (Ok (df', ins), h') ->
  exists l f f' title text titles texts results,
    df = PyFrame l /\ df' = PyFrame l
    /\ h !! l = Some f /\ h' !! l = Some f'
    /\ df_get f "title" = Some title /\ df_get f "text" = Some text
    /\ series_apply_clean_text title = Ok (SObject (map OStr titles))
    /\ series_apply_clean_text text = Ok (SObject (map OStr texts))
    /\ List.length titles = List.length (cells title)
    /\ List.length texts = List.length (cells text)
    /\ df_get f' "clean_title" = Some (SObject (map OStr titles))
    /\ df_get f' "clean_text" = Some (SObject (map OStr texts))
    /\ analyze_texts_batch sa
         (SObject (map OStr (zip_with joined_text titles texts)))
       = Ok results
    /\ List.length results = List.length (zip_with joined_text titles texts)
    /\ df_get f' "sentiment"
       = Some (SObject (map (fun r => OStr (fst r)) results))
    /\ df_get f' "sentiment_score" = Some (SFloat (map snd results))
    /\ (forall i title text,
          cell_of f' "clean_title" i = Some (CObj (OStr title)) ->
          cell_of f' "clean_text" i = Some (CObj (OStr text)) ->
          exists r,
            analyze_text sa (PStr (joined_text title text)) = Ok r
            /\ cell_of f' "sentiment" i = Some (CObj (OStr (fst r)))
            /\ cell_of f' "sentiment_score" i = Some (CFloat (snd r)))
    /\ (forall i ct cx,
          cell_of f "title" i = Some ct -> cell_of f "text" i = Some cx ->
          exists t x r,
            clean_text_cell ct = Ok t /\ clean_text_cell cx = Ok x
            /\ cell_of f' "clean_title" i = Some (CObj (OStr t))
            /\ cell_of f' "clean_text" i = Some (CObj (OStr x))
            /\ analyze_text sa (PStr (joined_text t x)) = Ok r
            /\ cell_of f' "sentiment" i = Some (CObj (OStr (fst r)))
            /\ cell_of f' "sentiment_score" i = Some (CFloat (snd r)))
    /\ (forall i a b,
          cell_of f "title" i = Some (CObj (OStr a)) ->
          cell_of f "text" i = Some (CObj (OStr b)) ->
          exists r,
            analyze_text sa
              (PStr (joined_text (clean_text (PStr a)) (clean_text (PStr b))))
            = Ok r
            /\ cell_of f' "sentiment" i = Some (CObj (OStr (fst r)))
            /\ cell_of f' "sentiment_score" i = Some (CFloat (snd r))).
Proof.
  intros Hrun.
  destruct (process_reddit_data_ok _ _ _ _ _ _ Hrun)
    as (l & f & h1 & ins' & -> & E & Hvalid & Henrich & Hins & [= -> ->]).
  destruct (enrich_ok _ _ _ _ _ _ E Henrich)
    as (f1 & title & text & titles & texts & results & _ & -> & Htitle
        & Hclean_title & Htext & Hclean_text
        & Hres & Hct & Hcx & _ & _ & Hs & Hss).
  assert (E1 : <[l := f1]> h !! l = Some f1) by apply lookup_insert_eq.
  destruct (_calculate_insights_frame pd l _ _ E1) as (r & f2 & Hr & Hf2 & _).
  rewrite Hins in Hr. injection Hr as _ ->.
  assert (Hkeep : forall c,
             In c ["clean_title"; "clean_text"; "sentiment"; "sentiment_score"]
             -> df_get f2 c = df_get f1 c).
  { intros c Hc. apply Hf2. unfold time_columns. simpl in *.
    intuition (subst; discriminate). }
  destruct (series_apply_clean_text_rows _ _ Hclean_title)
    as [Hlen_title Hrow_title].
  destruct (series_apply_clean_text_rows _ _ Hclean_text)
    as [Hlen_text Hrow_text].
  destruct (map_result_ok _ _ _ Hres) as [Hlen Hnth].
  cbn [cells] in Hlen. rewrite !length_map in Hlen.
  assert (Hrows : forall i a b,
            nth_error titles i = Some a -> nth_error texts i = Some b ->
            exists res,
              analyze_text sa (PStr (joined_text a b)) = Ok res
              /\ cell_of f2 "sentiment" i = Some (CObj (OStr (fst res)))
              /\ cell_of f2 "sentiment_score" i = Some (CFloat (snd res))).
  { intros i a b Ha Hb.
    destruct (Hnth i (CObj (OStr (joined_text a b)))) as (res & Hres' & Hri).
    { cbn [cells]. rewrite map_map, nth_error_map.
      now rewrite (nth_error_zip_with _ _ _ _ _ _ Ha Hb). }
    exists res. split; [exact Hres'|].
    unfold cell_of. rewrite !Hkeep by (simpl; tauto). rewrite Hs, Hss.
    unfold cell_at. cbn [cells]. rewrite !map_map, !nth_error_map, Hri.
    split; reflexivity. }
  assert (Hct2 : df_get f2 "clean_title" = Some (SObject (map OStr titles)))
    by (rewrite Hkeep by (simpl; tauto); exact Hct).
  assert (Hcx2 : df_get f2 "clean_text" = Some (SObject (map OStr texts)))
    by (rewrite Hkeep by (simpl; tauto); exact Hcx).
  assert (Hinput : forall i ct cx,
            cell_of f "title" i = Some ct -> cell_of f "text" i = Some cx ->
            exists t x res,
              clean_text_cell ct = Ok t /\ clean_text_cell cx = Ok x
              /\ cell_of f2 "clean_title" i = Some (CObj (OStr t))
              /\ cell_of f2 "clean_text" i = Some (CObj (OStr x))
              /\ analyze_text sa (PStr (joined_text t x)) = Ok res
              /\ cell_of f2 "sentiment" i = Some (CObj (OStr (fst res)))
              /\ cell_of f2 "sentiment_score" i = Some (CFloat (snd res))).
  { intros i ct cx. unfold cell_of at 1 2. rewrite Htitle, Htext.
    intros Hi_title Hi_text.
    destruct (Hrow_title i ct Hi_title) as (t & Ht & Hnt).
    destruct (Hrow_text i cx Hi_text) as (x & Hx & Hnx).
    destruct (Hrows i t x Hnt Hnx) as (res & Hres' & Hsent & Hscore).
    exists t, x, res.
    rewrite (cell_of_strs f2 "clean_title" titles) by exact Hct2.
    rewrite (cell_of_strs f2 "clean_text" texts) by exact Hcx2.
    rewrite Hnt, Hnx. repeat split; auto. }
  exists l, f, f2, title, text, titles, texts, results.
  split; [reflexivity|]. split; [reflexivity|]. split; [exact E|].
  split; [apply lookup_insert_eq|].
  split; [exact Htitle|]. split; [exact Htext|].
  split; [exact Hclean_title|]. split; [exact Hclean_text|].
  split; [exact Hlen_title|]. split; [exact Hlen_text|].
  split; [exact Hct2|]. split; [exact Hcx2|].
  split; [exact Hres|]. split; [exact Hlen|].
  split; [rewrite Hkeep by (simpl; tauto); exact Hs|].
  split; [rewrite Hkeep by (simpl; tauto); exact Hss|].
  split; [|split].
  - intros i a b.
    rewrite (cell_of_strs f2 "clean_title" titles) by exact Hct2.
    rewrite (cell_of_strs f2 "clean_text" texts) by exact Hcx2.
    destruct (nth_error titles i) as [a'|] eqn:Ha; [|discriminate].
    destruct (nth_error texts i) as [b'|] eqn:Hb; [|discriminate].
    intros [= <-] [= <-]. exact (Hrows i a' b' Ha Hb).
  - exact Hinput.
  - intros i a b Ha Hb.
    destruct (Hinput i _ _ Ha Hb)
      as (t & x & res & Ht & Hx & _ & _ & Hres' & Hsent & Hscore).
    cbn in Ht, Hx. injection Ht as <-. injection Hx as <-.
    exists res. auto.
Qed.

Lemma forallb_pointwise {A} (p q : A -> bool) l :
  (forall x, In x l -> p x = q x) -> forallb p l = forallb q l.
Proof.
  induction l as [|x l IH]; intros H; [reflexivity|]. simpl.
  rewrite (H x) by now left. rewrite IH; [reflexivity|].
  intros y Hy. apply H. now right.
Qed.

Lemma valid_frame_ext f g :
  (forall c, In c required_columns -> df_get g c = df_get f c) ->
  valid_frame g = valid_frame f.
Proof.
  intros H. unfold valid_frame, has_dtype.
  rewrite !H by (simpl; tauto). f_equal.
  f_equal. f_equal. f_equal. f_equal.
  apply forallb_pointwise. intros c Hc. now rewrite !col_in_columns, H.
Qed.

(** On a valid frame the engagement step assigns its three columns. *)
Lemma calculate_engagement_metrics_assigns (h : heap) l f :
  h !! l = Some f -> valid_frame f = true ->
  exists f',
    calculate_engagement_metrics (PyFrame l) h
    = (Ok (PyFrame l), <[l := f']> h)
    /\ (forall c, In c engagement_columns -> df_get f' c <> None).
Proof.
  intros E Hv. unfold valid_frame in Hv.
  repeat (apply andb_prop in Hv as [Hv ?]).
  destruct (has_dtype_true _ _ _ H3) as (sc & Hsc & Hscn).
  destruct (has_dtype_true _ _ _ H2) as (cu & Hcu & Hcud).
  destruct (has_dtype_true _ _ _ H1) as (nc & Hnc & Hncn).
  destruct (has_dtype_true _ _ _ H0) as (ur & Hur & Hurf).
  destruct (numeric_to_floats _ Hscn) as [ss Hss].
  destruct (numeric_to_floats _ Hncn) as [ns Hns].
  destruct ur as [?|us|?|?|?]; try discriminate.
  destruct cu as [?|?|?|ts|?]; try discriminate.
  destruct (calculate_engagement_metrics_body_ok h l f _ _ _ _ _ _ _
              E Hsc Hss Hnc Hns Hur eq_refl Hcu) as (hs & Hhs & Hbody).
  eexists. split.
  - unfold calculate_engagement_metrics, try_except. rewrite Hbody.
    reflexivity.
  - intros c Hc. unfold engagement_columns in Hc. simpl in Hc.
    destruct Hc as [<-|[<-|[<-|[]]]];
      rewrite ?df_get_set_ne by discriminate; rewrite df_get_set_eq;
      discriminate.
Qed.

(** The enrichment of a valid frame has assigned all of its columns. *)
Lemma enrich_columns_present sa l (h : heap) f v h1 :
  h !! l = Some f -> valid_frame f = true ->
  enrich sa (PyFrame l) h = (Ok v, h1) ->
  exists f1,
    h1 = <[l := f1]> h
    /\ (forall c, In c enrich_columns -> df_get f1 c <> None).
Proof.
  intros E Hv. unfold enrich.
  rewrite bind_eq, (getitem_frame _ _ _ _ E).
  destruct (df_get f "title") as [title|] eqn:Htitle;
    [|intros Hx; discriminate Hx].
  rewrite bind_lift.
  destruct (series_apply_clean_text title) as [ct|e] eqn:Hct;
    [|intros Hx; discriminate Hx].
  rewrite bind_eq, (setitem_frame _ _ _ _ _ E).
  set (f1 := df_set f "clean_title" _).
  assert (E1 : <[l := f1]> h !! l = Some f1) by apply lookup_insert_eq.
  rewrite bind_eq, (getitem_frame _ _ _ _ E1).
  unfold f1 at 1. rewrite df_get_set_ne by discriminate.
  destruct (df_get f "text") as [text|] eqn:Htext;
    [|intros Hx; discriminate Hx].
  rewrite bind_lift.
  destruct (series_apply_clean_text text) as [cx|e] eqn:Hcx;
    [|intros Hx; discriminate Hx].
  rewrite bind_eq, (setitem_frame _ _ _ _ _ E1), insert_insert_eq.
  set (f2 := df_set f1 "clean_text" _).
  assert (E2 : <[l := f2]> h !! l = Some f2) by apply lookup_insert_eq.
  rewrite bind_eq, (getitem_frame _ _ _ _ E2).
  unfold f2 at 1. rewrite df_get_set_eq.
  rewrite bind_eq, (setitem_frame _ _ _ _ _ E2), insert_insert_eq.
  set (f3 := df_set f2 "mentions" _).
  assert (E3 : <[l := f3]> h !! l = Some f3) by apply lookup_insert_eq.
  rewrite bind_eq, (getitem_frame _ _ _ _ E3).
  unfold f3 at 1, f2 at 1.
  rewrite df_get_set_ne by discriminate. rewrite df_get_set_eq.
  rewrite bind_eq, (setitem_frame _ _ _ _ _ E3), insert_insert_eq.
  set (f4 := df_set f3 "tickers" _).
  assert (E4 : <[l := f4]> h !! l = Some f4) by apply lookup_insert_eq.
  assert (Hv4 : valid_frame f4 = true).
  { rewrite <- Hv. apply valid_frame_ext. intros c Hc.
    unfold f4, f3, f2, f1. unfold required_columns in Hc. simpl in Hc.
    destruct Hc as [<-|[<-|[<-|[<-|[<-|[<-|[]]]]]]];
      rewrite !df_get_set_ne by discriminate; reflexivity. }
  destruct (calculate_engagement_metrics_assigns _ _ _ E4 Hv4)
    as (f5 & Hcalc & Hf5).
  destruct (calculate_engagement_metrics_frame l _ _ E4)
    as (r & f5' & Hcalc' & Hkeep & _).
  rewrite Hcalc in Hcalc'. injection Hcalc' as <- Hheap.
  assert (f5' = f5) as ->.
  { apply (f_equal (fun m : heap => m !! l)) in Hheap.
    rewrite !lookup_insert_eq in Hheap. congruence. }
  rewrite bind_eq, Hcalc, insert_insert_eq.
  assert (E5 : <[l := f5]> h !! l = Some f5) by apply lookup_insert_eq.
  assert (Hold : forall c, In c ["clean_title"; "clean_text"; "mentions";
                                 "tickers"] -> df_get f5 c <> None).
  { intros c Hc. simpl in Hc.
    destruct Hc as [<-|[<-|[<-|[<-|[]]]]];
      (rewrite Hkeep
        by (unfold engagement_columns; simpl; intuition discriminate));
      unfold f4, f3, f2, f1;
      rewrite ?df_get_set_ne by discriminate; rewrite df_get_set_eq;
      discriminate. }
  rewrite bind_eq, (getitem_frame _ _ _ _ E5).
  destruct (df_get f5 "clean_title") as [ct5|]; [|intros Hx; discriminate Hx].
  rewrite bind_lift.
  destruct (series_add_str ct5 " ") as [sp|e]; [|intros Hx; discriminate Hx].
  rewrite bind_eq, (getitem_frame _ _ _ _ E5).
  destruct (df_get f5 "clean_text") as [cx5|]; [|intros Hx; discriminate Hx].
  rewrite bind_lift.
  destruct (series_concat sp cx5) as [tx|e]; [|intros Hx; discriminate Hx].
  rewrite bind_lift.
  destruct (analyze_texts_batch sa tx) as [results|e];
    [|intros Hx; discriminate Hx].
  rewrite bind_eq, (setitem_frame _ _ _ _ _ E5), insert_insert_eq.
  set (f6 := df_set f5 "sentiment" _).
  assert (E6 : <[l := f6]> h !! l = Some f6) by apply lookup_insert_eq.
  rewrite bind_eq, (setitem_frame _ _ _ _ _ E6), insert_insert_eq.
  unfold ret. intros [= <- <-].
  eexists. split; [reflexivity|].
  intros c Hc. unfold enrich_columns, engagement_columns in Hc.
  simpl in Hc. unfold f6.
  destruct Hc as [<-|[<-|[<-|[<-|[<-|[<-|[<-|[<-|[<-|[]]]]]]]]]];
    rewrite ?df_get_set_ne by discriminate;
    try (rewrite df_get_set_eq; discriminate);
    first [apply Hold; simpl; tauto
          |apply Hf5; unfold engagement_columns; simpl; tauto].
Qed.

Lemma process_reddit_data_sentiment_witness :
  exists ins h' f',
    process_reddit_data first_value echo_model (PyFrame 1)
      {[1%positive := frame_two_posts]} = (Ok (PyFrame 1, ins), h')
    /\ h' !! 1%positive = Some f'
    /\ cell_of f' "sentiment" 0
       = Some (CObj (OStr "gme to the moon diamond hands"))
    /\ cell_of f' "sentiment" 1
       = Some (CObj (OStr "sell aapl earnings were bad"))
    /\ cell_of f' "sentiment_score" 1 = Some (CFloat 0.75%float).
Proof.
  destruct (process_reddit_data first_value echo_model (PyFrame 1)
              {[1%positive := frame_two_posts]}) as [[[v ins]|e] h'] eqn:Hrun;
    [|vm_compute in Hrun; discriminate Hrun].
  destruct (process_reddit_data_sentiment _ _ _ _ _ _ _ Hrun)
    as (l & f & f' & title & text & titles & texts & results & Hl & -> & Hf
        & Hf' & _ & _ & _ & _ & _ & _ & _ & _ & _ & _ & _ & _ & _ & _
        & Hposts).
  injection Hl as <-. rewrite lookup_singleton_eq in Hf. injection Hf as <-.
  exists ins, h', f'. split; [reflexivity|]. split; [exact Hf'|].
  destruct (Hposts 0%nat (str_of "GME to the moon!") (str_of "Diamond hands")
              eq_refl eq_refl) as (r0 & Hr0 & Hs0 & _).
  destruct (Hposts 1%nat (str_of "Sell AAPL") (str_of "Earnings were bad")
              eq_refl eq_refl) as (r1 & Hr1 & Hs1 & Hc1).
  vm_compute in Hr0. injection Hr0 as <-.
  vm_compute in Hr1. injection Hr1 as <-.
  split; [exact Hs0|]. split; [exact Hs1|exact Hc1].
Defined.



(** The aggregation forced to fail inside a run: the mean raises, the
    run returns the enriched frame and the empty insights. *)
Example process_reddit_data_degraded :
  exists e h1 h',
    enrich always_positive (PyFrame 1) {[1%positive := frame_one_post]}
    = (Ok (PyFrame 1), h1)
    /\ _calculate_insights_body failing_mean (PyFrame 1) h1 = (Raise e, h')
    /\ process_reddit_data failing_mean always_positive (PyFrame 1)
         {[1%positive := frame_one_post]}
       = (Ok (PyFrame 1, EmptyInsights), h')
    /\ exists f',
         h' !! 1%positive = Some f'
         /\ df_get f' "sentiment" = Some (SObject [OStr "POS"])
         /\ df_get f' "engagement_score" = Some (SFloat [190.0%float]).
Proof.
  exists TypeError. eexists _, _.
  split; [vm_compute; reflexivity|].
  split; [vm_compute; reflexivity|].
  split; [vm_compute; reflexivity|].
  eexists. split; [vm_compute; reflexivity|].
  split; vm_compute; reflexivity.
Qed.

(** The aggregation called on a frame that was not enriched: the column
    [clean_title] is missing, the answer is the empty insights. *)
Example _calculate_insights_of_raw_frame :
  exists h',
    _calculate_insights_body first_value (PyFrame 1)
      {[1%positive := frame_one_post]} = (Raise (KeyError "clean_title"), h')
    /\ _calculate_insights first_value (PyFrame 1)
         {[1%positive := frame_one_post]} = (Ok EmptyInsights, h').
Proof.
  eexists. split; vm_compute; reflexivity.
Qed.

(** C9 as it is stated fails: after a successful run the frame the
    caller passed in has the derived columns; the run returns that same
    frame. *)
Lemma process_reddit_data_mutates_input :
  let h : heap := {[1%positive := frame_one_post]} in
  exists ins h' f',
    process_reddit_data first_value always_positive (PyFrame 1) h
    = (Ok (PyFrame 1, ins), h')
    /\ h' !! 1%positive = Some f'
    /\ df_columns f'
       = df_columns frame_one_post
           ++ ["clean_title"; "clean_text"; "mentions"; "tickers";
               "engagement_score"; "hour_of_day"; "day_of_week";
               "sentiment"; "sentiment_score"; "hour"; "day"; "week"]
    /\ h' !! 1%positive <> h !! 1%positive.
Proof.
  intros h. eexists _, _, _.
  split; [vm_compute; reflexivity|].
  split; [vm_compute; reflexivity|].
  split; [vm_compute; reflexivity|].
  vm_compute. intros H. discriminate H.
Qed.

(** The time metrics assign [hour], [day] and [week] whenever the
    timestamp column is a datetime column, whatever happens after. *)
Lemma calculate_time_based_metrics_assigns pd l (h : heap) f ts :
  h !! l = Some f ->
  df_get f "created_utc" = Some (SDatetime ts) ->
  exists tm f',
    calculate_time_based_metrics pd (PyFrame l) "created_utc" h
    = (Ok tm, <[l := f']> h)
    /\ (forall c, In c time_columns -> df_get f' c <> None).
Proof.
  intros E Hcol.
  assert (Hhs : exists hs, dt_hour (SDatetime ts) = Ok hs).
  { unfold dt_hour. destruct (forallb is_some ts); eauto. }
  destruct Hhs as [hs Hhs].
  unfold calculate_time_based_metrics, try_except,
    calculate_time_based_metrics_body.
  rewrite bind_eq, (getitem_frame _ _ _ _ E), Hcol, bind_lift, Hhs.
  rewrite bind_eq, (setitem_frame _ _ _ _ _ E).
  set (f1 := df_set f "hour" hs).
  assert (E1 : <[l := f1]> h !! l = Some f1) by apply lookup_insert_eq.
  rewrite bind_eq, (getitem_frame _ _ _ _ E1).
  unfold f1 at 1. rewrite df_get_set_ne, Hcol by discriminate.
  rewrite bind_lift. cbn [dt_day_name].
  rewrite bind_eq, (setitem_frame _ _ _ _ _ E1), insert_insert_eq.
  set (f2 := df_set f1 "day" _).
  assert (E2 : <[l := f2]> h !! l = Some f2) by apply lookup_insert_eq.
  rewrite bind_eq, (getitem_frame _ _ _ _ E2).
  unfold f2 at 1, f1 at 1. rewrite !df_get_set_ne, Hcol by discriminate.
  rewrite bind_lift. cbn [dt_isocalendar_week].
  rewrite bind_eq, (setitem_frame _ _ _ _ _ E2), insert_insert_eq.
  set (f3 := df_set f2 "week" _).
  assert (E3 : <[l := f3]> h !! l = Some f3) by apply lookup_insert_eq.
  assert (H3 : forall c, In c time_columns -> df_get f3 c <> None).
  { intros c Hc. unfold time_columns in Hc. simpl in Hc.
    destruct Hc as [<-|[<-|[<-|[]]]]; unfold f3, f2, f1;
      rewrite ?df_get_set_ne by discriminate; rewrite df_get_set_eq;
      discriminate. }
  (* the groups read the frame only *)
  match goal with
  | |- context [match ?m (<[l := f3]> h) with _ => _ end] =>
      assert (Htail : frame_spec [] l m (fun _ => True))
  end.
  { apply frame_spec_bind_any; [apply bucket_metrics_frame|intros ?].
    apply frame_spec_bind_any; [apply bucket_metrics_frame|intros ?].
    now apply frame_spec_ret. }
  destruct (Htail _ _ E3) as (rt & f4 & Ht & Hkeep4 & _).
  rewrite Ht, insert_insert_eq.
  exists (match rt with Ok tm => tm | Raise _ => no_time_metrics end), f4.
  split; [destruct rt; reflexivity|].
  intros c Hc. rewrite Hkeep4 by (intros []). now apply H3.
Qed.

Lemma _calculate_insights_time_columns pd l (h : heap) f ts :
  h !! l = Some f ->
  df_get f "created_utc" = Some (SDatetime ts) ->
  exists r f',
    _calculate_insights pd (PyFrame l) h = (r, <[l := f']> h)
    /\ (forall c, In c time_columns -> df_get f' c <> None).
Proof.
  intros E Hcol.
  destruct (calculate_time_based_metrics_assigns pd l h f ts E Hcol)
    as (tm & f4 & Htm & H4).
  assert (E4 : <[l := f4]> h !! l = Some f4) by apply lookup_insert_eq.
  unfold _calculate_insights, try_except, _calculate_insights_body.
  rewrite bind_eq, Htm.
  match goal with
  | |- context [match ?m (<[l := f4]> h) with _ => _ end] =>
      assert (Hrest : frame_spec [] l m (fun _ => True))
  end.
  { repeat (apply frame_spec_bind_any;
            [first [apply frame_spec_getitem|apply frame_spec_lift_any]
            |intros ?]).
    now apply frame_spec_ret. }
  destruct (Hrest _ _ E4) as (rr & f5 & Hr & Hkeep5 & _).
  rewrite Hr, insert_insert_eq.
  exists (match rr with Ok a => Ok a | Raise _ => Ok EmptyInsights end), f5.
  split; [destruct rr; reflexivity|].
  intros c Hc. rewrite Hkeep5 by (intros []). now apply H4.
Qed.

(** C9, as far as it holds: a successful run returns the reference it
    was given; the frame behind it has been changed in place and now has
    every derived column: the columns of the enrichment and the columns
    [hour], [day] and [week] of the aggregation; every column that is
    none of the derived ones is as it was; and no other frame of the
    heap has changed. *)
Theorem process_reddit_data_in_place
  (pd : Pandas) (sa : SentimentAnalyzer) (df df' : pyobj) (ins : insights)
  (h h' : heap) :
  process_reddit_data pd sa df h = (Ok (df', ins), h') ->
  df' = df
  /\ exists l f f',
       df = PyFrame l /\ h !! l = Some f /\ h' !! l = Some f'
       /\ (forall c, In c derived_columns -> df_get f' c <> None)
       /\ (forall c, ~ In c derived_columns -> df_get f' c = df_get f c)
       /\ (forall l', l' <> l -> h' !! l' = h !! l').
Proof.
  intros Hrun.
  destruct (process_reddit_data_ok _ _ _ _ _ _ Hrun)
    as (l & f & h1 & ins' & -> & E & Hvalid & Henrich & Hins & [= -> ->]).
  split; [reflexivity|].
  destruct (enrich_columns_present _ _ _ _ _ _ E Hvalid Henrich)
    as (f1 & -> & Hpresent).
  destruct (enrich_frame sa l h f E) as (re & f1' & He & Hkeep1 & _).
  rewrite Henrich in He. injection He as _ Hheap.
  assert (f1' = f1) as ->.
  { apply (f_equal (fun m : heap => m !! l)) in Hheap.
    rewrite !lookup_insert_eq in Hheap. congruence. }
  assert (E1 : <[l := f1]> h !! l = Some f1) by apply lookup_insert_eq.
  destruct (_calculate_insights_frame pd l _ _ E1) as (r & f2 & Hr & Hkeep2 & _).
  rewrite Hins in Hr. injection Hr as _ ->.
  assert (Htime : forall c, In c time_columns -> df_get f2 c <> None).
  { assert (Hcu : exists ts, df_get f1 "created_utc" = Some (SDatetime ts)).
    { rewrite Hkeep1
        by (unfold enrich_columns, engagement_columns; simpl;
            intuition discriminate).
      unfold valid_frame in Hvalid.
      repeat (apply andb_prop in Hvalid as [Hvalid ?]).
      match goal with
      | H : has_dtype f "created_utc" _ = true |- _ =>
          destruct (has_dtype_true _ _ _ H) as (cu & Hcu & Hd)
      end.
      destruct cu as [?|?|?|ts|?]; try discriminate. eauto. }
    destruct Hcu as [ts Hcu].
    destruct (_calculate_insights_time_columns pd l _ _ _ E1 Hcu)
      as (r' & f2' & Hr' & Hpresent').
    rewrite Hins in Hr'. injection Hr' as _ Hheap'.
    apply (f_equal (fun m : heap => m !! l)) in Hheap'.
    rewrite !lookup_insert_eq in Hheap'. injection Hheap' as ->.
    exact Hpresent'. }
  rewrite insert_insert_eq.
  exists l, f, f2. split; [reflexivity|]. split; [exact E|].
  split; [apply lookup_insert_eq|]. split; [|split].
  - intros c Hc. unfold derived_columns in Hc.
    fold enrich_columns in Hc.
    assert (Hsplit : In c enrich_columns \/ In c time_columns).
    { unfold enrich_columns. rewrite !in_app_iff in *. tauto. }
    destruct Hsplit as [Hc'|Hc']; [|now apply Htime].
    rewrite Hkeep2; [now apply Hpresent|].
    unfold enrich_columns, engagement_columns, time_columns in *.
    simpl in *. intuition (subst; discriminate).
  - intros c Hc. rewrite Hkeep2, Hkeep1; [reflexivity| |];
      intros Hin; apply Hc; unfold derived_columns, enrich_columns in *;
      rewrite !in_app_iff in *; simpl in *; tauto.
  - intros l' Hl'. now apply lookup_insert_ne.
Qed.

Lemma process_reddit_data_in_place_witness :
  exists ins h',
    process_reddit_data first_value always_positive (PyFrame 1)
      {[1%positive := frame_one_post]} = (Ok (PyFrame 1, ins), h')
    /\ exists f',
         h' !! 1%positive = Some f'
         /\ df_get f' "title" = df_get frame_one_post "title"
         /\ df_get f' "score" = df_get frame_one_post "score"
         /\ df_get f' "sentiment" <> None
         /\ df_get f' "week" <> None.
Proof.
  destruct (process_reddit_data first_value always_positive (PyFrame 1)
              {[1%positive := frame_one_post]}) as [[[v ins]|e] h'] eqn:Hrun;
    [|vm_compute in Hrun; discriminate Hrun].
  assert (Hv : v = PyFrame 1).
  { pose proof Hrun as Hc. vm_compute in Hc. congruence. }
  subst v. exists ins, h'. split; [reflexivity|].
  destruct (process_reddit_data_in_place _ _ _ _ _ _ _ Hrun)
    as (_ & l & f & f' & [= <-] & Hf & Hf' & Hpresent & Hkeep & _).
  exists f'. split; [exact Hf'|].
  assert (f = frame_one_post) as ->.
  { rewrite lookup_singleton_eq in Hf. congruence. }
  split; [|split; [|split]].
  - apply Hkeep; unfold derived_columns, engagement_columns,
      time_columns; simpl; intuition discriminate.
  - apply Hkeep; unfold derived_columns, engagement_columns,
      time_columns; simpl; intuition discriminate.
  - apply Hpresent. unfold derived_columns. simpl. tauto.
  - apply Hpresent. unfold derived_columns, engagement_columns,
      time_columns. simpl. tauto.
Defined.

(** ** The scenarios of the specification *)

Example extract_mentions_example :
  extract_mentions (PStr "hi @bob and @alice")
  = [str_of "bob"; str_of "alice"].
Proof. vm_compute. reflexivity. Qed.

Example extract_tickers_example :
  extract_tickers (PStr "$AAPL looks good") = [str_of "AAPL"].
Proof. vm_compute. reflexivity. Qed.

(** The tickers of the pipeline are searched in the cleaned text, which
    has neither "$" nor capitals. *)
Example extract_tickers_after_clean_text :
  extract_tickers (PStr (clean_text (PStr "$AAPL looks good"))) = [].
Proof. vm_compute. reflexivity. Qed.

Example validate_missing_column :
  validate_reddit_data (PyFrame 1)
    {[1%positive := [("title", SObject [OStr "a"]); ("text", SObject [OStr "b"]);
                     ("score", SInt [1]); ("created_utc", SDatetime [Some 0]);
                     ("num_comments", SInt [0])]]}
  = (Ok false,
     {[1%positive := [("title", SObject [OStr "a"]); ("text", SObject [OStr "b"]);
                      ("score", SInt [1]); ("created_utc", SDatetime [Some 0]);
                      ("num_comments", SInt [0])]]}).
Proof. vm_compute. reflexivity. Qed.

Example validate_missing_title :
  valid_frame
    [("title", SObject [OStr "a"; ONone]); ("text", SObject [OStr "b"; OStr "c"]);
     ("score", SInt [1; 2]); ("created_utc", SDatetime [Some 0; Some 1]);
     ("num_comments", SInt [0; 0]); ("upvote_ratio", SFloat [0.5%float; 1%float])]
  = false.
Proof. vm_compute. reflexivity. Qed.

Example analyze_texts_batch_empty_text :
  analyze_texts_batch always_positive (SObject [OStr ""]) = Ok [neutral].
Proof. vm_compute. reflexivity. Qed.

(** A model that fails on one text: that text alone becomes neutral. *)
Example analyze_texts_batch_keeps_order :
  analyze_texts_batch
    {| use_transformers := true;
       sentiment_model := fun s =>
         if str_eqb s "b" then Raise TypeError else Ok (s, 1%float);
       textblob_polarity := fun _ => Ok 0%float |}
    (SObject [OStr "a"; OStr "b"; OStr "c"])
  = Ok [(str_of "a", 1%float); neutral; (str_of "c", 1%float)].
Proof. vm_compute. reflexivity. Qed.

(** * Further properties of the code *)

(** ** The text functions *)

Lemma clean_text_in_lower (x : pyscalar) c :
  In c (clean_text x) -> lower_char c = c.
Proof.
  destruct x as [s| |]; [|intros []|intros []].
  rewrite clean_text_str. intros Hc.
  apply join_in in Hc as [->|Hc]; [reflexivity|].
  apply in_concat in Hc as (t & Ht & Hc).
  eapply clean_tokens_lower; eauto.
Qed.

Lemma upper_not_lower c : is_ascii_upper c = true -> lower_char c <> c.
Proof. by_code_point c. Qed.

(** X1: the text [clean_text] returns is in lower case: lowering it again
    changes nothing, and no capital A to Z occurs in it. *)
Theorem clean_text_lower_case (x : pyscalar) :
  lower (clean_text x) = clean_text x
  /\ forall c, In c (clean_text x) -> is_ascii_upper c = false.
Proof.
  split.
  - apply lower_fixed. rewrite Forall_forall. apply clean_text_in_lower.
  - intros c Hc. destruct (is_ascii_upper c) eqn:E; [|reflexivity].
    elim (upper_not_lower c E). now apply (clean_text_in_lower x).
Qed.

Lemma re_scan_length {A} (m : matcher A) :
  productive m ->
  forall n s prev,
    (List.length (flat_map unmatched_of (re_scan m n prev s))
     <= List.length s)%nat.
Proof.
  intros Hm n. induction n as [|n IH]; intros s prev; [simpl; lia|].
  destruct s as [|c s]; [simpl; lia|].
  cbn [re_scan].
  destruct (m prev (c :: s)) as [[[a mt] rest]|] eqn:E;
    cbn [flat_map unmatched_of app].
  - destruct (Hm _ _ _ _ _ E) as [_ Hs]. rewrite Hs, length_app.
    specialize (IH rest (Some (last mt c))). lia.
  - specialize (IH s (Some c)). simpl. lia.
Qed.

Lemma split_fold_weight s :
  (split_weight (fold_right split_step ([], []) s) <= List.length s)%nat.
Proof.
  induction s as [|c s IH]; [unfold split_weight; simpl; lia|].
  cbn [fold_right List.length].
  destruct (fold_right split_step ([], []) s) as [cur toks].
  unfold split_step. unfold split_weight in *. cbn [fst snd] in *.
  destruct (is_space c).
  - cbn [push_token fst snd].
    destruct cur as [|d cur]; destruct toks as [|t toks];
      cbn [push_token] in *; try lia.
  - destruct cur as [|d cur]; destruct toks as [|t toks];
      cbn [push_token] in *;
      rewrite ?join_single, ?join_cons_space in *;
      rewrite ?length_app in *; simpl in *;
      rewrite ?length_app in *; simpl in *; lia.
Qed.

Lemma join_split_length s :
  (List.length (join " " (split_ws s)) <= List.length s)%nat.
Proof.
  pose proof (split_fold_weight s) as H. unfold split_ws.
  destruct (fold_right split_step ([], []) s) as [cur toks].
  unfold split_weight in H. cbn [fst snd] in H. lia.
Qed.

(** X2: [clean_text] never returns a text longer than the one it was
    given. *)
Theorem clean_text_length (s : str) :
  (List.length (clean_text (PStr s)) <= List.length s)%nat.
Proof.
  rewrite clean_text_str. unfold clean_tokens.
  etransitivity; [apply join_split_length|].
  etransitivity; [apply (re_scan_length _ special_pattern_productive)|].
  etransitivity; [apply (re_scan_length _ url_pattern_productive)|].
  unfold lower. now rewrite length_map.
Qed.

(** ** Mentions and tickers *)

Lemma distinct_in l x : In x (distinct l) <-> In x l.
Proof.
  induction l as [|y l IH]; [reflexivity|]. cbn [distinct].
  split.
  - intros [<-|H]; [now left|].
    apply filter_In in H as [H _]. right. now apply IH.
  - intros [<-|H]; [now left|].
    destruct (str_eq_dec y x) as [->|n]; [now left|right].
    apply filter_In. split; [now apply IH|].
    apply negb_true_iff. now apply str_eqb_neq.
Qed.

Lemma distinct_nodup l : NoDup (distinct l).
Proof.
  induction l as [|y l IH]; [constructor|]. cbn [distinct].
  constructor.
  - intros H. apply filter_In in H as [_ H].
    rewrite str_eqb_refl in H. discriminate.
  - now apply NoDup_filter.
Qed.

(** Every capture of a scan comes from a match at some position of the
    text. *)
Lemma re_scan_captures {A} (m : matcher A) :
  productive m ->
  forall n s prev pre a,
    In a (flat_map captures_of (re_scan m n prev s)) ->
    exists p mt rest before,
      pre ++ s = p ++ mt ++ rest /\ m before (mt ++ rest) = Some (a, mt, rest).
Proof.
  intros Hm n. induction n as [|n IH]; intros s prev pre a; [intros []|].
  destruct s as [|c s]; [intros []|].
  cbn [re_scan].
  destruct (m prev (c :: s)) as [[[b mt] rest]|] eqn:E;
    cbn [flat_map captures_of app].
  - destruct (Hm _ _ _ _ _ E) as [_ Hs]. intros [<-|H].
    + exists pre, mt, rest, prev. rewrite <- Hs. auto.
    + destruct (IH rest _ (pre ++ mt) a H) as (p & mt' & rest' & bf & Hp & Hmt).
      exists p, mt', rest', bf. split; [|exact Hmt].
      rewrite Hs, <- Hp. now rewrite <- app_assoc.
  - intros H.
    destruct (IH s _ (pre ++ [c]) a H) as (p & mt' & rest' & bf & Hp & Hmt).
    exists p, mt', rest', bf. split; [|exact Hmt].
    rewrite <- Hp, <- app_assoc. reflexivity.
Qed.

Lemma re_findall_captures {A} (m : matcher A) s a :
  productive m -> In a (re_findall m s) ->
  exists p mt rest before,
    s = p ++ mt ++ rest /\ m before (mt ++ rest) = Some (a, mt, rest).
Proof.
  intros Hm H.
  apply (re_scan_captures m Hm _ _ _ [] a H).
Qed.

Lemma span_upto_stop p n s a b :
  span_upto p n s = (a, b) ->
  (List.length a <= n)%nat
  /\ ((List.length a < n)%nat ->
      match b with c :: _ => p c = false | [] => True end).
Proof.
  revert s a b. induction n as [|n IH]; intros s a b; simpl.
  - intros [= <- <-]. simpl. split; [lia|lia].
  - destruct s as [|c s]; [intros [= <- <-]; simpl; split; [lia|auto]|].
    destruct (p c) eqn:Hc; [|intros [= <- <-]; simpl; split; [lia|auto]].
    destruct (span_upto p n s) as [a' b'] eqn:E.
    intros [= <- <-]. destruct (IH _ _ _ E) as [H1 H2].
    simpl. split; [lia|]. intros H. apply H2. lia.
Qed.

Lemma span_stop p s a b :
  span p s = (a, b) ->
  match b with c :: _ => p c = false | [] => True end.
Proof.
  unfold span. intros E.
  destruct (span_upto_stop _ _ _ _ _ E) as [Hlen Hstop].
  pose proof (span_upto_app _ _ _ _ _ E) as Hs.
  destruct b as [|c b]; [exact I|].
  apply Hstop. apply (f_equal (@List.length _)) in Hs.
  rewrite length_app in Hs. simpl in Hs. lia.
Qed.

Lemma mention_pattern_productive : productive mention_pattern.
Proof.
  intros prev s a mt rest. unfold mention_pattern.
  destruct s as [|c r]; [discriminate|].
  destruct (ascii_dec c "@"); [|discriminate].
  destruct (span is_word r) as [w rest'] eqn:E.
  destruct w as [|d w]; [discriminate|].
  intros [= <- <- <-]. split; [discriminate|].
  apply span_upto_app in E. now rewrite E.
Qed.

(** X3: [extract_mentions] returns every handle once; a handle is a
    non-empty run of word characters that stands in the text behind an
    "@" and is followed by no further word character; for a value that
    is no [str] the result is empty. *)
Theorem extract_mentions_handles (text : pyscalar) :
  NoDup (extract_mentions text)
  /\ (isna text = true \/ text = POther -> extract_mentions text = [])
  /\ forall s handle,
       text = PStr s -> In handle (extract_mentions text) ->
       handle <> [] /\ forallb is_word handle = true
       /\ exists before after,
            s = before ++ "@"%char :: handle ++ after
            /\ word_at (hd_error after) = false.
Proof.
  split; [|split].
  - destruct text; [apply distinct_nodup|constructor|constructor].
  - intros [H| ->]; [|reflexivity]. destruct text; try discriminate.
    reflexivity.
  - intros s handle -> H. cbn in H. apply -> distinct_in in H.
    destruct (re_findall_captures _ _ _ mention_pattern_productive H)
      as (p & mt & rest & bf & Hs & Hm).
    unfold mention_pattern in Hm.
    destruct (mt ++ rest) as [|c r] eqn:Hmr; [discriminate|].
    destruct (ascii_dec c "@") as [->|]; [|discriminate].
    destruct (span is_word r) as [w rest'] eqn:E.
    destruct w as [|d w]; [discriminate|].
    injection Hm as <- <- <-.
    split; [discriminate|].
    split; [exact (span_upto_all _ _ _ _ _ E)|].
    exists p, rest'. split.
    + rewrite Hs. simpl in Hmr. injection Hmr as <-. reflexivity.
    + pose proof (span_stop _ _ _ _ E) as Hstop.
      destruct rest' as [|x rest']; [reflexivity|exact Hstop].
Qed.

Lemma upper_is_alpha c : is_ascii_upper c = true -> is_ascii_alpha c = true.
Proof. unfold is_ascii_alpha, is_ascii_upper. now intros ->. Qed.

Lemma dollar_ticker_pattern_productive : productive dollar_ticker_pattern.
Proof.
  intros prev t a mt rest. unfold dollar_ticker_pattern.
  destruct t as [|c r]; [discriminate|].
  destruct (ascii_dec c "$"); [|discriminate].
  destruct (span_upto is_ascii_alpha 5 r) as [w rest'] eqn:E.
  destruct w as [|d w]; [discriminate|].
  intros [= <- <- <-]. split; [discriminate|].
  apply span_upto_app in E. now rewrite E.
Qed.

Lemma bare_ticker_pattern_productive : productive bare_ticker_pattern.
Proof.
  intros prev t a mt rest. unfold bare_ticker_pattern.
  destruct (boundary prev (hd_error t)); [|discriminate].
  destruct (span_upto is_ascii_upper 5 t) as [w rest'] eqn:E.
  destruct (Nat.leb 2 (List.length w)
            && boundary (Some (last w space)) (hd_error rest'))%bool
    eqn:Hc; [|discriminate].
  intros [= <- <- <-]. apply andb_prop in Hc as [Hc _].
  apply Nat.leb_le in Hc. split.
  - destruct w; [simpl in Hc; lia|discriminate].
  - now apply span_upto_app in E.
Qed.

(** X4: [extract_tickers] returns every ticker once, and a ticker has
    one to five letters A to Z or a to z. *)
Theorem extract_tickers_symbols (text : pyscalar) :
  NoDup (extract_tickers text)
  /\ forall ticker,
       In ticker (extract_tickers text) ->
       (1 <= List.length ticker <= 5)%nat
       /\ forallb is_ascii_alpha ticker = true.
Proof.
  split.
  - destruct text; [apply distinct_nodup|constructor|constructor].
  - intros ticker H. destruct text as [s| |]; [|destruct H|destruct H].
    cbn in H. apply -> distinct_in in H. apply in_app_or in H as [H|H].
    + pose proof dollar_ticker_pattern_productive as Hp.
      destruct (re_findall_captures _ _ _ Hp H)
        as (p & mt & rest & bf & Hs & Hm).
      unfold dollar_ticker_pattern in Hm.
      destruct (mt ++ rest) as [|c r]; [discriminate|].
      destruct (ascii_dec c "$"); [|discriminate].
      destruct (span_upto is_ascii_alpha 5 r) as [w rest'] eqn:E.
      destruct w as [|d w]; [discriminate|].
      injection Hm as <- <- <-.
      destruct (span_upto_stop _ _ _ _ _ E) as [Hlen _].
      split; [simpl in *; lia|exact (span_upto_all _ _ _ _ _ E)].
    + pose proof bare_ticker_pattern_productive as Hp.
      destruct (re_findall_captures _ _ _ Hp H)
        as (p & mt & rest & bf & Hs & Hm).
      unfold bare_ticker_pattern in Hm.
      destruct (boundary bf (hd_error (mt ++ rest))); [|discriminate].
      destruct (span_upto is_ascii_upper 5 (mt ++ rest)) as [w rest'] eqn:E.
      destruct (Nat.leb 2 (List.length w)
                && boundary (Some (last w space)) (hd_error rest'))%bool
        eqn:Hc; [|discriminate].
      injection Hm as <- <- <-. apply andb_prop in Hc as [Hc _].
      apply Nat.leb_le in Hc.
      destruct (span_upto_stop _ _ _ _ _ E) as [Hlen _].
      split; [lia|].
      pose proof (span_upto_all _ _ _ _ _ E) as Hall.
      rewrite forallb_forall in *. intros c Hin.
      apply upper_is_alpha. auto.
Qed.

Lemma extract_mentions_handles_witness :
  In (str_of "bob") (extract_mentions (PStr "hi @bob, meet @al"))
  /\ forallb is_word (str_of "bob") = true.
Proof.
  assert (Hin : In (str_of "bob")
                  (extract_mentions (PStr "hi @bob, meet @al")))
    by (vm_compute; auto).
  split; [exact Hin|].
  destruct (extract_mentions_handles (PStr "hi @bob, meet @al"))
    as (_ & _ & Hshape).
  destruct (Hshape _ _ eq_refl Hin) as (_ & Hword & _). exact Hword.
Defined.

Lemma extract_tickers_symbols_witness :
  In (str_of "AAPL") (extract_tickers (PStr "buy $AAPL now"))
  /\ (1 <= List.length (str_of "AAPL") <= 5)%nat.
Proof.
  assert (Hin : In (str_of "AAPL") (extract_tickers (PStr "buy $AAPL now")))
    by (vm_compute; auto).
  split; [exact Hin|].
  destruct (extract_tickers_symbols (PStr "buy $AAPL now")) as (_ & Hshape).
  destruct (Hshape _ Hin) as (Hlen & _). exact Hlen.
Defined.

(** ** The extractors behind the normalizer *)

Lemma mention_in_text s handle :
  In handle (re_findall mention_pattern s) -> In "@"%char s.
Proof.
  intros H.
  destruct (re_findall_captures _ _ _ mention_pattern_productive H)
    as (p & mt & rest & bf & -> & Hm).
  unfold mention_pattern in Hm.
  destruct (mt ++ rest) as [|c r]; [discriminate|].
  destruct (ascii_dec c "@") as [->|]; [|discriminate].
  apply in_or_app. right. now left.
Qed.

Lemma dollar_in_text s ticker :
  In ticker (re_findall dollar_ticker_pattern s) -> In "$"%char s.
Proof.
  intros H.
  destruct (re_findall_captures _ _ _ dollar_ticker_pattern_productive H)
    as (p & mt & rest & bf & -> & Hm).
  unfold dollar_ticker_pattern in Hm.
  destruct (mt ++ rest) as [|c r]; [discriminate|].
  destruct (ascii_dec c "$") as [->|]; [|discriminate].
  apply in_or_app. right. now left.
Qed.

Lemma capital_in_text s ticker :
  In ticker (re_findall bare_ticker_pattern s) ->
  exists c, In c s /\ is_ascii_upper c = true.
Proof.
  intros H.
  destruct (re_findall_captures _ _ _ bare_ticker_pattern_productive H)
    as (p & mt & rest & bf & -> & Hm).
  unfold bare_ticker_pattern in Hm.
  destruct (boundary bf (hd_error (mt ++ rest))); [|discriminate].
  destruct (span_upto is_ascii_upper 5 (mt ++ rest)) as [w rest'] eqn:E.
  destruct (Nat.leb 2 (List.length w)
            && boundary (Some (last w space)) (hd_error rest'))%bool
    eqn:Hc; [|discriminate].
  injection Hm as <- <- <-. apply andb_prop in Hc as [Hc _].
  apply Nat.leb_le in Hc.
  pose proof (span_upto_all _ _ _ _ _ E) as Hall.
  destruct w as [|c w]; [simpl in Hc; lia|].
  exists c. split.
  - apply in_or_app. right. apply in_or_app. left. now left.
  - simpl in Hall. now apply andb_prop in Hall as [Hall _].
Qed.

Lemma no_element {A} (l : list A) : (forall a, ~ In a l) -> l = [].
Proof. destruct l as [|a l]; [reflexivity|]. intros H. elim (H a). now left. Qed.

Lemma clean_text_chars (x : pyscalar) c :
  In c (clean_text x) -> (is_word c || Ascii.eqb c space)%bool = true.
Proof.
  intros Hc. pose proof (clean_text_normalized x) as Hn.
  unfold normalized in Hn.
  apply andb_prop in Hn as [Hn _]. apply andb_prop in Hn as [Hn _].
  apply andb_prop in Hn as [Hn _]. unfold only_word_or_space in Hn.
  rewrite forallb_forall in Hn. now apply Hn.
Qed.

Lemma extract_mentions_clean (x : pyscalar) :
  extract_mentions (PStr (clean_text x)) = [].
Proof.
  apply no_element. intros a H. cbn in H. apply -> distinct_in in H.
  apply mention_in_text, clean_text_chars in H. discriminate.
Qed.

Lemma extract_tickers_clean (x : pyscalar) :
  extract_tickers (PStr (clean_text x)) = [].
Proof.
  apply no_element. intros a H. cbn in H. apply -> distinct_in in H.
  apply in_app_or in H as [H|H].
  - apply dollar_in_text, clean_text_chars in H. discriminate.
  - apply capital_in_text in H as (c & Hc & Hu).
    elim (upper_not_lower c Hu). now apply (clean_text_in_lower x).
Qed.

(** X5: in text that [clean_text] has returned, [extract_mentions] and
    [extract_tickers] find nothing: the "@" and "$" signs are gone and
    every letter is in lower case. *)
Theorem extract_after_clean_text (x : pyscalar) :
  extract_mentions (PStr (clean_text x)) = []
  /\ extract_tickers (PStr (clean_text x)) = [].
Proof. split; [apply extract_mentions_clean|apply extract_tickers_clean]. Qed.

(** ** The aggregation, taken apart *)

Ltac read_column E Hkeep :=
  rewrite bind_eq, (getitem_frame _ _ _ _ E);
  rewrite Hkeep by (unfold time_columns; simpl; intuition discriminate);
  let s := fresh "col" in
  let H := fresh "Hcol" in
  match goal with
  | |- context [df_get ?f ?c] =>
      destruct (df_get f c) as [s|] eqn:H; [|intros Hx; discriminate Hx]
  end.

Ltac lifted :=
  rewrite bind_lift;
  let v := fresh "v" in
  let H := fresh "Hv" in
  match goal with
  | |- context [match ?r with Ok _ => _ | Raise _ => _ end] =>
      destruct r as [v|] eqn:H; [|intros Hx; discriminate Hx]
  end.

(** What the entries of a full insights dictionary have been computed
    from. *)
Lemma _calculate_insights_inv pd l (h : heap) f d h' :
  h !! l = Some f ->
  _calculate_insights pd (PyFrame l) h = (Ok (Insights d), h') ->
  exists f' clean_title clean_text sentiment tickers all_tickers
         score num_comments engagement rows title,
    h' = <[l := f']> h
    /\ (forall c, ~ In c time_columns -> df_get f' c = df_get f c)
    /\ df_get f "clean_title" = Some clean_title
    /\ df_get f "clean_text" = Some clean_text
    /\ df_get f "sentiment" = Some sentiment
    /\ df_get f "tickers" = Some tickers
    /\ df_get f "score" = Some score
    /\ df_get f "num_comments" = Some num_comments
    /\ df_get f "engagement_score" = Some engagement
    /\ df_get f "title" = Some title
    /\ trending_topics d
       = identify_trending_topics (tolist clean_title ++ tolist clean_text)
           default_min_count
    /\ sentiment_distribution d = value_counts (cells sentiment)
    /\ flatten_cells tickers = Ok all_tickers
    /\ top_tickers d = firstn 10 (value_counts all_tickers)
    /\ pd_mean pd score = Ok (avg_score (engagement_stats_of d))
    /\ pd_mean pd num_comments = Ok (avg_comments (engagement_stats_of d))
    /\ nlargest 5 engagement = Ok rows
    /\ top_posts (engagement_stats_of d)
       = map (fun i => (cell_at title i, cell_at engagement i)) rows.
Proof.
  intros E. unfold _calculate_insights, try_except, _calculate_insights_body.
  rewrite bind_eq.
  destruct (calculate_time_based_metrics_frame pd l "created_utc" h f E)
    as (r & f' & Hr & Hkeep & _).
  rewrite Hr. destruct r as [tm|e]; [|intros Hx; discriminate Hx].
  assert (E' : <[l := f']> h !! l = Some f') by apply lookup_insert_eq.
  read_column E' Hkeep. read_column E' Hkeep. read_column E' Hkeep.
  read_column E' Hkeep. lifted.
  read_column E' Hkeep. lifted.
  read_column E' Hkeep. lifted.
  read_column E' Hkeep. lifted.
  read_column E' Hkeep.
  rewrite bind_eq, (getitem_frame _ _ _ _ E').
  rewrite Hkeep by (unfold time_columns; simpl; intuition discriminate).
  rewrite Hcol5. unfold ret. intros [= <- <-].
  exists f', col, col0, col1, col2, v, col3, col4, col5, v2, col6.
  cbn. repeat split; auto.
Qed.

Lemma clean_text_cell_value c s :
  clean_text_cell c = Ok s -> exists x, s = clean_text x.
Proof.
  unfold clean_text_cell.
  destruct c as [?|?|?|?|[?| |l]]; try (intros [= <-]; eauto).
  destruct (Nat.eqb (List.length l) 1); [|discriminate].
  intros [= <-]. eauto.
Qed.

Lemma series_apply_clean_text_values s texts :
  series_apply_clean_text s = Ok (SObject (map OStr texts)) ->
  List.length texts = List.length (cells s)
  /\ Forall (fun t => exists x, t = clean_text x) texts.
Proof.
  unfold series_apply_clean_text.
  destruct (map_result clean_text_cell (cells s)) as [l|e] eqn:E;
    [|discriminate].
  intros [= H]. apply map_OStr_inj in H. subst l.
  apply map_result_values in E. split.
  - symmetry. eapply Forall2_length; eauto.
  - induction E; constructor; eauto using clean_text_cell_value.
Qed.

Lemma series_apply_extract_clean extract texts :
  (forall x, extract (PStr (clean_text x)) = []) ->
  Forall (fun t => exists x, t = clean_text x) texts ->
  series_apply_extract extract (SObject (map OStr texts))
  = SObject (repeat (OList []) (List.length texts)).
Proof.
  intros Hx H. unfold series_apply_extract. f_equal. cbn [cells].
  induction H as [|t texts [x ->] _ IH]; [reflexivity|].
  cbn. rewrite Hx. f_equal. exact IH.
Qed.

Lemma flatten_cells_empty n :
  flatten_cells (SObject (repeat (OList []) n)) = Ok [].
Proof.
  unfold flatten_cells. cbn [cells].
  assert (H : map_result iterate_cell (map CObj (repeat (OList []) n))
              = Ok (repeat [] n)).
  { induction n as [|n IH]; [reflexivity|]. simpl. now rewrite IH. }
  rewrite H. f_equal. clear H. induction n as [|n IH]; [reflexivity|exact IH].
Qed.

(** What the extractors leave in a successful run. *)
Lemma process_reddit_data_extracts_nothing
  (pd : Pandas) (sa : SentimentAnalyzer) (l : loc) (f : DataFrame)
  (r : pyobj * insights) (h h' : heap) :
  h !! l = Some f ->
  process_reddit_data pd sa (PyFrame l) h = (Ok r, h') ->
  exists f' text,
    h' !! l = Some f' /\ df_get f "text" = Some text
    /\ df_get f' "mentions"
       = Some (SObject (repeat (OList []) (List.length (cells text))))
    /\ df_get f' "tickers"
       = Some (SObject (repeat (OList []) (List.length (cells text))))
    /\ forall d, snd r = Insights d -> top_tickers d = [].
Proof.
  intros E Hrun.
  destruct (process_reddit_data_ok _ _ _ _ _ _ Hrun)
    as (l' & f0 & h1 & ins & [= <-] & E0 & _ & Henrich & Hins & ->).
  rewrite E in E0. injection E0 as <-.
  destruct (enrich_ok _ _ _ _ _ _ E Henrich)
    as (f1 & title & text & titles & texts & results & _ & -> & _ & _
        & Htext & Hclean & _ & _ & _ & Hm & Ht & _).
  destruct (series_apply_clean_text_values _ _ Hclean) as [Hlen Hall].
  rewrite (series_apply_extract_clean _ _ extract_mentions_clean Hall),
    Hlen in Hm.
  rewrite (series_apply_extract_clean _ _ extract_tickers_clean Hall),
    Hlen in Ht.
  assert (E1 : <[l := f1]> h !! l = Some f1) by apply lookup_insert_eq.
  destruct (_calculate_insights_frame pd l _ _ E1)
    as (ri & f2 & Hr & Hkeep & _).
  rewrite Hins in Hr. injection Hr as _ ->.
  exists f2, text. split; [apply lookup_insert_eq|]. split; [exact Htext|].
  split; [|split].
  - rewrite Hkeep; [exact Hm|]. unfold time_columns. simpl.
    intuition discriminate.
  - rewrite Hkeep; [exact Ht|]. unfold time_columns. simpl.
    intuition discriminate.
  - cbn [snd]. intros d ->.
    destruct (_calculate_insights_inv _ _ _ _ _ _ E1 Hins)
      as (f3 & ct & cx & sent & tickers & all & sc & nc & eng & rows & ttl
          & _ & _ & _ & _ & _ & Htk & _ & _ & _ & _ & _ & _ & Hflat & Htop
          & _).
    rewrite Ht in Htk. injection Htk as <-.
    rewrite flatten_cells_empty in Hflat. injection Hflat as <-.
    exact Htop.
Qed.

(** X6: the pipeline looks for mentions and tickers in the cleaned text,
    so it never finds one: after every successful run the columns
    [mentions] and [tickers] hold an empty list in each row, and the
    insights, when they are not empty, have no top tickers. *)
Theorem process_reddit_data_finds_no_tickers
  (pd : Pandas) (sa : SentimentAnalyzer) (l : loc) (f : DataFrame)
  (r : pyobj * insights) (h h' : heap) :
  h !! l = Some f ->
  process_reddit_data pd sa (PyFrame l) h = (Ok r, h') ->
  exists f' text,
    h' !! l = Some f' /\ df_get f "text" = Some text
    /\ df_get f' "mentions"
       = Some (SObject (repeat (OList []) (List.length (cells text))))
    /\ df_get f' "tickers"
       = Some (SObject (repeat (OList []) (List.length (cells text))))
    /\ forall d, snd r = Insights d -> top_tickers d = [].
Proof. apply process_reddit_data_extracts_nothing. Qed.

Lemma process_reddit_data_finds_no_tickers_witness :
  exists r h' f',
    process_reddit_data first_value always_positive (PyFrame 1)
      {[1%positive := frame_one_post]} = (Ok r, h')
    /\ h' !! 1%positive = Some f'
    /\ df_get f' "tickers" = Some (SObject [OList []]).
Proof.
  destruct (process_reddit_data first_value always_positive (PyFrame 1)
              {[1%positive := frame_one_post]}) as [[r|e] h'] eqn:Hrun;
    [|vm_compute in Hrun; discriminate Hrun].
  destruct (process_reddit_data_finds_no_tickers first_value always_positive
              1%positive frame_one_post r _ h'
              (lookup_singleton_eq 1%positive frame_one_post) Hrun)
    as (f' & text & Hf' & Htext & _ & Ht & _).
  exists r, h', f'. split; [reflexivity|]. split; [exact Hf'|].
  vm_compute in Htext. injection Htext as <-. exact Ht.
Defined.

(** ** The validator: what it accepts *)

Lemma not_valid_rejected f : valid_frame f = false -> rejected f.
Proof.
  unfold valid_frame. intros Hv.
  destruct (forallb (col_in (df_columns f)) required_columns) eqn:Hcols.
  - assert (Hin : forall c, In c required_columns ->
                    exists s, df_get f c = Some s).
    { intros c Hc. rewrite forallb_forall in Hcols.
      specialize (Hcols c Hc). rewrite col_in_columns in Hcols.
      destruct (df_get f c) as [s|]; [eauto|discriminate]. }
    unfold has_dtype in Hv.
    destruct (Hin "score") as [sc Hsc]; [simpl; tauto|].
    destruct (Hin "created_utc") as [cu Hcu]; [simpl; tauto|].
    destruct (Hin "num_comments") as [nc Hnc]; [simpl; tauto|].
    destruct (Hin "upvote_ratio") as [ur Hur]; [simpl; tauto|].
    destruct (Hin "title") as [ti Hti]; [simpl; tauto|].
    rewrite Hsc, Hcu, Hnc, Hur, Hti in Hv. cbn [andb] in Hv.
    destruct (is_numeric_dtype sc) eqn:H1;
      [|exact (score_not_numeric f sc Hsc H1)].
    destruct (is_datetime64_any_dtype cu) eqn:H2;
      [|exact (created_utc_not_datetime f cu Hcu H2)].
    destruct (is_numeric_dtype nc) eqn:H3;
      [|exact (num_comments_not_numeric f nc Hnc H3)].
    destruct (is_float_dtype ur) eqn:H4;
      [|exact (upvote_ratio_not_float f ur Hur H4)].
    cbn [andb] in Hv. apply negb_false_iff in Hv.
    exact (title_missing_value f ti Hti Hv).
  - assert (Hex : exists c, In c required_columns /\ df_get f c = None).
    { revert Hcols. generalize required_columns.
      induction l as [|c cs IH]; [discriminate|]. cbn [forallb].
      destruct (col_in (df_columns f) c) eqn:Hc.
      - cbn [andb]. intros H. destruct (IH H) as (c' & Hin & Hc').
        exists c'. split; [now right|exact Hc'].
      - intros _. exists c. split; [now left|].
        rewrite col_in_columns in Hc.
        destruct (df_get f c); [discriminate|reflexivity]. }
    destruct Hex as (c & Hin & Hc).
    exact (missing_column f c Hin Hc).
Qed.

(** X7: for a frame, the validator answers [True] unless one of its
    checks turns the frame down: a required column is missing, [score]
    or [num_comments] is not numeric, [created_utc] is no datetime
    column, [upvote_ratio] is no float column, or [title] has a missing
    value.  There is no other reason for the answer [False]. *)
Theorem validate_reddit_data_accepts (l : loc) (f : DataFrame) (h : heap) :
  h !! l = Some f ->
  (validate_reddit_data (PyFrame l) h = (Ok true, h) <-> ~ rejected f).
Proof.
  intros E. rewrite (validate_frame _ _ _ E). split.
  - intros Hv Hr. rewrite (rejected_invalid _ Hr) in Hv. discriminate.
  - intros Hr. destruct (valid_frame f) eqn:Hv; [reflexivity|].
    elim Hr. now apply not_valid_rejected.
Qed.

Lemma validate_reddit_data_accepts_witness :
  validate_reddit_data (PyFrame 1) {[1%positive := frame_one_post]}
  = (Ok true, {[1%positive := frame_one_post]})
  <-> ~ rejected frame_one_post.
Proof.
  apply (validate_reddit_data_accepts 1%positive frame_one_post).
  apply lookup_singleton_eq.
Defined.

Lemma df_set_columns f col s :
  col_in (df_columns f) col = true ->
  df_columns (df_set f col s) = df_columns f.
Proof.
  rewrite col_in_columns. unfold df_columns.
  induction f as [|[k s'] f IH]; [discriminate|]. simpl.
  destruct (String.eqb k col) eqn:Hk; [reflexivity|].
  intros H. simpl. f_equal. auto.
Qed.

(** X8: the validator looks at the contents of five columns only.
    Replacing any other column of the frame, [text] among them, by any
    column whatsoever (one with missing values, or of another type)
    leaves its answer as it was, and the order of the columns too. *)
Theorem validate_reddit_data_unchecked
  (l : loc) (f : DataFrame) (h : heap) (col : string) (s : Series) :
  h !! l = Some f ->
  col_in (df_columns f) col = true ->
  ~ In col ["title"; "score"; "created_utc"; "num_comments"; "upvote_ratio"] ->
  fst (validate_reddit_data (PyFrame l) (<[l := df_set f col s]> h))
  = fst (validate_reddit_data (PyFrame l) h)
  /\ df_columns (df_set f col s) = df_columns f.
Proof.
  intros E Hcol Hother. split; [|now apply df_set_columns].
  rewrite (validate_frame _ _ _ E).
  rewrite (validate_frame _ _ (df_set f col s)) by apply lookup_insert_eq.
  cbn [fst]. f_equal. unfold valid_frame, has_dtype.
  rewrite (df_set_columns _ _ s Hcol).
  rewrite !df_get_set_ne by (intros ->; apply Hother; simpl; tauto).
  reflexivity.
Qed.

Lemma validate_reddit_data_unchecked_witness :
  fst (validate_reddit_data (PyFrame 1)
         (<[1%positive := df_set frame_one_post "text" (SObject [ONone])]>
            {[1%positive := frame_one_post]}))
  = fst (validate_reddit_data (PyFrame 1) {[1%positive := frame_one_post]})
  /\ df_columns (df_set frame_one_post "text" (SObject [ONone]))
     = df_columns frame_one_post.
Proof.
  apply (validate_reddit_data_unchecked 1%positive frame_one_post).
  - apply lookup_singleton_eq.
  - reflexivity.
  - simpl. intuition discriminate.
Defined.

(** ** The engagement metrics, run again *)

Lemma df_set_same f col s : df_get f col = Some s -> df_set f col s = f.
Proof.
  induction f as [|[k s'] f IH]; [discriminate|]. simpl.
  destruct (String.eqb k col); [now intros [= ->]|].
  intros H. f_equal. auto.
Qed.

Lemma setitem_same (h : heap) l f col s :
  h !! l = Some f -> df_get f col = Some s ->
  setitem (PyFrame l) col s h = (Ok tt, h).
Proof.
  intros E Hs. rewrite (setitem_frame _ _ _ _ _ E), (df_set_same _ _ _ Hs).
  now rewrite insert_id.
Qed.

Lemma calculate_engagement_metrics_body_again (h : heap) l f r h1 :
  h !! l = Some f ->
  calculate_engagement_metrics_body (PyFrame l) h = (r, h1) ->
  calculate_engagement_metrics_body (PyFrame l) h1 = (r, h1).
Proof.
  intros E Hrun. pose proof Hrun as Hfirst. revert Hfirst.
  unfold calculate_engagement_metrics_body at 1.
  rewrite bind_eq, (getitem_frame _ _ _ _ E).
  destruct (df_get f "score") as [sc|] eqn:Hsc;
    [|intros [= <- <-]; exact Hrun].
  rewrite bind_lift.
  destruct (series_mul_scalar sc 1) as [a|e] eqn:Ha;
    [|intros [= <- <-]; exact Hrun].
  rewrite bind_eq, (getitem_frame _ _ _ _ E).
  destruct (df_get f "num_comments") as [nc|] eqn:Hnc;
    [|intros [= <- <-]; exact Hrun].
  rewrite bind_lift.
  destruct (series_mul_scalar nc 2) as [b|e] eqn:Hb;
    [|intros [= <- <-]; exact Hrun].
  rewrite bind_lift.
  destruct (series_add a b) as [ab|e] eqn:Hab;
    [|intros [= <- <-]; exact Hrun].
  rewrite bind_eq, (getitem_frame _ _ _ _ E).
  destruct (df_get f "upvote_ratio") as [ur|] eqn:Hur;
    [|intros [= <- <-]; exact Hrun].
  rewrite bind_lift.
  destruct (series_mul ab ur) as [es|e] eqn:Hes;
    [|intros [= <- <-]; exact Hrun].
  rewrite bind_eq, (setitem_frame _ _ _ _ _ E).
  set (f1 := df_set f "engagement_score" es).
  assert (E1 : <[l := f1]> h !! l = Some f1) by apply lookup_insert_eq.
  assert (Hes1 : df_get f1 "engagement_score" = Some es)
    by apply df_get_set_eq.
  assert (Hin1 : forall c, c <> "engagement_score"%string ->
                   df_get f1 c = df_get f c).
  { intros c Hc. unfold f1. apply df_get_set_ne. congruence. }
  (* the statements up to the first assignment, on a frame that has the
     same inputs and already holds the score *)
  assert (Hhead : forall (g : DataFrame) (k : unit -> M pyobj),
    (forall c, In c ["score"; "num_comments"; "upvote_ratio"] ->
               df_get g c = df_get f c) ->
    df_get g "engagement_score" = Some es ->
    (score <- getitem (PyFrame l) "score" ;;
     a <- lift (series_mul_scalar score 1) ;;
     num_comments <- getitem (PyFrame l) "num_comments" ;;
     b <- lift (series_mul_scalar num_comments 2) ;;
     ab <- lift (series_add a b) ;;
     upvote_ratio <- getitem (PyFrame l) "upvote_ratio" ;;
     engagement_score <- lift (series_mul ab upvote_ratio) ;;
     u <- setitem (PyFrame l) "engagement_score" engagement_score ;;
     k u) (<[l := g]> h)
    = k tt (<[l := g]> h)).
  { intros g k Hg Hge.
    assert (Eg : <[l := g]> h !! l = Some g) by apply lookup_insert_eq.
    rewrite bind_eq, (getitem_frame _ _ _ _ Eg), Hg, Hsc by (simpl; tauto).
    rewrite bind_lift, Ha.
    rewrite bind_eq, (getitem_frame _ _ _ _ Eg), Hg, Hnc by (simpl; tauto).
    rewrite bind_lift, Hb, bind_lift, Hab.
    rewrite bind_eq, (getitem_frame _ _ _ _ Eg), Hg, Hur by (simpl; tauto).
    rewrite bind_lift, Hes.
    now rewrite bind_eq, (setitem_same _ _ _ _ _ Eg Hge). }
  rewrite bind_eq, (getitem_frame _ _ _ _ E1), Hin1 by discriminate.
  destruct (df_get f "created_utc") as [cu|] eqn:Hcu.
  2:{ intros [= <- <-]. unfold calculate_engagement_metrics_body.
      rewrite (Hhead f1) by (auto; intros c Hc; apply Hin1;
                             simpl in Hc; intuition (subst; discriminate)).
      now rewrite bind_eq, (getitem_frame _ _ _ _ E1), Hin1, Hcu
        by discriminate. }
  rewrite bind_lift.
  destruct (dt_hour cu) as [hs|e] eqn:Hhs.
  2:{ intros [= <- <-]. unfold calculate_engagement_metrics_body.
      rewrite (Hhead f1) by (auto; intros c Hc; apply Hin1;
                             simpl in Hc; intuition (subst; discriminate)).
      rewrite bind_eq, (getitem_frame _ _ _ _ E1), Hin1, Hcu by discriminate.
      now rewrite bind_lift, Hhs. }
  rewrite bind_eq, (setitem_frame _ _ _ _ _ E1), insert_insert_eq.
  set (f2 := df_set f1 "hour_of_day" hs).
  assert (E2 : <[l := f2]> h !! l = Some f2) by apply lookup_insert_eq.
  rewrite bind_eq, (getitem_frame _ _ _ _ E2).
  unfold f2 at 1. rewrite df_get_set_ne, Hin1, Hcu by discriminate.
  rewrite bind_lift.
  destruct (dt_day_name cu) as [ds|e] eqn:Hds.
  2:{ destruct cu; discriminate. }
  rewrite bind_eq, (setitem_frame _ _ _ _ _ E2), insert_insert_eq.
  set (f3 := df_set f2 "day_of_week" ds).
  unfold ret. intros [= <- <-].
  assert (E3 : <[l := f3]> h !! l = Some f3) by apply lookup_insert_eq.
  assert (Hin3 : forall c, ~ In c engagement_columns ->
                   df_get f3 c = df_get f c).
  { intros c Hc. unfold f3, f2, f1, engagement_columns in *.
    rewrite !df_get_set_ne; [reflexivity| | |];
      intros <-; apply Hc; simpl; tauto. }
  unfold calculate_engagement_metrics_body.
  rewrite (Hhead f3).
  - rewrite bind_eq, (getitem_frame _ _ _ _ E3), Hin3, Hcu
      by (unfold engagement_columns; simpl; intuition discriminate).
    rewrite bind_lift, Hhs.
    rewrite bind_eq, (setitem_same _ _ f3 _ hs E3).
    2:{ unfold f3. rewrite df_get_set_ne by discriminate.
        apply df_get_set_eq. }
    rewrite bind_eq, (getitem_frame _ _ _ _ E3), Hin3, Hcu
      by (unfold engagement_columns; simpl; intuition discriminate).
    rewrite bind_lift, Hds.
    rewrite bind_eq, (setitem_same _ _ f3 _ ds E3) by apply df_get_set_eq.
    reflexivity.
  - intros c Hc. apply Hin3. unfold engagement_columns. simpl in *.
    intuition (subst; discriminate).
  - unfold f3, f2. now rewrite !df_get_set_ne by discriminate.
Qed.

(** X9: [calculate_engagement_metrics] always returns the object it was
    given, and running it a second time changes nothing: the heap after
    the second run is the heap after the first, whether the first run
    completed or stopped at an error. *)
Theorem calculate_engagement_metrics_idempotent (df : pyobj) (h : heap) :
  exists h1,
    calculate_engagement_metrics df h = (Ok df, h1)
    /\ calculate_engagement_metrics df h1 = (Ok df, h1).
Proof.
  assert (Hret : forall h0 r h1,
            calculate_engagement_metrics_body df h0 = (r, h1) ->
            (forall a, r = Ok a -> a = df)).
  { intros h0 r h1 Hb a ->. revert Hb.
    unfold calculate_engagement_metrics_body.
    repeat (rewrite bind_eq;
            match goal with
            | |- context [match ?m h0 with _ => _ end] =>
                destruct (m h0) as [[?|?] ?]; [|discriminate]
            | |- context [match ?m ?h' with _ => _ end] =>
                destruct (m h') as [[?|?] ?]; [|discriminate]
            end).
    unfold ret. now intros [= <- _]. }
  assert (Hagain : forall r h1,
            calculate_engagement_metrics_body df h = (r, h1) ->
            calculate_engagement_metrics_body df h1 = (r, h1)).
  { intros r h1 Hb. destruct df as [|l].
    - revert Hb. unfold calculate_engagement_metrics_body.
      rewrite !bind_eq. unfold getitem. rewrite !bind_eq, !deref_none.
      now intros [= <- <-].
    - destruct (h !! l) as [f|] eqn:E.
      + eapply calculate_engagement_metrics_body_again; eauto.
      + pose proof Hb as Hb'. revert Hb'.
        unfold calculate_engagement_metrics_body at 1.
        rewrite !bind_eq. unfold getitem.
        rewrite !bind_eq, (deref_dangling _ _ _ E).
        now intros [= <- <-]. }
  unfold calculate_engagement_metrics, try_except.
  destruct (calculate_engagement_metrics_body df h) as [r h1] eqn:Hb.
  exists h1. rewrite (Hagain _ _ eq_refl).
  destruct r as [a|e]; [|split; reflexivity].
  rewrite (Hret _ _ _ Hb a eq_refl). split; reflexivity.
Qed.

(** ** The sentiment analyzer *)

(** X10: on the TextBlob path [analyze_text] answers for every text and
    every missing value: the label is one of positive, negative and
    neutral; a positive score is capped at 1 and a negative one at 0,
    whatever polarity TextBlob reports; a neutral score is 0.5. *)
Theorem analyze_text_textblob (self : SentimentAnalyzer) (text : pyscalar) :
  use_transformers self = false ->
  text <> POther ->
  exists label score,
    analyze_text self text = Ok (label, score)
    /\ In label [str_of "positive"; str_of "negative"; str_of "neutral"]
    /\ (label = str_of "positive" -> PrimFloat.ltb 1 score = false)
    /\ (label = str_of "negative" -> PrimFloat.ltb score 0 = false)
    /\ (label = str_of "neutral" -> score = 0.5%float).
Proof.
  intros Hflag Htext.
  assert (Hneutral : exists label score,
            Ok neutral = Ok (label, score)
            /\ In label [str_of "positive"; str_of "negative";
                         str_of "neutral"]
            /\ (label = str_of "positive" -> PrimFloat.ltb 1 score = false)
            /\ (label = str_of "negative" -> PrimFloat.ltb score 0 = false)
            /\ (label = str_of "neutral" -> score = 0.5%float)).
  { exists (str_of "neutral"), 0.5%float. unfold neutral.
    repeat split; try discriminate; simpl; auto. }
  destruct text as [s| |]; [|exact Hneutral|congruence].
  unfold analyze_text. destruct (strip s) as [|c s']; [exact Hneutral|].
  unfold analyze_text_body. rewrite Hflag.
  destruct (textblob_polarity self s) as [polarity|e]; [|exact Hneutral].
  destruct (PrimFloat.ltb tenth polarity).
  - exists (str_of "positive"), (py_min (0.5 + polarity) 1).
    repeat split; try discriminate; [simpl; auto|].
    intros _. unfold py_min.
    destruct (PrimFloat.ltb 1 (0.5 + polarity)) eqn:E; [reflexivity|exact E].
  - destruct (PrimFloat.ltb polarity (- tenth)); [|exact Hneutral].
    exists (str_of "negative"), (py_max (0.5 - PrimFloat.abs polarity) 0).
    repeat split; try discriminate; [simpl; auto|].
    intros _. unfold py_max.
    destruct (PrimFloat.ltb (0.5 - PrimFloat.abs polarity) 0) eqn:E;
      [reflexivity|exact E].
Qed.

Lemma analyze_text_textblob_witness :
  exists label score,
    analyze_text eager_textblob (PStr "to the moon") = Ok (label, score)
    /\ In label [str_of "positive"; str_of "negative"; str_of "neutral"]
    /\ (label = str_of "positive" -> PrimFloat.ltb 1 score = false)
    /\ (label = str_of "negative" -> PrimFloat.ltb score 0 = false)
    /\ (label = str_of "neutral" -> score = 0.5%float).
Proof.
  apply (analyze_text_textblob eager_textblob (PStr "to the moon"));
    [reflexivity|discriminate].
Defined.



(** ** The orchestrator on a valid frame *)






(** X12: whatever the outcome of a run on a frame, a result or an
    exception, nothing but that frame has changed in the heap, and in it
    only derived columns have been assigned: every column with another
    name, the six input columns among them, is as it was. *)
Theorem process_reddit_data_frame
  (pd : Pandas) (sa : SentimentAnalyzer) (l : loc) (f : DataFrame)
  (h : heap) :
  h !! l = Some f ->
  exists r f',
    process_reddit_data pd sa (PyFrame l) h = (r, <[l := f']> h)
    /\ (forall c, ~ In c derived_columns -> df_get f' c = df_get f c)
    /\ (forall c, In c required_columns -> df_get f' c = df_get f c).
Proof.
  intros E.
  assert (Hreq : forall c, In c required_columns -> ~ In c derived_columns).
  { intros c Hc Hd. unfold required_columns, derived_columns,
      engagement_columns, time_columns in *. simpl in *.
    intuition (subst; discriminate). }
  assert (Hmain : exists r f',
    process_reddit_data pd sa (PyFrame l) h = (r, <[l := f']> h)
    /\ (forall c, ~ In c derived_columns -> df_get f' c = df_get f c)).
  { unfold process_reddit_data, try_except, process_reddit_data_body.
    rewrite bind_eq, (validate_frame _ _ _ E).
    destruct (valid_frame f); cbn [negb].
    - destruct (enrich_frame sa l h f E) as (re & f1 & He & Hkeep1 & Hre).
      rewrite bind_eq, He. destruct re as [v|e].
      + rewrite (Hre v eq_refl), bind_eq.
        assert (E1 : <[l := f1]> h !! l = Some f1) by apply lookup_insert_eq.
        destruct (_calculate_insights_frame pd l _ _ E1)
          as (ri & f2 & Hi & Hkeep2 & _).
        rewrite Hi, insert_insert_eq.
        assert (Hkeep : forall c, ~ In c derived_columns ->
                          df_get f2 c = df_get f c).
        { intros c Hc. rewrite Hkeep2, Hkeep1; [reflexivity| |];
            intros Hin; apply Hc; unfold derived_columns, enrich_columns in *;
            rewrite !in_app_iff in *; simpl in *; tauto. }
        destruct ri as [ins|e]; unfold ret, raise; eauto.
      + exists (Raise e), f1. split; [reflexivity|].
        intros c Hc. apply Hkeep1. intros Hin. apply Hc.
        unfold derived_columns, enrich_columns in *.
        rewrite !in_app_iff in *; simpl in *; tauto.
    - exists (Raise invalid_format), f. unfold raise.
      rewrite (insert_id _ _ _ E). auto. }
  destruct Hmain as (r & f' & Hrun & Hkeep).
  exists r, f'. split; [exact Hrun|]. split; [exact Hkeep|].
  intros c Hc. apply Hkeep, Hreq, Hc.
Qed.

Lemma process_reddit_data_frame_witness :
  exists e f',
    process_reddit_data first_value always_positive (PyFrame 1)
      {[1%positive := frame_list_text]}
    = (Raise e, <[1%positive := f']> {[1%positive := frame_list_text]})
    /\ df_get f' "clean_title" <> None
    /\ df_get f' "text" = df_get frame_list_text "text".
Proof.
  destruct (process_reddit_data_frame first_value always_positive 1%positive
              frame_list_text {[1%positive := frame_list_text]}
              (lookup_singleton_eq 1%positive frame_list_text))
    as (r & f' & Hrun & _ & Hreq).
  destruct r as [v|e]; [vm_compute in Hrun; discriminate Hrun|].
  exists e, f'. split; [exact Hrun|]. split.
  - assert (Hf : f' = df_set frame_list_text "clean_title"
                        (SObject [OStr "gme to the moon"])).
    { apply (f_equal snd) in Hrun. cbn [snd] in Hrun.
      apply (f_equal (fun m : heap => m !! 1%positive)) in Hrun.
      rewrite lookup_insert_eq in Hrun. vm_compute in Hrun.
      injection Hrun as <-. reflexivity. }
    rewrite Hf. discriminate.
  - apply Hreq. simpl. tauto.
Defined.

(** ** The time metrics without a timestamp *)

Lemma group_sizes_missing s :
  forallb cell_isna (cells s) = true -> group_sizes s = [].
Proof.
  unfold group_sizes. generalize (cells s) as l.
  induction l as [|c l IH]; [reflexivity|]. cbn [forallb fold_left].
  intros H. apply andb_prop in H as [-> Hl]. auto.
Qed.

Lemma dt_hour_missing ts :
  forallb (fun t => negb (is_some t)) ts = true ->
  exists hs, dt_hour (SDatetime ts) = Ok hs
             /\ forallb cell_isna (cells hs) = true.
Proof.
  intros H. unfold dt_hour.
  destruct (forallb is_some ts) eqn:Hall.
  - destruct ts as [|[t|] ts]; try discriminate.
    exists (SInt []). split; reflexivity.
  - eexists. split; [reflexivity|]. cbn [cells].
    clear Hall. induction ts as [|[t|] ts IH]; try discriminate;
      [reflexivity|].
    cbn [forallb] in H. cbn. auto.
Qed.

(** X13: when the timestamp column holds no timestamp at all (no rows,
    or [NaT] in every row), [calculate_time_based_metrics] returns the
    dictionary with three empty entries, and it has by then assigned
    the columns [hour], [day] and [week] of the caller's frame; the
    other columns are as they were. *)
Theorem calculate_time_based_metrics_no_timestamp
  (pd : Pandas) (l : loc) (f : DataFrame) (h : heap) (col : string)
  (ts : list (option Z)) :
  h !! l = Some f ->
  df_get f col = Some (SDatetime ts) ->
  forallb (fun t => negb (is_some t)) ts = true ->
  ~ In col time_columns ->
  exists f',
    calculate_time_based_metrics pd (PyFrame l) col h
    = (Ok no_time_metrics, <[l := f']> h)
    /\ (forall c, In c time_columns -> df_get f' c <> None)
    /\ (forall c, ~ In c time_columns -> df_get f' c = df_get f c).
Proof.
  intros E Hcol Hts Hother.
  assert (Hne : forall c, In c time_columns -> c <> col).
  { intros c Hc ->. auto. }
  destruct (dt_hour_missing ts Hts) as (hs & Hhs & Hnan).
  unfold calculate_time_based_metrics, try_except,
    calculate_time_based_metrics_body.
  rewrite bind_eq, (getitem_frame _ _ _ _ E), Hcol, bind_lift, Hhs.
  rewrite bind_eq, (setitem_frame _ _ _ _ _ E).
  set (f1 := df_set f "hour" hs).
  assert (E1 : <[l := f1]> h !! l = Some f1) by apply lookup_insert_eq.
  rewrite bind_eq, (getitem_frame _ _ _ _ E1).
  unfold f1 at 1.
  rewrite df_get_set_ne, Hcol by (apply Hne; simpl; tauto).
  rewrite bind_lift. cbn [dt_day_name].
  rewrite bind_eq, (setitem_frame _ _ _ _ _ E1), insert_insert_eq.
  set (f2 := df_set f1 "day" _).
  assert (E2 : <[l := f2]> h !! l = Some f2) by apply lookup_insert_eq.
  rewrite bind_eq, (getitem_frame _ _ _ _ E2).
  unfold f2 at 1, f1 at 1.
  rewrite !df_get_set_ne, Hcol by (apply Hne; simpl; tauto).
  rewrite bind_lift. cbn [dt_isocalendar_week].
  rewrite bind_eq, (setitem_frame _ _ _ _ _ E2), insert_insert_eq.
  set (f3 := df_set f2 "week" _).
  assert (E3 : <[l := f3]> h !! l = Some f3) by apply lookup_insert_eq.
  assert (Hhour : df_get f3 "hour" = Some hs).
  { unfold f3, f2, f1. rewrite !df_get_set_ne by discriminate.
    apply df_get_set_eq. }
  rewrite bind_eq. unfold bucket_metrics.
  rewrite bind_eq, (getitem_frame _ _ _ _ E3), Hhour.
  rewrite (group_sizes_missing _ Hnan). rewrite bind_lift. cbn [idxmax].
  unfold ret. exists f3. split; [reflexivity|]. split.
  - intros c Hc. unfold time_columns in Hc. simpl in Hc.
    destruct Hc as [<-|[<-|[<-|[]]]]; unfold f3, f2, f1;
      rewrite ?df_get_set_ne by discriminate; rewrite df_get_set_eq;
      discriminate.
  - intros c Hc. unfold f3, f2, f1, time_columns in *.
    rewrite !df_get_set_ne; [reflexivity| | |];
      intros <-; apply Hc; simpl; tauto.
Qed.

Lemma calculate_time_based_metrics_no_timestamp_witness :
  exists f',
    calculate_time_based_metrics first_value (PyFrame 1) "created_utc"
      {[1%positive := frame_without_time]}
    = (Ok no_time_metrics, <[1%positive := f']> {[1%positive := frame_without_time]})
    /\ (forall c, In c time_columns -> df_get f' c <> None)
    /\ (forall c, ~ In c time_columns ->
          df_get f' c = df_get frame_without_time c).
Proof.
  apply (calculate_time_based_metrics_no_timestamp first_value 1%positive
           frame_without_time _ "created_utc" [None]).
  - apply lookup_singleton_eq.
  - reflexivity.
  - reflexivity.
  - unfold time_columns. simpl. intuition discriminate.
Defined.

(** ** The counts of the insights *)

Lemma count_cell_sum k d :
  list_sum (map snd (count_cell k d)) = S (list_sum (map snd d)).
Proof.
  induction d as [|[k' n] d IH]; [reflexivity|]. cbn [count_cell].
  destruct (cell_eqb k k'); simpl; [lia|].
  simpl in IH. rewrite IH. lia.
Qed.

Lemma insert_count_sum {A} (x : A * nat) l :
  list_sum (map snd (insert_count x l)) = (snd x + list_sum (map snd l))%nat.
Proof.
  induction l as [|y l IH]; [reflexivity|]. cbn [insert_count].
  destruct (Nat.leb (snd y) (snd x)); simpl; [lia|].
  simpl in IH. rewrite IH. lia.
Qed.

Lemma value_counts_sum values :
  list_sum (map snd (value_counts values))
  = List.length (List.filter (fun c => negb (cell_isna c)) values).
Proof.
  unfold value_counts.
  assert (Hsort : forall d : list (cell * nat),
            list_sum (map snd (fold_right insert_count [] d))
            = list_sum (map snd d)).
  { induction d as [|x d IH]; [reflexivity|]. cbn [fold_right].
    rewrite insert_count_sum, IH. reflexivity. }
  rewrite Hsort.
  assert (Hacc : forall d,
            list_sum (map snd
              (fold_left (fun d c => if cell_isna c then d else count_cell c d)
                 values d))
            = (list_sum (map snd d)
               + List.length
                   (List.filter (fun c => negb (cell_isna c)) values))%nat).
  { induction values as [|c values IH]; intros d; [simpl; lia|].
    cbn [fold_left List.filter]. rewrite IH.
    destruct (cell_isna c); cbn [negb List.length]; [reflexivity|].
    rewrite count_cell_sum. lia. }
  now rewrite Hacc.
Qed.

Lemma insert_rank_length x l :
  List.length (insert_rank x l) = S (List.length l).
Proof.
  induction l as [|y l IH]; [reflexivity|]. cbn [insert_rank].
  destruct (PrimFloat.ltb (snd x) (snd y)); simpl; [|reflexivity].
  now rewrite IH.
Qed.

(** Rows of the same value keep the order of the frame. *)
Lemma nlargest_ties :
  nlargest 5
    (SFloat [3%float; 3%float; 3%float; 3%float; PrimFloat.nan; 0%float])
  = Ok [0; 1; 2; 3; 5]%nat.
Proof. vm_compute. reflexivity. Qed.

Lemma filter_split_length {A} (p : A -> bool) l :
  (List.length (List.filter (fun x => negb (p x)) l)
   + List.length (List.filter p l) = List.length l)%nat.
Proof.
  induction l as [|x l IH]; [reflexivity|]. simpl.
  destruct (p x); simpl; lia.
Qed.

Lemma to_floats_length s l :
  to_floats s = Ok l -> List.length l = List.length (cells s).
Proof.
  destruct s as [?|?|?|?|[|o ?]]; try discriminate; intros [= <-];
    cbn [cells]; now rewrite ?length_map.
Qed.

Lemma nlargest_length n s rows :
  nlargest n s = Ok rows ->
  List.length rows = Nat.min n (List.length (cells s)).
Proof.
  unfold nlargest.
  assert (Hgen : forall l,
    to_floats s = Ok l ->
    List.length
      (firstn n
         (map fst
            (fold_right insert_rank []
               (List.filter (fun r => negb (PrimFloat.is_nan (snd r)))
                  (combine (seq 0 (List.length l)) l))
             ++ List.filter (fun r => PrimFloat.is_nan (snd r))
                  (combine (seq 0 (List.length l)) l))))
    = Nat.min n (List.length (cells s))).
  { intros l Hl. rewrite length_firstn, length_map, length_app.
    assert (Hsort : forall v : list (nat * float),
              List.length (fold_right insert_rank [] v) = List.length v).
    { induction v as [|x v IH]; [reflexivity|]. cbn [fold_right].
      now rewrite insert_rank_length, IH. }
    rewrite Hsort.
    rewrite (filter_split_length (fun r : nat * float =>
                                    PrimFloat.is_nan (snd r))).
    rewrite length_combine, length_seq, Nat.min_id.
    now rewrite (to_floats_length _ _ Hl). }
  destruct s as [l|l|l|l|l]; try discriminate;
    (destruct (to_floats _) as [fl|e] eqn:Hl; [|discriminate]);
    intros [= <-]; now apply Hgen.
Qed.

(** X14: in the insights of a successful run, when they are not empty,
    every post is counted once in the sentiment distribution (the counts
    add up to the number of rows of the [sentiment] column), and the
    list of top posts has five entries, or as many as there are rows if
    these are fewer. *)
Theorem process_reddit_data_counts
  (pd : Pandas) (sa : SentimentAnalyzer) (l : loc) (f : DataFrame)
  (v : pyobj) (d : insights_dict) (h h' : heap) :
  h !! l = Some f ->
  process_reddit_data pd sa (PyFrame l) h = (Ok (v, Insights d), h') ->
  exists f' sentiment engagement,
    h' !! l = Some f'
    /\ df_get f' "sentiment" = Some sentiment
    /\ list_sum (map snd (sentiment_distribution d))
       = List.length (cells sentiment)
    /\ df_get f' "engagement_score" = Some engagement
    /\ List.length (top_posts (engagement_stats_of d))
       = Nat.min 5 (List.length (cells engagement)).
Proof.
  intros E Hrun.
  destruct (process_reddit_data_ok _ _ _ _ _ _ Hrun)
    as (l' & f0 & h1 & ins & [= <-] & E0 & _ & Henrich & Hins & [= -> <-]).
  rewrite E in E0. injection E0 as <-.
  destruct (enrich_ok _ _ _ _ _ _ E Henrich)
    as (f1 & title & text & titles & texts & results & _ & -> & _ & _
        & _ & _ & _ & _ & _ & _ & _ & Hsent & _).
  assert (E1 : <[l := f1]> h !! l = Some f1) by apply lookup_insert_eq.
  destruct (_calculate_insights_inv _ _ _ _ _ _ E1 Hins)
    as (f2 & ct & cx & sent & tickers & all & sc & nc & eng & rows & ttl
        & -> & Hkeep & _ & _ & Hs & _ & _ & _ & Heng & _ & _ & Hdist & _ & _
        & _ & _ & Hrows & Htop).
  exists f2, sent, eng. split; [apply lookup_insert_eq|].
  split; [rewrite Hkeep; [exact Hs|];
          unfold time_columns; simpl; intuition discriminate|].
  split; [|split].
  - rewrite Hdist, value_counts_sum. rewrite Hsent in Hs.
    injection Hs as <-. cbn [cells]. rewrite !map_map.
    assert (Hall : forall rs : list (str * float),
              List.filter (fun c => negb (cell_isna c))
                (map (fun r => CObj (OStr (fst r))) rs)
              = map (fun r => CObj (OStr (fst r))) rs).
    { induction rs as [|r rs IH]; [reflexivity|]. cbn. now rewrite IH. }
    now rewrite Hall.
  - rewrite Hkeep; [exact Heng|].
    unfold time_columns; simpl; intuition discriminate.
  - rewrite Htop, length_map. now apply nlargest_length.
Qed.

Lemma process_reddit_data_counts_witness :
  exists v d h' f' sentiment,
    process_reddit_data first_value always_positive (PyFrame 1)
      {[1%positive := frame_one_post]} = (Ok (v, Insights d), h')
    /\ h' !! 1%positive = Some f'
    /\ df_get f' "sentiment" = Some sentiment
    /\ list_sum (map snd (sentiment_distribution d))
       = List.length (cells sentiment).
Proof.
  destruct (process_reddit_data first_value always_positive (PyFrame 1)
              {[1%positive := frame_one_post]})
    as [[[v [|d]]|e] h'] eqn:Hrun;
    try (vm_compute in Hrun; discriminate Hrun).
  destruct (process_reddit_data_counts first_value always_positive
              1%positive frame_one_post v d _ h'
              (lookup_singleton_eq 1%positive frame_one_post) Hrun)
    as (f' & sentiment & engagement & Hf' & Hs & Hsum & _).
  exists v, d, h', f', sentiment. auto.
Defined.

(** ** The cache *)

Lemma timedelta_seconds_range d : 0 <= timedelta_seconds d < seconds_per_day.
Proof. unfold timedelta_seconds. apply Z.mod_pos_bound. reflexivity. Qed.

Lemma timedelta_seconds_days d n :
  timedelta_seconds (d + n * (seconds_per_day * us_per_second))
  = timedelta_seconds d.
Proof.
  unfold timedelta_seconds.
  replace (d + n * (seconds_per_day * us_per_second))
    with (d + (n * seconds_per_day) * us_per_second) by ring.
  rewrite Z.div_add by discriminate.
  apply Z.mod_add. discriminate.
Qed.

Lemma timedelta_seconds_small d :
  0 <= d -> timedelta_seconds d <= d / us_per_second.
Proof.
  intros Hd. unfold timedelta_seconds.
  apply Z.mod_le; [|reflexivity].
  apply Z.div_pos; [exact Hd|reflexivity].
Qed.

(** X15: a value that has been set is returned by [get] for the same key
    as long as less than [cache_duration] seconds have passed; setting a
    key does not change what [get] returns for another key; and with a
    duration of zero or less nothing is ever returned. *)
Theorem cache_get_set {V : Type} (self : CacheManager.t V)
  (key : string) (value : option V) (time now : Z) :
  (0 <= now - time < CacheManager.cache_duration self * us_per_second ->
   CacheManager.get (CacheManager.set self time key value) now key = value)
  /\ (forall other,
        other <> key ->
        CacheManager.get (CacheManager.set self time key value) now other
        = CacheManager.get self now other)
  /\ (CacheManager.cache_duration self <= 0 ->
      forall k, CacheManager.get self now k = None).
Proof.
  split; [|split].
  - intros [Hlo Hhi]. unfold CacheManager.get, CacheManager.set.
    cbn [CacheManager.cache CacheManager.cache_times
         CacheManager.cache_duration].
    rewrite !lookup_insert_eq.
    assert (H : timedelta_seconds (now - time)
                < CacheManager.cache_duration self).
    { pose proof (timedelta_seconds_small _ Hlo).
      assert ((now - time) / us_per_second
              < CacheManager.cache_duration self);
        [|lia].
      apply Z.div_lt_upper_bound; [reflexivity|]. lia. }
    apply Z.ltb_lt in H. now rewrite H.
  - intros other Hne. unfold CacheManager.get, CacheManager.set.
    cbn [CacheManager.cache CacheManager.cache_times
         CacheManager.cache_duration].
    now rewrite !lookup_insert_ne by congruence.
  - intros Hd k. unfold CacheManager.get.
    destruct (CacheManager.cache_times self !! k) as [t|]; [|reflexivity].
    pose proof (timedelta_seconds_range (now - t)).
    destruct (Z.ltb_spec (timedelta_seconds (now - t))
                (CacheManager.cache_duration self)); [lia|reflexivity].
Qed.

(** X16: the age of an entry is read from the [seconds] field of a
    [timedelta], which leaves out the days.  So an entry that has
    expired is returned again one day, or any number of whole days,
    after it was set; and with a duration of 86400 seconds or more no
    entry ever expires. *)
Theorem cache_get_after_days {V : Type} (self : CacheManager.t V)
  (key : string) (value : option V) (time now days : Z) :
  let later := now + days * (seconds_per_day * us_per_second) in
  CacheManager.get (CacheManager.set self time key value) later key
  = CacheManager.get (CacheManager.set self time key value) now key
  /\ (seconds_per_day <= CacheManager.cache_duration self ->
      CacheManager.get (CacheManager.set self time key value) now key
      = value).
Proof.
  cbn zeta. unfold CacheManager.get, CacheManager.set.
  cbn [CacheManager.cache CacheManager.cache_times
       CacheManager.cache_duration].
  rewrite !lookup_insert_eq. split.
  - replace (now + days * (seconds_per_day * us_per_second) - time)
      with (now - time + days * (seconds_per_day * us_per_second)) by ring.
    now rewrite timedelta_seconds_days.
  - intros Hd. pose proof (timedelta_seconds_range (now - time)).
    destruct (Z.ltb_spec (timedelta_seconds (now - time))
                (CacheManager.cache_duration self)); [reflexivity|lia].
Qed.

Lemma cache_get_set_witness :
  CacheManager.get
    (CacheManager.set (CacheManager.init Z 3600) 0 "posts" (Some 7))
    1000000 "posts"
  = Some 7.
Proof.
  apply (proj1 (cache_get_set (CacheManager.init Z 3600) "posts" (Some 7)
                  0 1000000)).
  vm_compute. split; [discriminate|reflexivity].
Defined.

Lemma cache_get_after_days_witness :
  CacheManager.get
    (CacheManager.set (CacheManager.init Z 3600) 0 "posts" (Some 7))
    (7200000000 + 1 * (seconds_per_day * us_per_second)) "posts"
  = CacheManager.get
      (CacheManager.set (CacheManager.init Z 3600) 0 "posts" (Some 7))
      7200000000 "posts".
Proof.
  apply (proj1 (cache_get_after_days (CacheManager.init Z 3600) "posts"
                  (Some 7) 0 7200000000 1)).
Defined.

(** ** The sentiment of the tickers *)

Lemma record_mention_counted label c c' :
  (positive c + negative c + neutral_count c <= total_mentions c)%nat ->
  record_mention label c = Some c' -> counted c'.
Proof.
  intros Hc. unfold record_mention, count_label, counted.
  destruct label as [[?|?|?|?|[s| |?]]|]; try discriminate.
  repeat (match goal with
          | |- context [str_eqb ?a ?b] => destruct (str_eqb a b)
          end);
    try discriminate; intros [= <-]; cbn; lia.
Qed.

Lemma record_mention_unknown label c :
  known_label label = false -> record_mention label c = None.
Proof.
  unfold known_label, record_mention, count_label, mem.
  destruct label as [[?|?|?|?|[s| |?]]|]; try reflexivity.
  cbn [existsb]. intros H.
  repeat (apply orb_false_iff in H as [-> H]). reflexivity.
Qed.

Lemma mention_keys label ticker d d' :
  mention label ticker d = Some d' ->
  forall k, In k (map fst d') <-> k = ticker \/ In k (map fst d).
Proof.
  revert d'. induction d as [|[k0 c] d IH]; intros d'; cbn [mention].
  - destruct (record_mention label no_mentions); [|discriminate].
    intros [= <-] k. simpl. intuition.
  - destruct (str_eqb k0 ticker) eqn:Hk.
    + apply str_eqb_eq in Hk. subst k0.
      destruct (record_mention label c); [|discriminate].
      intros [= <-] k. simpl. intuition.
    + destruct (mention label ticker d) as [d''|]; [|discriminate].
      intros [= <-] k. simpl. rewrite (IH d'' eq_refl). intuition.
Qed.

Lemma mention_invariant label ticker d d' :
  mention label ticker d = Some d' ->
  NoDup (map fst d) -> Forall counted (map snd d) ->
  NoDup (map fst d') /\ Forall counted (map snd d').
Proof.
  revert d'. induction d as [|[k0 c] d IH]; intros d'; cbn [mention].
  - destruct (record_mention label no_mentions) as [c'|] eqn:Hr;
      [|discriminate].
    intros [= <-] _ _. split.
    + simpl. constructor; [intros []|constructor].
    + simpl. constructor; [|constructor].
      eapply record_mention_counted; [|exact Hr]. simpl. lia.
  - destruct (str_eqb k0 ticker) eqn:Hk.
    + destruct (record_mention label c) as [c'|] eqn:Hr; [|discriminate].
      intros [= <-] Hnd Hall. simpl in *. split; [exact Hnd|].
      inversion Hall as [|? ? Hc Hrest]; subst. constructor; [|exact Hrest].
      eapply record_mention_counted; [|exact Hr]. apply Hc.
    + destruct (mention label ticker d) as [d''|] eqn:Hm; [|discriminate].
      intros [= <-] Hnd Hall. simpl in *.
      inversion Hnd as [|? ? Hnot Hnd']; subst.
      inversion Hall as [|? ? Hc Hrest]; subst.
      destruct (IH d'' eq_refl Hnd' Hrest) as [IH1 IH2].
      split; [|constructor; assumption].
      constructor; [|exact IH1].
      rewrite (mention_keys _ _ _ _ Hm). intros [->|Hin]; [|auto].
      now rewrite str_eqb_refl in Hk.
Qed.

Lemma tickers_fold_none label tickers :
  fold_left
    (fun acc ticker =>
       match acc with
       | Some d => mention label ticker d
       | None => None
       end) tickers None
  = None.
Proof. induction tickers as [|t ts IH]; [reflexivity|exact IH]. Qed.

Lemma tickers_fold_invariant label tickers d d' :
  fold_left
    (fun acc ticker =>
       match acc with
       | Some d => mention label ticker d
       | None => None
       end) tickers (Some d)
  = Some d' ->
  NoDup (map fst d) -> Forall counted (map snd d) ->
  NoDup (map fst d') /\ Forall counted (map snd d').
Proof.
  revert d. induction tickers as [|t ts IH]; intros d; cbn [fold_left].
  - intros [= <-]. auto.
  - destruct (mention label t d) as [d1|] eqn:Hm.
    + intros H Hnd Hall.
      destruct (mention_invariant _ _ _ _ Hm Hnd Hall). eauto.
    + now rewrite tickers_fold_none.
Qed.

Lemma rows_fold_none f rows : fold_left (row_mentions f) rows None = None.
Proof. induction rows as [|i rows IH]; [reflexivity|exact IH]. Qed.

Lemma rows_fold_invariant f rows d d' :
  fold_left (row_mentions f) rows (Some d) = Some d' ->
  NoDup (map fst d) -> Forall counted (map snd d) ->
  NoDup (map fst d') /\ Forall counted (map snd d').
Proof.
  revert d. induction rows as [|i rows IH]; intros d; cbn [fold_left].
  - intros [= <-]. auto.
  - destruct (row_mentions f (Some d) i) as [d1|] eqn:Hrow.
    + intros H Hnd Hall. apply (IH d1 H).
      * unfold row_mentions in Hrow.
        destruct (cell_of f "tickers" i) as [c|]; [|discriminate].
        destruct (iterate_tickers c) as [ts|]; [|discriminate].
        apply (tickers_fold_invariant _ _ _ _ Hrow Hnd Hall).
      * unfold row_mentions in Hrow.
        destruct (cell_of f "tickers" i) as [c|]; [|discriminate].
        destruct (iterate_tickers c) as [ts|]; [|discriminate].
        apply (tickers_fold_invariant _ _ _ _ Hrow Hnd Hall).
    + now rewrite rows_fold_none.
Qed.

Lemma with_ratios_counted c :
  counted c ->
  with_ratios c
  = Some {| counts := c;
            positive_ratio :=
              PrimFloat.div (float_of_Z (Z.of_nat (positive c)))
                (float_of_Z (Z.of_nat (total_mentions c)));
            negative_ratio :=
              PrimFloat.div (float_of_Z (Z.of_nat (negative c)))
                (float_of_Z (Z.of_nat (total_mentions c)));
            neutral_ratio :=
              PrimFloat.div (float_of_Z (Z.of_nat (neutral_count c)))
                (float_of_Z (Z.of_nat (total_mentions c))) |}.
Proof.
  intros [H1 _]. unfold with_ratios, true_div.
  destruct (Nat.eqb_spec (total_mentions c) 0) as [E|_]; [lia|reflexivity].
Qed.

Lemma all_with_ratios_counted d :
  Forall counted (map snd d) ->
  exists rs,
    all_with_ratios d = Some rs
    /\ map fst rs = map fst d
    /\ Forall (fun r => with_ratios (counts r) = Some r /\ counted (counts r))
         (map snd rs).
Proof.
  induction d as [|[k c] d IH]; [exists []; simpl; auto|].
  simpl. intros H. inversion H as [|? ? Hc Hrest]; subst.
  destruct (IH Hrest) as (rs & -> & Hk & Hall).
  rewrite (with_ratios_counted c Hc). eexists. split; [reflexivity|].
  split; [simpl; now rewrite Hk|].
  simpl. constructor; [|exact Hall]. cbn [counts].
  split; [now apply with_ratios_counted|exact Hc].
Qed.

(** X17: [_calculate_ticker_sentiment] never raises and leaves the heap
    alone.  In its result every ticker has one entry; the entry counts
    at least one mention, so no ratio divides by zero; the three
    sentiment counts together do not exceed the mentions; and the ratios
    are the counts divided by the mentions. *)
Theorem _calculate_ticker_sentiment_counts (df : pyobj) (h : heap) :
  exists d,
    _calculate_ticker_sentiment df h = (Ok d, h)
    /\ NoDup (map fst d)
    /\ forall ticker r,
         In (ticker, r) d ->
         counted (counts r) /\ with_ratios (counts r) = Some r.
Proof.
  unfold _calculate_ticker_sentiment.
  assert (Hempty : exists d : list (str * ticker_report),
            (Ok [] : result (list (str * ticker_report)), h) = (Ok d, h)
            /\ NoDup (map fst d)
            /\ forall ticker r,
                 In (ticker, r) d ->
                 counted (counts r) /\ with_ratios (counts r) = Some r).
  { exists []. split; [reflexivity|]. split; [constructor|intros ? ? []]. }
  destruct (deref df AttributeError h) as [[f|e] h0]; [|exact Hempty].
  unfold ticker_sentiment_body.
  destruct (fold_left (row_mentions f) (seq 0 (nrows f)) (Some []))
    as [d|] eqn:Hrows; [|exact Hempty].
  destruct (rows_fold_invariant _ _ _ _ Hrows) as [Hnd Hall];
    [constructor|constructor|].
  destruct (all_with_ratios_counted d Hall) as (rs & -> & Hk & Hrs).
  exists rs. split; [reflexivity|]. split; [now rewrite Hk|].
  intros ticker r Hin. rewrite Forall_forall in Hrs.
  destruct (Hrs r) as [H1 H2]; [|auto].
  apply in_map_iff. exists (ticker, r). auto.
Qed.

Lemma _calculate_ticker_sentiment_counts_witness :
  exists d r,
    _calculate_ticker_sentiment (PyFrame 1)
      {[1%positive := frame_labelled "negative"]}
    = (Ok d, {[1%positive := frame_labelled "negative"]})
    /\ In (str_of "GME", r) d /\ counted (counts r).
Proof.
  destruct (_calculate_ticker_sentiment_counts (PyFrame 1)
              {[1%positive := frame_labelled "negative"]})
    as (d & Hrun & _ & Hall).
  pose proof Hrun as Hd. vm_compute in Hd. injection Hd as Hd.
  subst d. eexists _, _. split; [exact Hrun|].
  split; [left; reflexivity|].
  apply (Hall (str_of "GME")). left. reflexivity.
Defined.

Lemma mention_unknown label ticker d :
  known_label label = false -> mention label ticker d = None.
Proof.
  intros H. induction d as [|[k c] d IH]; cbn [mention].
  - now rewrite record_mention_unknown.
  - destruct (str_eqb k ticker); [now rewrite record_mention_unknown|].
    now rewrite IH.
Qed.

Lemma rows_fold_fails f rows i :
  In i rows -> (forall d, row_mentions f (Some d) i = None) ->
  forall d, fold_left (row_mentions f) rows d = None.
Proof.
  intros Hin Hrow. induction rows as [|j rows IH]; [destruct Hin|].
  intros d. cbn [fold_left]. destruct Hin as [->|Hin].
  - destruct d as [d|]; [rewrite Hrow|]; apply rows_fold_none.
  - apply IH, Hin.
Qed.

(** X18: one row is enough to lose the whole result: when a row has a
    ticker and its sentiment is none of the keys of the counts (as the
    labels POS, NEG and NEU of the transformer model are), the function
    returns the empty dictionary, whatever the other rows hold. *)
Theorem _calculate_ticker_sentiment_unknown_label
  (l : loc) (f : DataFrame) (h : heap) (i : nat) (c : cell)
  (ticker : str) (tickers : list str) :
  h !! l = Some f ->
  (i < nrows f)%nat ->
  cell_of f "tickers" i = Some c ->
  iterate_tickers c = Some (ticker :: tickers) ->
  known_label (cell_of f "sentiment" i) = false ->
  _calculate_ticker_sentiment (PyFrame l) h = (Ok [], h).
Proof.
  intros E Hi Hc Hts Hlabel. unfold _calculate_ticker_sentiment.
  rewrite (deref_frame _ _ _ _ E). unfold ticker_sentiment_body.
  rewrite (rows_fold_fails f (seq 0 (nrows f)) i); [reflexivity| |].
  - apply in_seq. lia.
  - intros d. unfold row_mentions. rewrite Hc, Hts. cbn [fold_left].
    rewrite (mention_unknown _ _ _ Hlabel). apply tickers_fold_none.
Qed.

Lemma _calculate_ticker_sentiment_unknown_label_witness :
  _calculate_ticker_sentiment (PyFrame 1)
    {[1%positive := frame_labelled "NEG"]}
  = (Ok [], {[1%positive := frame_labelled "NEG"]}).
Proof.
  apply (_calculate_ticker_sentiment_unknown_label 1%positive
           (frame_labelled "NEG") _ 1%nat
           (CObj (OList [str_of "GME"])) (str_of "GME") []).
  - apply lookup_singleton_eq.
  - simpl. lia.
  - reflexivity.
  - reflexivity.
  - reflexivity.
Defined.

Lemma row_no_tickers f n i :
  df_get f "tickers" = Some (SObject (repeat (OList []) n)) ->
  row_mentions f (Some []) i = Some [] \/ row_mentions f (Some []) i = None.
Proof.
  intros Ht. unfold row_mentions, cell_of. rewrite Ht. unfold cell_at.
  cbn [cells].
  destruct (nth_error (map CObj (repeat (OList []) n)) i) as [c|] eqn:Hn;
    [|now right].
  apply nth_error_In, in_map_iff in Hn as (o & <- & Ho).
  apply repeat_spec in Ho. subst o. now left.
Qed.

Lemma rows_fold_no_tickers f n rows :
  df_get f "tickers" = Some (SObject (repeat (OList []) n)) ->
  fold_left (row_mentions f) rows (Some []) = Some []
  \/ fold_left (row_mentions f) rows (Some []) = None.
Proof.
  intros Ht. induction rows as [|i rows IH]; [now left|].
  cbn [fold_left]. destruct (row_no_tickers f n i Ht) as [-> | ->].
  - exact IH.
  - right. apply rows_fold_none.
Qed.

(** No ticker, no ticker sentiment. *)
Lemma process_reddit_data_ticker_sentiment_empty
  (pd : Pandas) (sa : SentimentAnalyzer) (l : loc) (f : DataFrame)
  (r : pyobj * insights) (h h' : heap) :
  h !! l = Some f ->
  process_reddit_data pd sa (PyFrame l) h = (Ok r, h') ->
  fst r = PyFrame l
  /\ _calculate_ticker_sentiment (fst r) h' = (Ok [], h').
Proof.
  intros E Hrun.
  destruct (process_reddit_data_extracts_nothing _ _ _ _ _ _ _ E Hrun)
    as (f' & text & Hf' & _ & _ & Ht & _).
  destruct (process_reddit_data_ok _ _ _ _ _ _ Hrun)
    as (l' & f0 & h1 & ins & [= <-] & _ & _ & _ & _ & ->).
  split; [reflexivity|]. cbn [fst].
  unfold _calculate_ticker_sentiment.
  rewrite (deref_frame _ _ _ _ Hf'). unfold ticker_sentiment_body.
  destruct (rows_fold_no_tickers f' _ (seq 0 (nrows f')) Ht) as [-> | ->];
    reflexivity.
Qed.

(** X19: after a successful run of [process_reddit_data] the ticker
    sentiment of the frame it returns is the empty dictionary: no row
    has a ticker. *)
Theorem process_reddit_data_no_ticker_sentiment
  (pd : Pandas) (sa : SentimentAnalyzer) (l : loc) (f : DataFrame)
  (r : pyobj * insights) (h h' : heap) :
  h !! l = Some f ->
  process_reddit_data pd sa (PyFrame l) h = (Ok r, h') ->
  fst r = PyFrame l
  /\ _calculate_ticker_sentiment (fst r) h' = (Ok [], h').
Proof. apply process_reddit_data_ticker_sentiment_empty. Qed.

Lemma process_reddit_data_no_ticker_sentiment_witness :
  exists r h',
    process_reddit_data first_value always_positive (PyFrame 1)
      {[1%positive := frame_one_post]} = (Ok r, h')
    /\ _calculate_ticker_sentiment (fst r) h' = (Ok [], h').
Proof.
  destruct (process_reddit_data first_value always_positive (PyFrame 1)
              {[1%positive := frame_one_post]}) as [[r|e] h'] eqn:Hrun;
    [|vm_compute in Hrun; discriminate Hrun].
  exists r, h'. split; [reflexivity|].
  apply (process_reddit_data_no_ticker_sentiment first_value always_positive
           1%positive frame_one_post r _ h'
           (lookup_singleton_eq 1%positive frame_one_post) Hrun).
Defined.

(** ** The trending topics *)

Lemma strs_of_other texts x :
  In x texts -> (forall s, x <> PStr s) -> strs_of texts = Raise TypeError.
Proof.
  intros Hin Hx. induction texts as [|y texts IH]; [destruct Hin|].
  destruct Hin as [->|Hin].
  - destruct x as [s| |]; [elim (Hx s); reflexivity|reflexivity|reflexivity].
  - destruct y as [s| |]; try reflexivity.
    simpl. now rewrite (IH Hin).
Qed.

(** X20: one item that is no [str], a missing value for one, costs all
    the topics: [identify_trending_topics] then returns the empty list,
    whatever the other texts and the threshold are. *)
Theorem identify_trending_topics_non_str
  (texts : list pyscalar) (min_count : Z) (x : pyscalar) :
  In x texts -> (forall s, x <> PStr s) ->
  identify_trending_topics texts min_count = [].
Proof.
  intros Hin Hx. unfold identify_trending_topics,
    identify_trending_topics_body.
  now rewrite (strs_of_other _ _ Hin Hx).
Qed.

Lemma identify_trending_topics_non_str_witness :
  identify_trending_topics
    [PStr "moon moon moon"; PMissing; PStr "moon moon"] 1 = [].
Proof.
  apply (identify_trending_topics_non_str _ 1 PMissing);
    [simpl; tauto|discriminate].
Defined.

Lemma topic_words_clean texts w :
  Forall (fun t => exists x, t = clean_text x) texts ->
  In w (topic_words texts) ->
  (3 <= List.length w)%nat /\ forallb is_word w = true /\ lower w = w
  /\ mem w stop_words = false.
Proof.
  intros Hall Hw. unfold topic_words in Hw.
  apply filter_In in Hw as [Hw Hkeep].
  apply andb_prop in Hkeep as [Hstop Hlen].
  apply negb_true_iff in Hstop. apply negb_true_iff, Nat.leb_gt in Hlen.
  assert (Hchars : forall c, In c (join " " texts) ->
            lower_char c = c /\ (is_word c || Ascii.eqb c space)%bool = true).
  { intros c Hc. apply join_in in Hc as [->|Hc]; [split; reflexivity|].
    apply in_concat in Hc as (t & Ht & Hc).
    rewrite Forall_forall in Hall. destruct (Hall t Ht) as [x ->].
    split; [now apply (clean_text_in_lower x)|now apply (clean_text_chars x)]. }
  assert (Hlow : lower (join " " texts) = join " " texts).
  { apply lower_fixed. rewrite Forall_forall. intros c Hc.
    now apply Hchars. }
  rewrite Hlow in Hw.
  assert (Hin : forall c, In c w -> In c (join " " texts)).
  { intros c Hc. apply split_ws_in. apply in_concat. eauto. }
  pose proof (split_ws_tokens (join " " texts)) as Htok.
  rewrite Forall_forall in Htok. destruct (Htok w Hw) as [_ Hns].
  rewrite forallb_forall in Hns.
  split; [lia|]. split; [|split; [|exact Hstop]].
  - apply forallb_forall. intros c Hc.
    destruct (Hchars c (Hin c Hc)) as [_ Hws].
    apply orb_prop in Hws as [Hword|Hsp]; [exact Hword|].
    apply Ascii.eqb_eq in Hsp. subst c.
    specialize (Hns _ Hc). discriminate.
  - apply lower_fixed. rewrite Forall_forall. intros c Hc.
    now apply Hchars, Hin.
Qed.

Lemma tolist_strs l : tolist (SObject (map OStr l)) = map PStr l.
Proof. unfold tolist. cbn [cells]. now rewrite !map_map. Qed.

(** X21: the trending topics of a successful run, when its insights are
    not empty: every topic occurs three times or more, has three
    characters or more, consists of word characters in lower case, and
    is no stop word. *)
Theorem process_reddit_data_topics
  (pd : Pandas) (sa : SentimentAnalyzer) (l : loc) (f : DataFrame)
  (v : pyobj) (d : insights_dict) (h h' : heap) :
  h !! l = Some f ->
  process_reddit_data pd sa (PyFrame l) h = (Ok (v, Insights d), h') ->
  forall topic count,
    In (topic, count) (trending_topics d) ->
    (3 <= count)%nat /\ (3 <= List.length topic)%nat
    /\ forallb is_word topic = true /\ lower topic = topic
    /\ mem topic stop_words = false.
Proof.
  intros E Hrun topic count Hin.
  destruct (process_reddit_data_ok _ _ _ _ _ _ Hrun)
    as (l' & f0 & h1 & ins & [= <-] & E0 & _ & Henrich & Hins & [= -> <-]).
  rewrite E in E0. injection E0 as <-.
  destruct (enrich_ok _ _ _ _ _ _ E Henrich)
    as (f1 & title & text & titles & texts & results & _ & -> & _ & Hct
        & _ & Hcx & _ & Htitle & Htext & _).
  assert (E1 : <[l := f1]> h !! l = Some f1) by apply lookup_insert_eq.
  destruct (_calculate_insights_inv _ _ _ _ _ _ E1 Hins)
    as (f2 & ct & cx & sent & tickers & all & sc & nc & eng & rows & ttl
        & _ & _ & Hct' & Hcx' & _ & _ & _ & _ & _ & _ & Htop & _).
  rewrite Htitle in Hct'. injection Hct' as <-.
  rewrite Htext in Hcx'. injection Hcx' as <-.
  rewrite !tolist_strs, <- map_app, identify_trending_topics_strs in Htop.
  rewrite Htop in Hin.
  apply -> sorted_desc_in in Hin. apply filter_In in Hin as [Hin Hmin].
  cbn [snd] in Hmin. apply Z.leb_le in Hmin. unfold default_min_count in Hmin.
  apply in_map_iff in Hin as (k & [= <- <-] & Hk).
  apply -> uniq_in in Hk.
  destruct (series_apply_clean_text_values _ _ Hct) as [_ Hall1].
  destruct (series_apply_clean_text_values _ _ Hcx) as [_ Hall2].
  destruct (topic_words_clean (titles ++ texts) k) as (H1 & H2 & H3 & H4);
    [apply Forall_app; split; assumption|exact Hk|].
  split; [lia|]. auto.
Qed.

Lemma process_reddit_data_topics_witness :
  exists v d h',
    process_reddit_data first_value always_positive (PyFrame 1)
      {[1%positive := frame_moon]} = (Ok (v, Insights d), h')
    /\ In (str_of "moon", 4%nat) (trending_topics d)
    /\ (3 <= 4)%nat /\ (3 <= List.length (str_of "moon"))%nat
    /\ forallb is_word (str_of "moon") = true
    /\ lower (str_of "moon") = str_of "moon"
    /\ mem (str_of "moon") stop_words = false.
Proof.
  destruct (process_reddit_data first_value always_positive (PyFrame 1)
              {[1%positive := frame_moon]})
    as [[[v [|d]]|e] h'] eqn:Hrun;
    try (vm_compute in Hrun; discriminate Hrun).
  assert (Hin : In (str_of "moon", 4%nat) (trending_topics d)).
  { pose proof Hrun as Hc. vm_compute in Hc.
    injection Hc as _ Hd _. rewrite <- Hd. left. reflexivity. }
  exists v, d, h'. split; [reflexivity|]. split; [exact Hin|].
  apply (process_reddit_data_topics first_value always_positive
           1%positive frame_moon v d _ h'
           (lookup_singleton_eq 1%positive frame_moon) Hrun
           (str_of "moon") 4%nat Hin).
Defined.

(** ** The busiest hour *)

Lemma bucket_add_int k b :
  bucket_add (CInt k) (map int_cell b) = map int_cell (int_bucket_add k b).
Proof.
  induction b as [|[k' n] b IH]; [reflexivity|].
  cbn [map int_cell bucket_add int_bucket_add fst snd cell_eqb cell_ltb].
  destruct (Z.eqb k k'); [reflexivity|].
  destruct (Z.ltb k k'); [reflexivity|].
  cbn [map]. now rewrite IH.
Qed.

Lemma group_sizes_int l :
  group_sizes (SInt l)
  = map int_cell (fold_left (fun b k => int_bucket_add k b) l []).
Proof.
  unfold group_sizes. cbn [cells].
  change (@nil (cell * nat)) with (map int_cell []).
  generalize (@nil (Z * nat)) as b.
  induction l as [|k l IH]; intros b; [reflexivity|].
  cbn [map fold_left cell_isna]. rewrite bucket_add_int. apply IH.
Qed.

Lemma group_size_below k b :
  Forall (fun y => k < fst y) b -> group_size k b = 0%nat.
Proof.
  induction 1 as [|[k' n] b Hk _ IH]; [reflexivity|].
  cbn [group_size]. cbn [fst] in Hk.
  destruct (Z.eqb_spec k k'); [lia|exact IH].
Qed.

Lemma int_bucket_add_above k0 k b :
  k0 < k -> Forall (fun y => k0 < fst y) b ->
  Forall (fun y => k0 < fst y) (int_bucket_add k b).
Proof.
  intros Hk. induction 1 as [|[k' n] b Hk' Hb IH]; cbn [int_bucket_add].
  - constructor; [exact Hk|constructor].
  - destruct (Z.eqb k k'); [constructor; assumption|].
    destruct (Z.ltb k k'); constructor; auto.
Qed.

Lemma int_bucket_add_ascending k b :
  ascending b -> ascending (int_bucket_add k b).
Proof.
  unfold ascending. induction 1 as [|[k' n] b Hb IH Hall];
    cbn [int_bucket_add].
  - constructor; constructor.
  - destruct (Z.eqb_spec k k') as [->|Hne].
    + constructor; assumption.
    + destruct (Z.ltb_spec k k') as [Hlt|Hge].
      * constructor; [constructor; assumption|].
        constructor; [exact Hlt|].
        eapply Forall_impl; [|exact Hall]. cbn. intros y Hy. lia.
      * constructor; [exact IH|].
        apply int_bucket_add_above; [cbn; lia|exact Hall].
Qed.

Lemma group_size_add k' k b :
  ascending b ->
  group_size k' (int_bucket_add k b)
  = (group_size k' b + if Z.eqb k' k then 1 else 0)%nat.
Proof.
  unfold ascending. induction 1 as [|[k1 n] b Hb IH Hall];
    cbn [int_bucket_add group_size].
  - destruct (Z.eqb k' k); reflexivity.
  - destruct (Z.eqb_spec k k1) as [->|Hne].
    + cbn [group_size]. destruct (Z.eqb k' k1); lia.
    + destruct (Z.ltb_spec k k1) as [Hlt|Hge].
      * cbn [group_size]. destruct (Z.eqb_spec k' k) as [->|Hk'].
        -- destruct (Z.eqb_spec k k1); [lia|].
           rewrite group_size_below; [reflexivity|].
           eapply Forall_impl; [|exact Hall]. cbn. intros y Hy. lia.
        -- lia.
      * cbn [group_size]. destruct (Z.eqb_spec k' k1) as [->|Hk'].
        -- destruct (Z.eqb_spec k1 k); [lia|lia].
        -- exact IH.
Qed.

Lemma int_buckets l b :
  ascending b ->
  ascending (fold_left (fun b k => int_bucket_add k b) l b)
  /\ forall k,
       group_size k (fold_left (fun b k => int_bucket_add k b) l b)
       = (group_size k b + count_occ Z.eq_dec l k)%nat.
Proof.
  revert b. induction l as [|x l IH]; intros b Hb; cbn [fold_left].
  - split; [exact Hb|]. intros k. simpl. lia.
  - destruct (IH (int_bucket_add x b) (int_bucket_add_ascending x b Hb))
      as [H1 H2].
    split; [exact H1|]. intros k. rewrite H2, group_size_add by exact Hb.
    cbn [count_occ]. destruct (Z.eq_dec x k) as [->|Hne].
    + rewrite Z.eqb_refl. lia.
    + destruct (Z.eqb_spec k x); [congruence|lia].
Qed.

Lemma group_size_in k n b :
  ascending b -> In (k, n) b -> group_size k b = n.
Proof.
  unfold ascending. induction 1 as [|[k1 m] b Hb IH Hall]; [intros []|].
  cbn [group_size]. intros [[= -> ->]|Hin].
  - now rewrite Z.eqb_refl.
  - destruct (Z.eqb_spec k k1) as [->|_]; [|auto].
    rewrite Forall_forall in Hall. specialize (Hall _ Hin). cbn in Hall. lia.
Qed.

Lemma group_size_none k b :
  (forall n, ~ In (k, n) b) -> group_size k b = 0%nat.
Proof.
  induction b as [|[k1 m] b IH]; [reflexivity|]. intros Hno.
  cbn [group_size]. destruct (Z.eqb_spec k k1) as [->|_].
  - elim (Hno m). now left.
  - apply IH. intros n Hn. apply (Hno n). now right.
Qed.

(** The first of the largest groups and the first of the smallest. *)
Lemma first_best_max (best : cell * nat) b :
  exists pre n post,
    best :: b
    = pre ++ (first_best (fun n m => Nat.ltb m n) best b, n) :: post
    /\ Forall (fun x => (snd x < n)%nat) pre
    /\ Forall (fun x => (snd x <= n)%nat) post.
Proof.
  revert best. induction b as [|x b IH]; intros best; cbn [first_best].
  - exists [], (snd best), []. destruct best. simpl. auto.
  - destruct (Nat.ltb_spec (snd best) (snd x)) as [Hlt|Hge].
    + destruct (IH x) as (pre & n & post & Heq & Hpre & Hpost).
      exists (best :: pre), n, post. rewrite Heq. split; [reflexivity|].
      split; [|exact Hpost]. constructor; [|exact Hpre].
      destruct pre as [|y pre]; cbn in Heq.
      * injection Heq as Hx _. rewrite Hx in Hlt. exact Hlt.
      * injection Heq as -> _. inversion Hpre; subst. lia.
    + destruct (IH best) as (pre & n & post & Heq & Hpre & Hpost).
      destruct pre as [|y pre]; cbn in Heq.
      * injection Heq as Hb Hpb. subst post. exists [], n, (x :: b).
        split; [cbn; now rewrite <- Hb|]. split; [constructor|].
        constructor; [|exact Hpost]. rewrite Hb in Hge. cbn in Hge. exact Hge.
      * injection Heq as Hy Hpb. subst y.
        exists (best :: x :: pre), n, post.
        split; [cbn; f_equal; f_equal; exact Hpb|]. split; [|exact Hpost].
        inversion Hpre; subst. constructor; [assumption|].
        constructor; [lia|assumption].
Qed.

Lemma first_best_min (best : cell * nat) b :
  exists pre n post,
    best :: b
    = pre ++ (first_best (fun n m => Nat.ltb n m) best b, n) :: post
    /\ Forall (fun x => (n < snd x)%nat) pre
    /\ Forall (fun x => (n <= snd x)%nat) post.
Proof.
  revert best. induction b as [|x b IH]; intros best; cbn [first_best].
  - exists [], (snd best), []. destruct best. simpl. auto.
  - destruct (Nat.ltb_spec (snd x) (snd best)) as [Hlt|Hge].
    + destruct (IH x) as (pre & n & post & Heq & Hpre & Hpost).
      exists (best :: pre), n, post. rewrite Heq. split; [reflexivity|].
      split; [|exact Hpost]. constructor; [|exact Hpre].
      destruct pre as [|y pre]; cbn in Heq.
      * injection Heq as Hx _. rewrite Hx in Hlt. exact Hlt.
      * injection Heq as -> _. inversion Hpre; subst. lia.
    + destruct (IH best) as (pre & n & post & Heq & Hpre & Hpost).
      destruct pre as [|y pre]; cbn in Heq.
      * injection Heq as Hb Hpb. subst post. exists [], n, (x :: b).
        split; [cbn; now rewrite <- Hb|]. split; [constructor|].
        constructor; [|exact Hpost]. rewrite Hb in Hge. cbn in Hge. exact Hge.
      * injection Heq as Hy Hpb. subst y.
        exists (best :: x :: pre), n, post.
        split; [cbn; f_equal; f_equal; exact Hpb|]. split; [|exact Hpost].
        inversion Hpre; subst. constructor; [assumption|].
        constructor; [lia|assumption].
Qed.

Lemma group_size_found k b :
  group_size k b <> 0%nat -> In (k, group_size k b) b.
Proof.
  induction b as [|[k1 m] b IH]; [intros H; now elim H|].
  cbn [group_size]. destruct (Z.eqb_spec k k1) as [->|_]; [now left|].
  intros H. right. auto.
Qed.

Lemma int_bucket_add_positive k b :
  Forall (fun x => (1 <= snd x)%nat) b ->
  Forall (fun x => (1 <= snd x)%nat) (int_bucket_add k b).
Proof.
  induction 1 as [|[k1 m] b Hm Hb IH]; cbn [int_bucket_add].
  - constructor; [cbn; lia|constructor].
  - destruct (Z.eqb k k1); [constructor; [cbn; lia|exact Hb]|].
    destruct (Z.ltb k k1).
    + constructor; [cbn; lia|]. constructor; assumption.
    + constructor; assumption.
Qed.

Lemma int_buckets_positive l b :
  Forall (fun x => (1 <= snd x)%nat) b ->
  Forall (fun x => (1 <= snd x)%nat)
    (fold_left (fun b k => int_bucket_add k b) l b).
Proof.
  revert b. induction l as [|x l IH]; intros b Hb; [exact Hb|].
  cbn [fold_left]. apply IH, int_bucket_add_positive, Hb.
Qed.

Lemma ascending_after pre (z : Z * nat) post :
  ascending (pre ++ z :: post) -> Forall (fun y => fst z < fst y) post.
Proof.
  unfold ascending. induction pre as [|x pre IH]; cbn.
  - intros H. now inversion H.
  - intros H. inversion H; subst. auto.
Qed.

Lemma bucket_add_nonempty c b : bucket_add c b <> [].
Proof.
  destruct b as [|[k n] b]; [discriminate|]. cbn [bucket_add].
  destruct (cell_eqb c k); [discriminate|].
  destruct (cell_ltb c k); discriminate.
Qed.

Lemma group_fold_nonempty l :
  forall (b : list (cell * nat)) c,
    (b <> [] \/ (In c l /\ cell_isna c = false)) ->
    fold_left (fun b c => if cell_isna c then b else bucket_add c b) l b
    <> [].
Proof.
  induction l as [|x l IH]; intros b c H; cbn [fold_left].
  - destruct H as [H|[[] _]]. exact H.
  - apply (IH _ c). destruct H as [H|[[->|Hin] Hc]].
    + left. destruct (cell_isna x); [exact H|apply bucket_add_nonempty].
    + left. rewrite Hc. apply bucket_add_nonempty.
    + right. auto.
Qed.

Lemma group_sizes_nonempty s c :
  In c (cells s) -> cell_isna c = false -> group_sizes s <> [].
Proof.
  intros Hin Hc. unfold group_sizes. apply (group_fold_nonempty _ _ c). auto.
Qed.

(** The groups of the hours of a column of timestamps. *)
Lemma hour_groups ts :
  ts <> [] ->
  exists b,
    group_sizes (SInt (map hour_of ts)) = map int_cell b
    /\ b <> [] /\ ascending b
    /\ Forall (fun x => (1 <= snd x)%nat) b
    /\ forall k, group_size k b = posts_in_hour ts k.
Proof.
  intros Hts. rewrite group_sizes_int.
  set (b := fold_left (fun b k => int_bucket_add k b) (map hour_of ts) []).
  destruct (int_buckets (map hour_of ts) []) as [Hasc Hsize];
    [constructor|].
  fold b in Hasc, Hsize. exists b. split; [reflexivity|].
  split; [|split; [exact Hasc|split]].
  - destruct ts as [|t ts]; [congruence|].
    intros Hb. specialize (Hsize (hour_of t)). rewrite Hb in Hsize.
    cbn in Hsize. destruct (Z.eq_dec (hour_of t) (hour_of t)); [lia|congruence].
  - apply int_buckets_positive. constructor.
  - intros k. rewrite Hsize. reflexivity.
Qed.

Lemma idxmax_hour b :
  b <> [] -> ascending b -> Forall (fun x => (1 <= snd x)%nat) b ->
  exists k,
    idxmax (map int_cell b) = Ok (CInt k)
    /\ (forall k', (group_size k' b <= group_size k b)%nat)
    /\ (forall k', group_size k' b = group_size k b -> k <= k').
Proof.
  intros Hne Hasc Hall. destruct b as [|x b]; [congruence|].
  cbn [map idxmax].
  destruct (first_best_max (int_cell x) (map int_cell b))
    as (pre & n & post & Heq & Hpre & Hpost).
  change (int_cell x :: map int_cell b) with (map int_cell (x :: b)) in Heq.
  apply map_eq_app in Heq as (zpre & zrest & Hb & <- & Hrest).
  apply map_eq_cons in Hrest as (z & zpost & -> & Hz & <-).
  unfold int_cell at 1 in Hz. injection Hz as Hkey <-.
  exists (fst z). rewrite <- Hkey. split; [reflexivity|].
  assert (Hin : In (fst z, snd z) (x :: b)).
  { rewrite Hb. apply in_or_app. right. left. now destruct z. }
  rewrite (group_size_in _ _ _ Hasc Hin).
  rewrite Hb in Hasc. pose proof (ascending_after _ _ _ Hasc) as Hafter.
  rewrite Forall_forall in Hpre, Hpost, Hafter.
  assert (Hcase : forall k', group_size k' (x :: b) <> 0%nat ->
            (group_size k' (x :: b) < snd z)%nat
            \/ (fst z <= k' /\ (group_size k' (x :: b) <= snd z)%nat)).
  { intros k' Hk'. apply group_size_found in Hk'.
    set (m := group_size k' (x :: b)) in *. rewrite Hb in Hk'.
    apply in_app_or in Hk' as [Hk'|[Hk'|Hk']].
    - left. apply (Hpre (int_cell (k', m))). now apply in_map.
    - right. subst z. cbn. lia.
    - right. split.
      + specialize (Hafter _ Hk'). cbn in Hafter. lia.
      + apply (Hpost (int_cell (k', m))). now apply in_map. }
  split.
  - intros k'. destruct (Nat.eq_dec (group_size k' (x :: b)) 0) as [->|Hk'];
      [lia|]. destruct (Hcase k' Hk'); lia.
  - intros k' Heq.
    assert (Hpos : (1 <= snd z)%nat).
    { rewrite Forall_forall in Hall. apply (Hall (fst z, snd z)).
      rewrite Hb. apply in_or_app. right. left. now destruct z. }
    destruct (Hcase k'); lia.
Qed.

Lemma idxmin_hour b :
  b <> [] -> ascending b -> Forall (fun x => (1 <= snd x)%nat) b ->
  exists k,
    idxmin (map int_cell b) = Ok (CInt k)
    /\ (1 <= group_size k b)%nat
    /\ (forall k', group_size k' b <> 0%nat ->
          (group_size k b <= group_size k' b)%nat)
    /\ (forall k', group_size k' b = group_size k b -> k <= k').
Proof.
  intros Hne Hasc Hall. destruct b as [|x b]; [congruence|].
  cbn [map idxmin].
  destruct (first_best_min (int_cell x) (map int_cell b))
    as (pre & n & post & Heq & Hpre & Hpost).
  change (int_cell x :: map int_cell b) with (map int_cell (x :: b)) in Heq.
  apply map_eq_app in Heq as (zpre & zrest & Hb & <- & Hrest).
  apply map_eq_cons in Hrest as (z & zpost & -> & Hz & <-).
  unfold int_cell at 1 in Hz. injection Hz as Hkey <-.
  exists (fst z). rewrite <- Hkey. split; [reflexivity|].
  assert (Hin : In (fst z, snd z) (x :: b)).
  { rewrite Hb. apply in_or_app. right. left. now destruct z. }
  rewrite (group_size_in _ _ _ Hasc Hin).
  assert (Hpos : (1 <= snd z)%nat).
  { rewrite Forall_forall in Hall. apply (Hall _ Hin). }
  rewrite Hb in Hasc. pose proof (ascending_after _ _ _ Hasc) as Hafter.
  rewrite Forall_forall in Hpre, Hpost, Hafter.
  assert (Hcase : forall k', group_size k' (x :: b) <> 0%nat ->
            (snd z < group_size k' (x :: b))%nat
            \/ (fst z <= k' /\ (snd z <= group_size k' (x :: b))%nat)).
  { intros k' Hk'. apply group_size_found in Hk'.
    set (m := group_size k' (x :: b)) in *. rewrite Hb in Hk'.
    apply in_app_or in Hk' as [Hk'|[Hk'|Hk']].
    - left. apply (Hpre (int_cell (k', m))). now apply in_map.
    - right. subst z. cbn. lia.
    - right. split.
      + specialize (Hafter _ Hk'). cbn in Hafter. lia.
      + apply (Hpost (int_cell (k', m))). now apply in_map. }
  split; [exact Hpos|]. split.
  - intros k' Hk'. destruct (Hcase k' Hk'); lia.
  - intros k' Heq. destruct (Hcase k'); lia.
Qed.

(** X22: on a column in which every row has a timestamp, the hourly
    metrics are there.  The peak hour is an hour with the most posts,
    and the earliest of these; the low hour is an hour with the fewest
    posts among the hours that have a post, and the earliest of
    these. *)
Theorem calculate_time_based_metrics_peak_hour
  (pd : Pandas) (l : loc) (f : DataFrame) (h : heap) (col : string)
  (ts : list Z) :
  h !! l = Some f ->
  df_get f col = Some (SDatetime (map Some ts)) ->
  ts <> [] ->
  ~ In col time_columns ->
  exists tm h' stats peak_hour low_hour,
    calculate_time_based_metrics pd (PyFrame l) col h = (Ok tm, h')
    /\ hourly tm = Some stats
    /\ peak stats = CInt peak_hour /\ low stats = CInt low_hour
    /\ (forall k, (posts_in_hour ts k <= posts_in_hour ts peak_hour)%nat)
    /\ (forall k, posts_in_hour ts k = posts_in_hour ts peak_hour ->
                  peak_hour <= k)
    /\ (1 <= posts_in_hour ts low_hour)%nat
    /\ (forall k, (1 <= posts_in_hour ts k)%nat ->
                  (posts_in_hour ts low_hour <= posts_in_hour ts k)%nat)
    /\ (forall k, posts_in_hour ts k = posts_in_hour ts low_hour ->
                  low_hour <= k).
Proof.
  intros E Hcol Hts Hother.
  assert (Hne : forall c, In c time_columns -> c <> col).
  { intros c Hc ->. auto. }
  destruct (hour_groups ts Hts) as (b & Hgroups & Hb & Hasc & Hpos & Hsize).
  destruct (idxmax_hour b Hb Hasc Hpos) as (kmax & Hmax & Hmost & Hfirst).
  destruct (idxmin_hour b Hb Hasc Hpos) as (kmin & Hmin & Hone & Hleast & Hfirst').
  assert (Hall : forallb is_some (map Some ts) = true).
  { clear. induction ts as [|t ts IH]; [reflexivity|exact IH]. }
  assert (Hhours : dt_hour (SDatetime (map Some ts))
                   = Ok (SInt (map hour_of ts))).
  { unfold dt_hour. rewrite Hall, map_map. reflexivity. }
  unfold calculate_time_based_metrics, try_except,
    calculate_time_based_metrics_body.
  rewrite bind_eq, (getitem_frame _ _ _ _ E), Hcol, bind_lift, Hhours.
  rewrite bind_eq, (setitem_frame _ _ _ _ _ E).
  set (f1 := df_set f "hour" _).
  assert (E1 : <[l := f1]> h !! l = Some f1) by apply lookup_insert_eq.
  rewrite bind_eq, (getitem_frame _ _ _ _ E1).
  unfold f1 at 1.
  rewrite df_get_set_ne, Hcol by (apply Hne; simpl; tauto).
  rewrite bind_lift. cbn [dt_day_name].
  rewrite bind_eq, (setitem_frame _ _ _ _ _ E1), insert_insert_eq.
  set (f2 := df_set f1 "day" _).
  assert (E2 : <[l := f2]> h !! l = Some f2) by apply lookup_insert_eq.
  rewrite bind_eq, (getitem_frame _ _ _ _ E2).
  unfold f2 at 1, f1 at 1.
  rewrite !df_get_set_ne, Hcol by (apply Hne; simpl; tauto).
  rewrite bind_lift. cbn [dt_isocalendar_week].
  rewrite bind_eq, (setitem_frame _ _ _ _ _ E2), insert_insert_eq.
  set (f3 := df_set f2 "week" _).
  assert (E3 : <[l := f3]> h !! l = Some f3) by apply lookup_insert_eq.
  assert (Hhour : df_get f3 "hour" = Some (SInt (map hour_of ts))).
  { unfold f3, f2, f1. rewrite !df_get_set_ne by discriminate.
    apply df_get_set_eq. }
  assert (Hday : exists days,
            df_get f3 "day" = Some days /\ group_sizes days <> []).
  { eexists. split.
    - unfold f3, f2. rewrite df_get_set_ne by discriminate.
      apply df_get_set_eq.
    - destruct ts as [|t ts']; [congruence|].
      apply (group_sizes_nonempty _ (CObj (OStr (day_name_of t))));
        [now left|reflexivity]. }
  destruct Hday as (days & Hday & Hdays).
  rewrite bind_eq. unfold bucket_metrics at 1.
  rewrite bind_eq, (getitem_frame _ _ _ _ E3), Hhour, Hgroups.
  rewrite bind_lift, Hmax, bind_lift, Hmin. unfold ret at 1.
  rewrite bind_eq. unfold bucket_metrics.
  rewrite bind_eq, (getitem_frame _ _ _ _ E3), Hday.
  destruct (group_sizes days) as [|x d] eqn:Hd; [congruence|].
  rewrite bind_lift. cbn [idxmax]. rewrite bind_lift. cbn [idxmin].
  unfold ret.
  eexists _, _, _, kmax, kmin. split; [reflexivity|].
  cbn [hourly peak low]. split; [reflexivity|].
  split; [reflexivity|]. split; [reflexivity|].
  repeat split.
  - intros k. rewrite <- !Hsize. apply Hmost.
  - intros k. rewrite <- !Hsize. apply Hfirst.
  - rewrite <- Hsize. exact Hone.
  - intros k. rewrite <- !Hsize. intros Hk. apply Hleast. lia.
  - intros k. rewrite <- !Hsize. apply Hfirst'.
Qed.

Lemma calculate_time_based_metrics_peak_hour_witness :
  exists tm h' stats peak_hour,
    calculate_time_based_metrics first_value (PyFrame 1) "created_utc"
      {[1%positive := frame_three_posts]} = (Ok tm, h')
    /\ hourly tm = Some stats /\ peak stats = CInt peak_hour
    /\ forall k,
         (posts_in_hour three_timestamps k
          <= posts_in_hour three_timestamps peak_hour)%nat.
Proof.
  destruct (calculate_time_based_metrics_peak_hour first_value 1%positive
              frame_three_posts {[1%positive := frame_three_posts]}
              "created_utc" three_timestamps)
    as (tm & h' & stats & pk & lw & Hrun & Hh & Hp & _ & Hmost & _);
    [apply lookup_singleton_eq|reflexivity|discriminate
    |unfold time_columns; simpl; intuition discriminate|].
  exists tm, h', stats, pk. auto.
Defined.

(** ** The report *)

Lemma _calculate_ticker_sentiment_total df (h : heap) :
  exists d, _calculate_ticker_sentiment df h = (Ok d, h).
Proof.
  unfold _calculate_ticker_sentiment.
  destruct (deref df AttributeError h) as [[f|e] h0]; [|eauto].
  destruct (ticker_sentiment_body f); eauto.
Qed.

Lemma reads_only_bind {A B} (m : M A) (k : A -> M B) :
  reads_only m -> (forall a, reads_only (k a)) -> reads_only (bind m k).
Proof.
  intros Hm Hk h. rewrite bind_eq. specialize (Hm h).
  destruct (m h) as [[a|e] h0]; cbn [snd] in Hm; subst h0; [apply Hk|].
  reflexivity.
Qed.

Lemma reads_only_deref df e : reads_only (deref df e).
Proof.
  intros h. unfold deref. destruct df as [|l]; [reflexivity|].
  now destruct (h !! l).
Qed.

Lemma reads_only_getitem df col : reads_only (getitem df col).
Proof.
  unfold getitem. apply reads_only_bind; [apply reads_only_deref|].
  intros f. now destruct (df_get f col).
Qed.

Lemma reads_only_lift {A} (r : result A) : reads_only (lift r).
Proof. intros h. unfold lift. now destruct r. Qed.

Lemma reads_only_insights_item ins key : reads_only (insights_item ins key).
Proof. intros h. now destruct ins. Qed.

Lemma reads_only_ticker_sentiment df :
  reads_only (_calculate_ticker_sentiment df).
Proof.
  intros h. destruct (_calculate_ticker_sentiment_total df h) as [d ->].
  reflexivity.
Qed.

Lemma generate_report_body_heap pd ops df ins (h : heap) :
  snd (generate_report_body pd ops df ins h) = h.
Proof.
  revert h. change (reads_only (generate_report_body pd ops df ins)).
  unfold generate_report_body.
  repeat (apply reads_only_bind;
          [first [apply reads_only_deref|apply reads_only_getitem
                 |apply reads_only_lift|apply reads_only_insights_item]
          |intros ?]).
  destruct ins; [intros h; reflexivity|].
  apply reads_only_bind; [apply reads_only_ticker_sentiment|].
  intros ? h. reflexivity.
Qed.

(** X23: [generate_report] never raises and never changes the heap.
    What it returns is the error dictionary whenever the insights are
    the empty dictionary, and whenever the frame has no column
    [author], a column the validator does not ask for. *)
Theorem generate_report_error
  (pd : Pandas) (ops : ReportOps) (df : pyobj) (ins : insights) (h : heap) :
  exists r,
    generate_report pd ops df ins h = (Ok r, h)
    /\ (ins = EmptyInsights -> exists e, r = ErrorReport e)
    /\ (forall l f,
          df = PyFrame l -> h !! l = Some f -> df_get f "author" = None ->
          exists e, r = ErrorReport e).
Proof.
  pose proof (generate_report_body_heap pd ops df ins h) as Hheap.
  unfold generate_report, try_except.
  destruct (generate_report_body pd ops df ins h) as [[r|e] h0] eqn:Hbody;
    cbn [snd] in Hheap; subst h0.
  2:{ exists (ErrorReport e). unfold ret. split; [reflexivity|].
      split; eauto. }
  exists r. split; [reflexivity|]. split.
  - intros ->. exfalso. revert Hbody. unfold generate_report_body.
    repeat (rewrite bind_eq;
            match goal with
            | |- context [match ?m h with _ => _ end] =>
                destruct (m h) as [[?|?] ?]; [|discriminate]
            | |- context [match ?m ?h' with _ => _ end] =>
                destruct (m h') as [[?|?] ?]; [|discriminate]
            end).
    discriminate.
  - intros l f -> E Hauthor. exfalso. revert Hbody.
    unfold generate_report_body.
    rewrite bind_eq, (deref_frame _ _ _ _ E).
    rewrite bind_eq, (getitem_frame _ _ _ _ E).
    destruct (df_get f "created_utc"); [|discriminate].
    rewrite bind_lift. destruct (min_isoformat ops _); [|discriminate].
    rewrite bind_eq, (getitem_frame _ _ _ _ E).
    destruct (df_get f "created_utc"); [|discriminate].
    rewrite bind_lift. destruct (max_isoformat ops _); [|discriminate].
    rewrite bind_eq, (getitem_frame _ _ _ _ E), Hauthor. discriminate.
Qed.

Lemma bind_reads {A B} (m : M A) (k : A -> M B) (h h' : heap) r :
  reads_only m -> bind m k h = (Ok r, h') ->
  exists a, m h = (Ok a, h) /\ k a h = (Ok r, h').
Proof.
  intros Hm. rewrite bind_eq. specialize (Hm h).
  destruct (m h) as [[a|e] h0]; cbn [snd] in Hm; subst h0; [eauto|].
  discriminate.
Qed.

Ltac read_step H a Ha :=
  apply bind_reads in H as (a & Ha & H);
  [|first [apply reads_only_deref | apply reads_only_getitem
          | apply reads_only_lift | apply reads_only_insights_item
          | apply reads_only_ticker_sentiment]].

(** What a full report has been put together from. *)
Lemma generate_report_body_inv pd ops df ins (h h' : heap) rd :
  generate_report_body pd ops df ins h = (Ok (Report rd), h') ->
  exists d tickers,
    ins = Insights d
    /\ _calculate_ticker_sentiment df h = (Ok tickers, h)
    /\ ticker_sentiment rd = tickers
    /\ stock_top_tickers rd = top_tickers d
    /\ report_trending_topics rd = firstn 10 (trending_topics d)
    /\ report_sentiment_distribution rd = sentiment_distribution d
    /\ engagement_metrics rd = engagement_stats_of d
    /\ time_analysis rd = time_metrics_of d
    /\ timestamp rd = now_isoformat ops.
Proof.
  unfold generate_report_body. intros H.
  read_step H f Hf. read_step H cu1 Hcu1. read_step H ds Hds.
  read_step H cu2 Hcu2. read_step H de Hde. read_step H au Hau.
  read_step H ua Hua. read_step H se Hse. read_step H os Hos.
  read_step H d1 Hd1. read_step H score Hscore. read_step H av Hav.
  read_step H d2 Hd2. read_step H d3 Hd3. read_step H d4 Hd4.
  destruct ins as [|d]; [discriminate H|].
  cbn in Hd1, Hd2, Hd3, Hd4.
  injection Hd1 as <-. injection Hd2 as <-.
  injection Hd3 as <-. injection Hd4 as <-.
  read_step H ts Hts. unfold ret in H. injection H as <- <-.
  exists d, ts. cbn. repeat split; auto.
Qed.

(** X24: the report of a successful run.  [generate_report] answers
    without an exception and without a change of the heap.  When the
    frame has no column [author], which the validator and the run do
    not ask for, the answer is the error dictionary; and in a full
    report the stock analysis is empty, without top tickers and without
    ticker sentiment, and there are ten trending topics at most. *)
Theorem generate_report_after_run
  (pd : Pandas) (ops : ReportOps) (sa : SentimentAnalyzer) (l : loc)
  (f : DataFrame) (r : pyobj * insights) (h h' : heap) :
  h !! l = Some f ->
  process_reddit_data pd sa (PyFrame l) h = (Ok r, h') ->
  exists rep,
    generate_report pd ops (fst r) (snd r) h' = (Ok rep, h')
    /\ (df_get f "author" = None -> exists e, rep = ErrorReport e)
    /\ (forall rd,
          rep = Report rd ->
          stock_top_tickers rd = [] /\ ticker_sentiment rd = []
          /\ (List.length (report_trending_topics rd) <= 10)%nat).
Proof.
  intros E Hrun.
  pose proof (generate_report_body_heap pd ops (fst r) (snd r) h') as Hheap.
  destruct (process_reddit_data_extracts_nothing _ _ _ _ _ _ _ E Hrun)
    as (f' & text & Hf' & _ & _ & _ & Htop).
  destruct (process_reddit_data_ticker_sentiment_empty _ _ _ _ _ _ _ E Hrun)
    as [Hfst Htick].
  destruct (process_reddit_data_ok _ _ _ _ _ _ Hrun)
    as (l' & f0 & h1 & ins & [= <-] & E0 & _ & Henrich & Hins & Hr).
  rewrite E in E0. injection E0 as <-.
  assert (Hauthor : df_get f' "author" = df_get f "author").
  { destruct (enrich_frame sa l h f E) as (re & f1 & He & Hkeep1 & _).
    rewrite Henrich in He. injection He as _ ->.
    assert (E1 : <[l := f1]> h !! l = Some f1) by apply lookup_insert_eq.
    destruct (_calculate_insights_frame pd l _ _ E1)
      as (ri & f2 & Hi & Hkeep2 & _).
    rewrite Hins in Hi. injection Hi as _ ->.
    rewrite lookup_insert_eq in Hf'. injection Hf' as <-.
    rewrite Hkeep2, Hkeep1; [reflexivity| |];
      unfold enrich_columns, engagement_columns, time_columns; simpl;
      intuition discriminate. }
  unfold generate_report, try_except.
  destruct (generate_report_body pd ops (fst r) (snd r) h')
    as [[rep|e] h0] eqn:Hbody; cbn [snd] in Hheap; subst h0.
  2:{ exists (ErrorReport e). unfold ret. split; [reflexivity|].
      split; [eauto|discriminate]. }
  exists rep. split; [reflexivity|]. split.
  - intros Hnone. exfalso. rewrite <- Hauthor in Hnone.
    revert Hbody. rewrite Hfst. unfold generate_report_body.
    rewrite bind_eq, (deref_frame _ _ _ _ Hf').
    rewrite bind_eq, (getitem_frame _ _ _ _ Hf').
    destruct (df_get f' "created_utc"); [|discriminate].
    rewrite bind_lift. destruct (min_isoformat ops _); [|discriminate].
    rewrite bind_eq, (getitem_frame _ _ _ _ Hf').
    destruct (df_get f' "created_utc"); [|discriminate].
    rewrite bind_lift. destruct (max_isoformat ops _); [|discriminate].
    rewrite bind_eq, (getitem_frame _ _ _ _ Hf'), Hnone. discriminate.
  - intros rd ->.
    destruct (generate_report_body_inv _ _ _ _ _ _ _ Hbody)
      as (d & tickers & Hd & Ht & <- & -> & -> & _).
    rewrite Htick in Ht. injection Ht as <-.
    split; [now apply Htop|]. split; [reflexivity|].
    rewrite length_firstn. lia.
Qed.

Lemma generate_report_after_run_witness :
  exists r h' e,
    process_reddit_data first_value always_positive (PyFrame 1)
      {[1%positive := frame_one_post]} = (Ok r, h')
    /\ generate_report first_value plain_ops (fst r) (snd r) h'
       = (Ok (ErrorReport e), h').
Proof.
  destruct (process_reddit_data first_value always_positive (PyFrame 1)
              {[1%positive := frame_one_post]}) as [[r|e] h'] eqn:Hrun;
    [|vm_compute in Hrun; discriminate Hrun].
  destruct (generate_report_after_run first_value plain_ops always_positive
              1%positive frame_one_post r _ h'
              (lookup_singleton_eq 1%positive frame_one_post) Hrun)
    as (rep & Hrep & Herr & _).
  destruct (Herr eq_refl) as [e ->].
  exists r, h', e. split; [reflexivity|exact Hrep].
Defined.

Lemma generate_report_error_witness :
  exists e,
    generate_report first_value plain_ops (PyFrame 1) EmptyInsights
      {[1%positive := frame_one_post]}
    = (Ok (ErrorReport e), {[1%positive := frame_one_post]}).
Proof.
  destruct (generate_report_error first_value plain_ops (PyFrame 1)
              EmptyInsights {[1%positive := frame_one_post]})
    as (r & Hrun & Hempty & _).
  destruct (Hempty eq_refl) as [e ->]. exists e. exact Hrun.
Defined.

(** ** The sentiment statistics *)

Lemma reads_only_ret {A} (a : A) : reads_only (ret a).
Proof. intros h. reflexivity. Qed.

Lemma reads_only_raise {A} e : reads_only (@raise A e).
Proof. intros h. reflexivity. Qed.

Lemma get_sentiment_stats_body_reads pd sd self df col :
  reads_only (get_sentiment_stats_body pd sd self df col).
Proof.
  unfold get_sentiment_stats_body.
  apply reads_only_bind; [apply reads_only_getitem|intros texts].
  apply reads_only_bind; [apply reads_only_lift|intros [|r rs]].
  - apply reads_only_raise.
  - apply reads_only_bind; [apply reads_only_lift|intros a].
    apply reads_only_ret.
Qed.

(** X25: [get_sentiment_stats] never raises and never changes the heap.
    For an object that is no frame, for a frame without the text column
    and for a column without rows it returns the statistics of its
    handler: all ratios 0, the average score 0.5. *)
Theorem get_sentiment_stats_default
  (pd : Pandas) (pd_std_float : list float -> float)
  (self : SentimentAnalyzer) (df : pyobj) (text_column : string) (h : heap) :
  (exists stats,
     get_sentiment_stats pd pd_std_float self df text_column h = (Ok stats, h))
  /\ ((forall l f, df = PyFrame l -> h !! l = Some f ->
         df_get f text_column = None
         \/ exists s, df_get f text_column = Some s /\ cells s = []) ->
      get_sentiment_stats pd pd_std_float self df text_column h
      = (Ok default_stats, h)).
Proof.
  pose proof (get_sentiment_stats_body_reads pd pd_std_float self df
                text_column h) as Hheap.
  unfold get_sentiment_stats, try_except. split.
  - destruct (get_sentiment_stats_body pd pd_std_float self df text_column h)
      as [[stats|e] h0]; cbn [snd] in Hheap; subst h0; unfold ret; eauto.
  - intros Hempty.
    assert (Hbody : exists e,
              get_sentiment_stats_body pd pd_std_float self df text_column h
              = (Raise e, h)); [|destruct Hbody as [e ->]; reflexivity].
    unfold get_sentiment_stats_body.
    destruct df as [|l].
    { eexists. unfold getitem. now rewrite !bind_eq, deref_none. }
    destruct (h !! l) as [f|] eqn:E.
    2:{ eexists. unfold getitem.
        now rewrite !bind_eq, (deref_dangling _ _ _ E). }
    rewrite bind_eq, (getitem_frame _ _ _ _ E).
    destruct (Hempty l f eq_refl E) as [->|(s & -> & Hs)]; [eauto|].
    rewrite bind_lift. unfold analyze_texts_batch. rewrite Hs.
    cbn [map_result]. unfold raise. eauto.
Qed.

Lemma label_count_split (results : list (str * float)) :
  Forall (fun r => In (fst r) [str_of "positive"; str_of "negative";
                               str_of "neutral"]) results ->
  (label_count (str_of "positive") results
   + label_count (str_of "negative") results
   + label_count (str_of "neutral") results
   = List.length results)%nat.
Proof.
  unfold label_count.
  induction 1 as [|[label score] rs Hr _ IH]; [reflexivity|].
  cbn [List.filter List.length fst]. cbn [In fst] in Hr.
  destruct Hr as [<-|[<-|[<-|[]]]];
    repeat match goal with
           | |- context [str_eqb ?a ?b] =>
               let v := eval vm_compute in (str_eqb a b) in
               change (str_eqb a b) with v
           end;
    cbn [List.length]; lia.
Qed.

Lemma analyze_text_cell_textblob self c r :
  use_transformers self = false ->
  analyze_text_cell self c = Ok r ->
  In (fst r) [str_of "positive"; str_of "negative"; str_of "neutral"].
Proof.
  intros Hflag. unfold analyze_text_cell.
  assert (Hn : In (fst neutral) [str_of "positive"; str_of "negative";
                                 str_of "neutral"]) by (simpl; auto).
  assert (Htext : forall x, analyze_text self x = Ok r ->
            In (fst r) [str_of "positive"; str_of "negative";
                        str_of "neutral"]).
  { intros x. unfold analyze_text. destruct x as [s| |];
      [|now intros [= <-]|discriminate].
    destruct (strip s); [now intros [= <-]|].
    unfold analyze_text_body. rewrite Hflag.
    destruct (textblob_polarity self s) as [p|e]; [|now intros [= <-]].
    destruct (PrimFloat.ltb tenth p); [intros [= <-]; simpl; auto|].
    destruct (PrimFloat.ltb p (- tenth)); intros [= <-]; simpl; auto. }
  destruct c as [?|?|?|?|[?| |l]]; try apply Htext.
  destruct (Nat.eqb (List.length l) 1); discriminate.
Qed.

(** X26: with TextBlob as the model, the statistics of a column with at
    least one row, when the analysis of no row raises, are ratios of
    counts: so many positive, negative and neutral rows over the number
    of rows, and the three counts add up to the number of rows. *)
Theorem get_sentiment_stats_ratios
  (pd : Pandas) (pd_std_float : list float -> float)
  (self : SentimentAnalyzer) (l : loc) (f : DataFrame) (texts : Series)
  (results : list (str * float)) (text_column : string) (h : heap) :
  h !! l = Some f ->
  df_get f text_column = Some texts ->
  use_transformers self = false ->
  analyze_texts_batch self texts = Ok results ->
  results <> [] ->
  (label_count (str_of "positive") results
   + label_count (str_of "negative") results
   + label_count (str_of "neutral") results
   = List.length (cells texts))%nat
  /\ exists stats,
       get_sentiment_stats pd pd_std_float self (PyFrame l) text_column h
       = (Ok stats, h)
       /\ ((exists average, pd_mean pd (SFloat (map snd results)) = Ok average) ->
           stats_positive_ratio stats = label_ratio (str_of "positive") results
           /\ stats_negative_ratio stats
              = label_ratio (str_of "negative") results
           /\ stats_neutral_ratio stats = label_ratio (str_of "neutral") results).
Proof.
  intros E Hcol Hflag Hres Hne. split.
  - unfold analyze_texts_batch in Hres.
    destruct (map_result_ok _ _ _ Hres) as [Hlen _]. rewrite <- Hlen.
    apply label_count_split. apply map_result_values in Hres.
    clear Hne Hlen.
    induction Hres as [|c r cs rs Hc _ IH]; constructor;
      [eapply analyze_text_cell_textblob; eauto|exact IH].
  - unfold get_sentiment_stats, try_except, get_sentiment_stats_body.
    rewrite bind_eq, (getitem_frame _ _ _ _ E), Hcol, bind_lift, Hres.
    destruct results as [|r rs]; [congruence|].
    rewrite bind_lift.
    destruct (pd_mean pd (SFloat (map snd (r :: rs)))) as [average|e].
    + eexists. split; [reflexivity|]. intros _. cbn. auto.
    + eexists. split; [reflexivity|]. intros [a Ha]. discriminate Ha.
Qed.

Lemma get_sentiment_stats_ratios_witness :
  exists stats,
    get_sentiment_stats first_value (fun _ => PrimFloat.nan) eager_textblob
      (PyFrame 1) "text" {[1%positive := frame_one_post]}
    = (Ok stats, {[1%positive := frame_one_post]})
    /\ stats_positive_ratio stats = 1%float.
Proof.
  destruct (get_sentiment_stats_ratios first_value (fun _ => PrimFloat.nan)
              eager_textblob 1%positive frame_one_post
              (SObject [OStr "Apple earnings beat expectations $AAPL"])
              [(str_of "positive", 1%float)] "text"
              {[1%positive := frame_one_post]})
    as (_ & stats & Hrun & Hratio);
    [apply lookup_singleton_eq|reflexivity|reflexivity|reflexivity
    |discriminate|].
  exists stats. split; [exact Hrun|].
  destruct Hratio as (-> & _); [eexists; reflexivity|].
  vm_compute. reflexivity.
Defined.

Lemma get_sentiment_stats_default_witness :
  get_sentiment_stats first_value (fun _ => PrimFloat.nan) always_positive
    (PyFrame 1) "text" {[1%positive := frame_no_rows]}
  = (Ok default_stats, {[1%positive := frame_no_rows]}).
Proof.
  apply (proj2 (get_sentiment_stats_default first_value
                  (fun _ => PrimFloat.nan) always_positive (PyFrame 1)
                  "text" {[1%positive := frame_no_rows]})).
  intros l f [= <-] Hf. rewrite lookup_singleton_eq in Hf.
  injection Hf as <-. right. exists (SObject []). split; reflexivity.
Defined.
